(** * Query-processing orchestrator of RAG-v6: a shallow embedding

    The development follows the Python sources
      - [backend/app/services/analysis_engine_exact.py] (orchestrator, word
        chunker, similarity ranker),
      - [analysis_engine.py] (model gateway with retries, access token
        cache),
      - [backend/app/services/openai_client.py] (script executor, character
        window chunker, the backend's gateway, extraction loop and retrieval
        path, [analyze]),
      - [backend/app/services/embeddings_cache.py] (embeddings cache and its
        clearing).

    Conventions.
      - A Python [str] is a list of characters; characters are the code
        points below 256, so [ascii] stands for one character.
      - A Python [int] is a [Z]; list lengths and loop counters that the code
        only ever counts upwards are [nat].
      - A call that may raise returns an [outcome]; faults are instances of
        Python's [Exception] (the class every [except Exception] handler of
        the sources catches), identified by their [str(e)] text.
      - The hosted model, the interpreter, the file system and the clock are
        the environment: they are parameters of the functions that use them.
      - Similarity scores are rationals; the floating point cosine itself is a
        parameter of the ranker. *)

From Stdlib Require Import ZArith QArith Lia List Ascii String Bool.
From Stdlib Require Import Permutation Sorted DecimalString.
From stdpp Require Import base gmap strings sorting.
Import ListNotations.

(** ** Part I. Definitions *)

(** *** Python strings and lists *)

Definition str : Type := list ascii.

(** A string literal of the source. *)
Definition py (s : string) : str := list_ascii_of_string s.

(** [str.isspace] for one character (code points below 256). *)
Definition py_isspace (c : ascii) : bool :=
  let n := nat_of_ascii c in
  ((9 <=? n) && (n <=? 13) || (28 <=? n) && (n <=? 32)
   || (n =? 133) || (n =? 160))%nat.

(** [str.lower] for one character. *)
Definition py_lower_char (c : ascii) : ascii :=
  let n := nat_of_ascii c in
  if ((65 <=? n) && (n <=? 90)
      || (192 <=? n) && (n <=? 222) && negb (n =? 215))%nat
  then ascii_of_nat (n + 32) else c.

Definition lower (s : str) : str := map py_lower_char s.

Fixpoint lstrip (s : str) : str :=
  match s with
  | c :: s' => if py_isspace c then lstrip s' else s
  | [] => []
  end.

Definition rstrip (s : str) : str := rev (lstrip (rev s)).

(** [s.strip()] *)
Definition strip (s : str) : str := rstrip (lstrip s).

(** [s.startswith(p)] *)
Fixpoint startswith (s p : str) : bool :=
  match p, s with
  | [], _ => true
  | a :: p', b :: s' => Ascii.eqb a b && startswith s' p'
  | _ :: _, [] => false
  end.

(** [s.endswith(p)] *)
Definition endswith (s p : str) : bool := startswith (rev s) (rev p).

(** [sub in s] *)
Fixpoint contains (sub s : str) : bool :=
  startswith s sub
  || match s with
     | [] => false
     | _ :: s' => contains sub s'
     end.

(** [s.count(c)] for a one-character [c]. *)
Definition count_char (c : ascii) (s : str) : Z :=
  Z.of_nat (length (List.filter (Ascii.eqb c) s)).

Fixpoint find_last (c : ascii) (s : str) (i best : Z) : Z :=
  match s with
  | [] => best
  | x :: s' => find_last c s' (i + 1) (if Ascii.eqb x c then i else best)
  end.

(** [s.rfind(c)] for a one-character [c]: the last index, or [-1]. *)
Definition rfind (s : str) (c : ascii) : Z := find_last c s 0 (-1).

(** [sep.join(l)] *)
Fixpoint join (sep : str) (l : list str) : str :=
  match l with
  | [] => []
  | [x] => x
  | x :: rest => x ++ sep ++ join sep rest
  end.

(** Where a slice bound lands: negative bounds count from the end, and
    every bound is clipped to [0 .. len]. *)
Definition slice_bound (len i : Z) : Z :=
  if (i <? 0)%Z then Z.max 0 (len + i) else Z.min i len.

(** [l[lo:hi]] *)
Definition py_slice {A : Type} (l : list A) (lo hi : Z) : list A :=
  let n := Z.of_nat (length l) in
  let lo' := slice_bound n lo in
  let hi' := slice_bound n hi in
  firstn (Z.to_nat (hi' - lo')) (skipn (Z.to_nat lo') l).

(** [l[lo:]] *)
Definition py_slice_from {A : Type} (l : list A) (lo : Z) : list A :=
  skipn (Z.to_nat (slice_bound (Z.of_nat (length l)) lo)) l.

(** [l[:hi]] *)
Definition py_slice_to {A : Type} (l : list A) (hi : Z) : list A :=
  firstn (Z.to_nat (slice_bound (Z.of_nat (length l)) hi)) l.

(** [s.split()]: maximal runs of non-whitespace characters.  [cur] is the
    word being read. *)
Fixpoint split_from (cur : str) (s : str) : list str :=
  match s with
  | [] => match cur with [] => [] | _ => [cur] end
  | c :: s' =>
      if py_isspace c
      then match cur with
           | [] => split_from [] s'
           | _ => cur :: split_from [] s'
           end
      else split_from (cur ++ [c]) s'
  end.

Definition split (s : str) : list str := split_from [] s.

(** *** Faults *)

Inductive outcome (A : Type) : Type :=
| Ret (a : A)
| Raise (e : str).
Arguments Ret {A} a.
Arguments Raise {A} e.

Definition bind {A B : Type} (m : outcome A) (k : A -> outcome B) : outcome B :=
  match m with
  | Ret a => k a
  | Raise e => Raise e
  end.

(** [try: m  except Exception as e: h e] *)
Definition try_except {A : Type} (m : outcome A) (h : str -> A) : A :=
  match m with
  | Ret a => a
  | Raise e => h e
  end.

Declare Scope py_scope.
Delimit Scope py_scope with pyx.
Fixpoint mapM {A B : Type} (f : A -> outcome B) (l : list A) : outcome (list B) :=
  match l with
  | [] => Ret []
  | a :: l' =>
      match f a with
      | Raise e => Raise e
      | Ret b => match mapM f l' with
                 | Raise e => Raise e
                 | Ret bs => Ret (b :: bs)
                 end
      end
  end.

(** [range(start, stop, step)] as a list.  [fuel] bounds the number of
    elements; [py_range] supplies enough. *)
Fixpoint range_up (fuel : nat) (i stop step : Z) : list Z :=
  match fuel with
  | O => []
  | S f => if (i <? stop)%Z then i :: range_up f (i + step) stop step else []
  end.

Fixpoint range_down (fuel : nat) (i stop step : Z) : list Z :=
  match fuel with
  | O => []
  | S f => if (stop <? i)%Z then i :: range_down f (i + step) stop step else []
  end.

Definition py_range (start stop step : Z) : outcome (list Z) :=
  if (step =? 0)%Z then Raise (py "range() arg 3 must not be zero")
  else if (0 <? step)%Z
       then Ret (range_up (Z.to_nat (stop - start)) start stop step)
       else Ret (range_down (Z.to_nat (start - stop)) start stop step).

(** *** Word chunker: [prepare_document_chunks]
    (analysis_engine_exact.py, lines 317-341) *)

Definition prepare_document_chunks (content : str) (chunk_size : Z) : list str :=
  let words := split content in
  try_except
    (bind (py_range 0 (Z.of_nat (length words)) chunk_size) (fun idxs =>
     Ret (map (fun i => join (py " ") (py_slice words i (i + chunk_size))) idxs)))
    (fun _ => []).

(** A word: a non-empty run of non-whitespace characters. *)
Definition no_space (w : str) : Prop := Forall (fun c => py_isspace c = false) w.
Definition is_word (w : str) : Prop := w <> [] /\ no_space w.

(** The chunk count the specification gives: the ceiling of [w / s]. *)
Definition ceil_div (w s : Z) : Z := ((w + s - 1) / s)%Z.

(** *** Similarity ranker: [retrieve_relevant_chunks]
    (analysis_engine_exact.py, lines 343-381; analysis_engine.py, lines
    434-472 are the same code) *)

(** [l[i]] for a non-negative index. *)
Definition list_get {A : Type} (l : list A) (i : nat) : outcome A :=
  match nth_error l i with
  | Some a => Ret a
  | None => Raise (py "list index out of range")
  end.

Definition is_nil {A : Type} (l : list A) : bool :=
  match l with [] => true | _ => false end.

Section Ranker.

(** The cosine of two vectors of one dimension, as the library computes
    it. *)
Variable cosine : list Q -> list Q -> Q.

(** [numpy.argsort]: the indices of a score vector, in ascending order of
    score.  The order among equal scores is the library's choice. *)
Variable argsort : list Q -> list nat.

(** [cosine_similarity([query], embeddings)[0]]: the library refuses
    vectors of different dimensions. *)
Definition cosine_similarity (query : list Q) (embeddings : list (list Q))
  : outcome (list Q) :=
  if forallb (fun e => length e =? length query)%nat embeddings
  then Ret (map (cosine query) embeddings)
  else Raise (py "Incompatible dimension for X and Y matrices").

(** The [for idx in sorted_indices] loop. *)
Definition select_relevant (similarities : list Q) (sorted_indices : list nat)
    (top_k : Z) (similarity_threshold : Q) : list nat :=
  fold_left
    (fun relevant_indices idx =>
       if Qle_bool similarity_threshold (nth idx similarities 0%Q)
          && (Z.of_nat (length relevant_indices) <? top_k)%Z
       then relevant_indices ++ [idx]
       else relevant_indices)
    sorted_indices [].

(** The indices the function settles on, given the similarities. *)
Definition relevant_indices_of (similarities : list Q) (top_k : Z)
    (similarity_threshold : Q) : list nat :=
  let sorted_indices := rev (argsort similarities) in
  let relevant_indices :=
    select_relevant similarities sorted_indices top_k similarity_threshold in
  if is_nil relevant_indices then firstn 5 sorted_indices
  else relevant_indices.

Definition retrieve_relevant_chunks (query_embedding : list Q)
    (chunks : list str) (chunk_embeddings : list (list Q))
    (top_k : Z) (similarity_threshold : Q) : list str :=
  try_except
    (if is_nil query_embedding || is_nil chunk_embeddings
     then Ret (py_slice_to chunks top_k)
     else
       bind (cosine_similarity query_embedding chunk_embeddings)
         (fun similarities =>
       mapM (list_get chunks)
         (relevant_indices_of similarities top_k similarity_threshold)))
    (fun _ => py_slice_to chunks top_k).

End Ranker.

(** Inputs on which the ranker's main path runs: a query embedding, one
    embedding per chunk, all of the query's dimension. *)
Definition ranker_inputs (query_embedding : list Q) (chunks : list str)
    (chunk_embeddings : list (list Q)) : Prop :=
  query_embedding <> []
  /\ chunks <> []
  /\ length chunk_embeddings = length chunks
  /\ Forall (fun e => length e = length query_embedding) chunk_embeddings.

(** Orders on indices by their score. *)
Definition by_ascending (s : list Q) (i j : nat) : Prop :=
  (nth i s 0 <= nth j s 0)%Q.
Definition by_descending (s : list Q) (i j : nat) : Prop :=
  (nth j s 0 <= nth i s 0)%Q.

(** What the ranker asks of [numpy.argsort]. *)
Definition argsort_spec (argsort : list Q -> list nat) : Prop :=
  forall s : list Q,
    Permutation (argsort s) (seq 0 (length s))
    /\ StronglySorted (by_ascending s) (argsort s).

(** The threshold pass of the ranker: what the selection loop keeps of the
    indices in descending score order. *)
Definition threshold_pass (argsort : list Q -> list nat) (similarities : list Q)
    (top_k : Z) (similarity_threshold : Q) : list nat :=
  select_relevant similarities (rev (argsort similarities)) top_k
    similarity_threshold.

(** A stable argsort by insertion, to run the ranker on examples. *)
Fixpoint insert_by (s : list Q) (i : nat) (l : list nat) : list nat :=
  match l with
  | [] => [i]
  | j :: l' =>
      if Qle_bool (nth i s 0%Q) (nth j s 0%Q) then i :: l
      else j :: insert_by s i l'
  end.

Definition argsort_insertion (s : list Q) : list nat :=
  fold_right (insert_by s) [] (seq 0 (length s)).

(** The inner product; it is the cosine on vectors of norm one. *)
Fixpoint dot (a b : list Q) : Q :=
  match a, b with
  | x :: a', y :: b' => (x * y + dot a' b')%Q
  | _, _ => 0%Q
  end.

(** The ranking property in the words of the specification: the result is
    sorted by descending similarity and made of input chunks; unless no chunk
    reaches the threshold it has at most [top_k] elements, all at or above the
    threshold; and if no chunk reaches the threshold it is the top five by raw
    similarity (all the chunks when there are fewer than five). *)
Definition ranking_as_specified (cosine : list Q -> list Q -> Q)
    (query_embedding : list Q) (chunks : list str)
    (chunk_embeddings : list (list Q)) (top_k : Z) (similarity_threshold : Q)
    (result : list str) : Prop :=
  let similarities := map (cosine query_embedding) chunk_embeddings in
  exists idxs : list nat,
    result = map (fun i => nth i chunks []) idxs
    /\ StronglySorted (by_descending similarities) idxs
    /\ Forall (fun c => In c chunks) result
    /\ (Exists (fun x => (similarity_threshold <= x)%Q) similarities ->
        (Z.of_nat (length idxs) <= top_k)%Z
        /\ Forall (fun i => (similarity_threshold <= nth i similarities 0)%Q) idxs)
    /\ (Forall (fun x => (x < similarity_threshold)%Q) similarities ->
        length idxs = Nat.min 5 (length chunks)
        /\ forall i j, In i idxs -> j < length chunks -> ~ In j idxs ->
             (nth j similarities 0 <= nth i similarities 0)%Q).

(** *** Query orchestrator: [autonomous_analysis_loop]
    (analysis_engine_exact.py, lines 91-284; analysis_engine.py, lines
    188-372 are the same loop without the debug copy of the script) *)

Definition newline : ascii := "010"%char.

(** [str(n)] for a loop counter. *)
Definition str_of_nat (n : nat) : str :=
  py (NilEmpty.string_of_uint (Nat.to_uint n)).

(** The dictionary [execute_script_and_analyze] returns. *)
Record ExecutionResult : Type := {
  success : bool;
  output : str;
  error : str;
  script_file : str
}.

(** The environment of one orchestration run.  The first argument of the
    calls made inside the loop is the iteration they are made in. *)
Record World : Type := {
  (** the model's answer to the script request of [get_gpt4o_script]
      (iteration, prompt, target file) *)
  script_reply : nat -> str -> str -> outcome str;
  (** the model's answer to [ask_gpt4o_for_decision]
      (iteration, prompt, execution result) *)
  decision_reply : nat -> str -> ExecutionResult -> outcome str;
  (** [open(name, 'w')] followed by the writes (name, content) *)
  write_file : str -> str -> outcome unit;
  (** [open(name, 'r')] followed by [read()] *)
  read_file : str -> outcome str;
  (** [subprocess.run(['python', name], ..., timeout=30)]: return code,
      stdout and stderr, or a fault such as the timeout
      (iteration, script name, script content) *)
  run_python : nat -> str -> str -> outcome (Z * str * str);
  (** [os.remove(name)] *)
  remove_file : str -> outcome unit;
  (** the embeddings request (call number, texts) *)
  embeddings_reply : nat -> list str -> outcome (list (list Q));
  (** the model's answer to the request of [generate_rag_response]
      (prompt, context) *)
  rag_reply : str -> str -> outcome str
}.

(** What a run does, in order. *)
Inductive event : Type :=
| EvGenerate (iteration : nat) (prompt : str)
| EvExecute (iteration : nat) (script_name : str)
| EvDecide (iteration : nat) (prompt : str)
| EvCleanup.

(** A computation that may raise and that records events. *)
Definition run (A : Type) : Type := (list event * outcome A)%type.

Definition unit_run {A : Type} (a : A) : run A := ([], Ret a).

Definition bind_run {A B : Type} (m : run A) (k : A -> run B) : run B :=
  match m with
  | (t, Ret a) => let (t', r) := k a in (t ++ t', r)
  | (t, Raise e) => (t, Raise e)
  end.

Definition emit (ev : event) : run unit := ([ev], Ret tt).

Definition call {A : Type} (o : outcome A) : run A := ([], o).

Notation "'run*' x ':=' m 'in' k" := (bind_run m (fun x => k))
  (at level 10, x name, m at level 100, k at level 200) : py_scope.

Definition is_event_generate (ev : event) : bool :=
  match ev with EvGenerate _ _ => true | _ => false end.

(** The number of generation attempts of a run. *)
Definition generation_attempts (t : list event) : nat :=
  length (List.filter is_event_generate t).

(** How one iteration of the loop ends. *)
Inductive step_result : Type :=
| StepReturn (answer : str)
| StepContinue (user_prompt : str)
| StepBreak.

Definition exhausted_message : str :=
  py "Analysis completed after maximum iterations".

Definition retry_hint : str :=
  py " (Previous attempt had issues, try a different approach)".

Section Orchestrator.

Variable w : World.

Definition get_gpt4o_script (iteration : nat) (prompt target_file : str)
  : outcome str :=
  bind (script_reply w iteration prompt target_file) (fun content =>
  let script_content := strip content in
  let script_content :=
    if startswith script_content (py "```python")
    then py_slice_from script_content 9 else script_content in
  let script_content :=
    if startswith script_content (py "```")
    then py_slice_from script_content 3 else script_content in
  let script_content :=
    if endswith script_content (py "```")
    then py_slice_to script_content (-3) else script_content in
  Ret (strip script_content)).

Definition execute_script_and_analyze (iteration : nat)
    (script_content script_name : str) : outcome ExecutionResult :=
  bind (write_file w script_name script_content) (fun _ =>
  Ret (try_except
         (bind (run_python w iteration script_name script_content)
            (fun '(returncode, stdout, stderr) =>
          Ret {| success := (returncode =? 0)%Z;
                 output := stdout;
                 error := stderr;
                 script_file := script_name |}))
         (fun e =>
          {| success := false;
             output := [];
             error := e;
             script_file := script_name |}))).

Definition ask_gpt4o_for_decision (iteration : nat) (prompt : str)
    (execution_result : ExecutionResult) : outcome str :=
  decision_reply w iteration prompt execution_result.

Definition debug_script : str := py "debug_last_generated_script.py".

(** The heuristic of the [DONE] branch. *)
Definition looks_detailed (output_text : str) : bool :=
  (contains (py "list") (lower output_text)
   && contains (py "detailed") (lower output_text))
  || (5 <? count_char newline output_text)%Z
  || (3 <? count_char "-"%char output_text)%Z.

(** Steps 1 to 3 of an iteration, up to the model's decision. *)
Definition iteration_decision (target_file : str) (iteration : nat)
    (user_prompt : str) : run (ExecutionResult * str) :=
  (run* _ := emit (EvGenerate iteration user_prompt) in
   run* script_content :=
     call (get_gpt4o_script iteration user_prompt target_file) in
   let script_filename :=
     py "gpt4o_script_iter_" ++ str_of_nat iteration ++ py ".py" in
   run* _ :=
     call (write_file w debug_script
             (py "# Generated script for iteration " ++ str_of_nat iteration
              ++ [newline] ++ py "# Prompt: " ++ user_prompt
              ++ [newline] ++ py "# Target file: " ++ target_file
              ++ [newline; newline] ++ script_content)) in
   run* _ := emit (EvExecute iteration script_filename) in
   run* execution_result :=
     call (execute_script_and_analyze iteration script_content
             script_filename) in
   run* _ := emit (EvDecide iteration user_prompt) in
   run* decision :=
     call (ask_gpt4o_for_decision iteration user_prompt execution_result) in
   unit_run (execution_result, decision))%pyx.

(** The branch on the decision. *)
Definition act_on_decision (user_prompt : str)
    (execution_result : ExecutionResult) (decision : str) : run step_result :=
  if startswith decision (py "DONE") then
    let final_answer := strip (py_slice_from decision 5) in
    if success execution_result && negb (is_nil (output execution_result))
    then
      let output_text := output execution_result in
      if looks_detailed output_text
      then ([EvCleanup], Ret (StepReturn output_text))
      else ([EvCleanup], Ret (StepReturn final_answer))
    else ([EvCleanup], Ret (StepReturn final_answer))
  else if startswith decision (py "CONTINUE") then
    unit_run (StepContinue (user_prompt ++ retry_hint))
  else unit_run StepBreak.

(** The body of the [try] of one iteration. *)
Definition iteration_try (target_file : str) (iteration : nat)
    (user_prompt : str) : run step_result :=
  bind_run (iteration_decision target_file iteration user_prompt)
    (fun '(execution_result, decision) =>
       act_on_decision user_prompt execution_result decision).

(** The [for] loop, with [remaining] iterations to go. *)
Fixpoint loop_iterations (target_file : str) (remaining iteration : nat)
    (user_prompt : str) : list event * str :=
  match remaining with
  | O => ([EvCleanup], exhausted_message)
  | S remaining' =>
      match iteration_try target_file iteration user_prompt with
      | (t, Ret (StepReturn answer)) => (t, answer)
      | (t, Ret (StepContinue user_prompt')) =>
          let (t', answer) :=
            loop_iterations target_file remaining' (S iteration) user_prompt'
          in (t ++ t', answer)
      | (t, Ret StepBreak) => (t ++ [EvCleanup], exhausted_message)
      | (t, Raise _) => (t ++ [EvCleanup], exhausted_message)
      end
  end.

(** [for iteration in range(1, max_iterations + 1)] *)
Definition autonomous_analysis_loop (user_prompt target_file : str)
    (max_iterations : Z) : list event * str :=
  loop_iterations target_file (Z.to_nat max_iterations) 1 user_prompt.

End Orchestrator.

(** The prompt after [k] [CONTINUE] decisions. *)
Fixpoint retry_prompt (user_prompt : str) (k : nat) : str :=
  match k with
  | O => user_prompt
  | S k' => retry_prompt (user_prompt ++ retry_hint) k'
  end.

(** Every one of the first [n] iterations reaches the model's decision, and
    the decision starts with [CONTINUE]. *)
Definition always_continue (w : World) (user_prompt target_file : str)
    (n : nat) : Prop :=
  forall k : nat, k < n ->
    exists (execution_result : ExecutionResult) (decision : str),
      snd (iteration_decision w target_file (S k) (retry_prompt user_prompt k))
        = Ret (execution_result, decision)
      /\ startswith decision (py "CONTINUE") = true.

(** [s.split(sep)] for a one-character separator. *)
Fixpoint split_on_from (sep : ascii) (cur s : str) : list str :=
  match s with
  | [] => [cur]
  | c :: s' =>
      if Ascii.eqb c sep then cur :: split_on_from sep [] s'
      else split_on_from sep (cur ++ [c]) s'
  end.

Definition split_on (sep : ascii) (s : str) : list str := split_on_from sep [] s.

(** The number of lines of a text whose first visible character is a
    hyphen. *)
Definition hyphen_prefixed_lines (s : str) : Z :=
  Z.of_nat (length (List.filter (fun line => startswith (lstrip line) (py "-"))
                      (split_on newline s))).

(** The heuristic of the [DONE] branch in the words of the specification:
    the words "list" and "detailed", or more than 5 newlines, or more than 3
    hyphen-prefixed lines. *)
Definition detailed_as_specified (output_text : str) : bool :=
  (contains (py "list") (lower output_text)
   && contains (py "detailed") (lower output_text))
  || (5 <? count_char newline output_text)%Z
  || (3 <? hyphen_prefixed_lines output_text)%Z.

(** *** Top-level query processor: [manual_query_processor]
    (analysis_engine_exact.py, lines 383-499) *)

Fixpoint str_eqb (a b : str) : bool :=
  match a, b with
  | [], [] => true
  | x :: a', y :: b' => Ascii.eqb x y && str_eqb a' b'
  | _, _ => false
  end.

Section QueryProcessor.

Variable cosine : list Q -> list Q -> Q.
Variable argsort : list Q -> list nat.
Variable w : World.

(** The first call embeds the chunks, the second the prompt. *)
Definition create_embeddings (call_number : nat) (texts : list str)
  : list (list Q) :=
  try_except (embeddings_reply w call_number texts) (fun _ => []).

Definition generate_rag_response (prompt : str) (relevant_chunks : list str)
  : str :=
  let context := join [newline; newline] relevant_chunks in
  try_except (rag_reply w prompt context)
    (fun e => py "Error generating RAG response: " ++ e).

Definition rag_analysis (prompt file_content : str) : str :=
  let chunks := prepare_document_chunks file_content 300 in
  if is_nil chunks
  then py "Error: Could not process document for RAG analysis"
  else
    let chunk_embeddings := create_embeddings 0 chunks in
    let query_embeddings := create_embeddings 1 [prompt] in
    match query_embeddings with
    | [] => py "Error: Could not create query embedding"
    | query_embedding :: _ =>
        let relevant_chunks :=
          retrieve_relevant_chunks cosine argsort query_embedding chunks
            chunk_embeddings 25 (5 # 100) in
        generate_rag_response prompt relevant_chunks
    end.

Definition temp_file : str := py "temp_analysis_file.txt".

Definition manual_query_processor (prompt method file_content : str)
  : outcome str :=
  if str_eqb method (py "extraction") then
    Ret (try_except
           (bind (write_file w temp_file file_content) (fun _ =>
            bind (read_file w temp_file) (fun temp_content =>
            let result :=
              snd (autonomous_analysis_loop w prompt temp_file 3) in
            let _ := try_except (remove_file w temp_file) (fun _ => tt) in
            Ret result)))
           (fun e => py "Error in extraction analysis: " ++ e))
  else if str_eqb method (py "reasoning") then
    Ret (rag_analysis prompt file_content)
  else Raise (py "Method must be 'extraction' or 'reasoning'").

End QueryProcessor.

(** [AIAnalysisEngine.analyze] (openai_client.py, lines 562-574); the two
    processing methods it routes to are parameters. *)
Definition analyze
    (process_with_extraction process_with_rag : str -> str -> str -> outcome str)
    (prompt method file_content filename : str) : str :=
  try_except
    (if str_eqb method (py "extraction")
     then process_with_extraction prompt file_content filename
     else if str_eqb method (py "reasoning")
          then process_with_rag prompt file_content filename
          else Raise (py "Unknown analysis method: " ++ method))
    (fun e => py "Analysis failed: " ++ e).

(** *** Worlds to run the orchestrator in *)

(** A model that always asks for another attempt. *)
Definition continue_world : World := {|
  script_reply := fun _ _ _ => Ret (py "print(1)");
  decision_reply := fun _ _ _ => Ret (py "CONTINUE: count again");
  write_file := fun _ _ => Ret tt;
  read_file := fun _ => Ret [];
  run_python := fun _ _ _ => Ret (0%Z, py "1", []);
  remove_file := fun _ => Ret tt;
  embeddings_reply := fun _ _ => Ret [];
  rag_reply := fun _ _ => Ret []
|}.

(** A script that prints one line with a date range, and a model that is
    content with it. *)
Definition dated_output : str :=
  py "2024-01-05 to 2024-02-07: 4 complaints" ++ [newline].

Definition dated_world : World := {|
  script_reply := fun _ _ _ =>
    Ret (py "print('2024-01-05 to 2024-02-07: 4 complaints')");
  decision_reply := fun _ _ _ => Ret (py "DONE: 4 complaints");
  write_file := fun _ _ => Ret tt;
  read_file := fun _ => Ret [];
  run_python := fun _ _ _ => Ret (0%Z, dated_output, []);
  remove_file := fun _ => Ret tt;
  embeddings_reply := fun _ _ => Ret [];
  rag_reply := fun _ _ => Ret []
|}.

(** The [DONE] branch in the words of the specification: the raw output
    exactly when it looks detailed in the specification's sense, the summary
    after the [DONE:] prefix otherwise. *)
Definition done_branch_as_specified (execution_result : ExecutionResult)
    (decision answer : str) : Prop :=
  answer = if detailed_as_specified (output execution_result)
           then output execution_result
           else strip (py_slice_from decision 5).

(** *** Script executor and character-window chunker
    (openai_client.py, [AIAnalysisEngine]) *)

Module OpenAIClient.

(** The dictionary [execute_script_safely] returns; a key that a branch
    does not set is [None]. *)
Record ScriptResult : Type := {
  success : bool;
  stdout : str;
  stderr : str;
  error : option str;
  variables : option (list (str * str))
}.

Section ScriptExecutor.

(** The objects a script can bind, and [str(v)] on them. *)
Variable value : Type.
Variable py_str : value -> outcome str.

(** [exec(script_code, safe_globals, safe_locals)] under the two
    redirections, with [file_content] bound in [safe_globals] and the
    restricted builtins: the captured stdout and stderr and the final
    [safe_locals], or the fault the script raised. *)
Variable py_exec : str -> str -> outcome (str * str * list (str * value)).

(** [{k: str(v) for k, v in safe_locals.items() if not k.startswith('_')}] *)
Definition render_variables (safe_locals : list (str * value))
  : outcome (list (str * str)) :=
  mapM (fun kv => bind (py_str (snd kv)) (fun s => Ret (fst kv, s)))
    (List.filter (fun kv => negb (startswith (fst kv) (py "_"))) safe_locals).

(** lines 341-395 *)
Definition execute_script_safely (script_code file_content : str)
  : ScriptResult :=
  try_except
    (bind (py_exec script_code file_content)
       (fun '(stdout_output, stderr_output, safe_locals) =>
     bind (render_variables safe_locals) (fun rendered =>
     Ret {| success := true;
            stdout := stdout_output;
            stderr := stderr_output;
            error := None;
            variables := Some rendered |})))
    (fun e =>
       {| success := false;
          error := Some e;
          stdout := [];
          stderr := e;
          variables := None |}).


End ScriptExecutor.

(** [str(n)] for a Python [int]: conversions of more than 4300 digits are
    refused with a [ValueError]. *)
Definition int_str (n : Z) : outcome str :=
  if (10 ^ 4300 <=? Z.abs n)%Z
  then Raise (py "Exceeds the limit (4300 digits) for integer string conversion; use sys.set_int_max_str_digits() to increase the limit")
  else Ret (py (NilEmpty.string_of_int (Z.to_int n))).




(** One window of [chunk_document] (lines 460-471): the chunk cut at
    [start] and the position where it ends. *)
Definition window (text : str) (chunk_size start : Z) : str * Z :=
  let end_ := (start + chunk_size)%Z in
  let chunk := py_slice text start end_ in
  if (end_ <? Z.of_nat (length text))%Z then
    let last_period := rfind chunk "."%char in
    let last_newline := rfind chunk newline in
    let break_point := Z.max last_period last_newline in
    if (start + chunk_size / 2 <? break_point)%Z
    then (py_slice text start (break_point + 1), (break_point + 1)%Z)
    else (chunk, end_)
  else (chunk, end_).

(** The [while] loop of [chunk_document] (lines 454-479).  [None]: the loop
    has not finished within [fuel] iterations. *)
Fixpoint chunk_document_loop (fuel : nat) (text : str)
    (chunk_size overlap start : Z) (chunks : list str) : option (list str) :=
  match fuel with
  | O => None
  | S fuel' =>
      let len := Z.of_nat (length text) in
      if (start <? len)%Z then
        let '(chunk, end_) := window text chunk_size start in
        let chunks := chunks ++ [strip chunk] in
        let start := (end_ - overlap)%Z in
        if (len <=? start)%Z then Some chunks
        else chunk_document_loop fuel' text chunk_size overlap start chunks
      else Some chunks
  end.

Definition chunk_document (fuel : nat) (text : str) (chunk_size overlap : Z)
  : option (list str) :=
  option_map (List.filter (fun chunk => negb (is_nil chunk)))
    (chunk_document_loop fuel text chunk_size overlap 0 []).

(** Where the specification puts the end of the window that starts at
    [start]: when the raw end falls before the end of the text and the
    window holds a period or a newline, just after the last of them,
    provided the chunk that leaves is longer than half of [chunk_size];
    the raw end otherwise. *)
Definition window_end_as_specified (text : str) (chunk_size start : Z) : Z :=
  let end_ := (start + chunk_size)%Z in
  let chunk := py_slice text start end_ in
  let break_point := Z.max (rfind chunk "."%char) (rfind chunk newline) in
  if (end_ <? Z.of_nat (length text))%Z
     && (0 <=? break_point)%Z
     && (chunk_size <? 2 * (break_point + 1))%Z
  then (start + break_point + 1)%Z
  else end_.

(** A text of 2351 characters whose only period is at position 1850, to cut
    with the parameters of [process_with_rag]: 1000 characters per chunk, 100
    of overlap. *)
Definition one_period_text : str :=
  repeat "a"%char 1850 ++ "."%char :: repeat "a"%char 500.

End OpenAIClient.

(** *** Model gateway: [AzureOpenAIClient.make_api_call]
    (analysis_engine.py, lines 66-122) *)

(** [str(n)] for a Python [int]. *)
Definition str_of_Z (n : Z) : str := py (NilEmpty.string_of_int (Z.to_int n)).

(** The payload of the chat request. *)
Record payload : Type := {
  messages : list (str * str);
  max_completion_tokens : Z;
  temperature : Q
}.

(** An answer of [requests.post]: the status code, the text of the body, and
    what [response.json()['choices'][0]['message']['content']] gives. *)
Record response : Type := {
  status_code : Z;
  text : str;
  content : outcome str
}.

(** How one request ended. *)
Inductive request_result : Type :=
| Answered
| RateLimited
| ApiError
| Faulted.

(** What the gateway does, in order: requests and sleeps. *)
Inductive gateway_event : Type :=
| GwRequest (attempt : nat) (result : request_result)
| GwSleep (seconds : Z).

Definition max_retries : nat := 3.

Section Gateway.

(** [requests.post(url, headers, json=payload, timeout=120)] at the given
    attempt, with the access token in the headers. *)
Variable post : str -> payload -> nat -> outcome response.

(** The [for attempt in range(max_retries)] loop, with [remaining]
    attempts to go; it returns the content of the [MockResponse]. *)
Fixpoint attempts_from (access_token : str) (request : payload)
    (remaining attempt : nat) : list gateway_event * str :=
  match remaining with
  | O => ([], py "Failed after " ++ str_of_nat max_retries ++ py " attempts")
  | S remaining' =>
      let on_fault (e : str) : list gateway_event * str :=
        if (attempt =? max_retries - 1)%nat
        then ([GwRequest attempt Faulted],
              py "Request failed after " ++ str_of_nat max_retries
              ++ py " attempts: " ++ e)
        else
          let (t, answer) :=
            attempts_from access_token request remaining' (S attempt) in
          (GwRequest attempt Faulted
             :: GwSleep (2 ^ Z.of_nat attempt + 2) :: t, answer) in
      match post access_token request attempt with
      | Raise e => on_fault e
      | Ret r =>
          if (status_code r =? 200)%Z then
            match content r with
            | Ret c => ([GwRequest attempt Answered], c)
            | Raise e => on_fault e
            end
          else if (status_code r =? 429)%Z then
            let (t, answer) :=
              attempts_from access_token request remaining' (S attempt) in
            (GwRequest attempt RateLimited
               :: GwSleep (2 ^ Z.of_nat attempt + 3) :: t, answer)
          else
            ([GwRequest attempt ApiError],
             py "API Error: " ++ str_of_Z (status_code r) ++ py " - "
             ++ text r)
      end
  end.

(** [get_access_token] is the outcome of step 1, the token request. *)
Definition make_api_call (get_access_token : outcome str) (request : payload)
  : list gateway_event * outcome str :=
  match get_access_token with
  | Raise e => ([], Raise e)
  | Ret access_token =>
      let (t, answer) := attempts_from access_token request max_retries 0 in
      (t, Ret answer)
  end.

End Gateway.

Definition is_request (ev : gateway_event) : bool :=
  match ev with GwRequest _ _ => true | GwSleep _ => false end.

(** The number of requests of a gateway trace. *)
Definition requests (t : list gateway_event) : nat :=
  length (List.filter is_request t).


(** A service that is always rate limited, and one that is never reached. *)
Definition rate_limited_post (access_token : str) (request : payload)
    (attempt : nat) : outcome response :=
  Ret {| status_code := 429; text := py "Too Many Requests";
         content := Raise (py "'choices'") |}.

Definition unreachable_post (access_token : str) (request : payload)
    (attempt : nat) : outcome response :=
  Raise (py "Connection refused").

(** *** Embeddings cache (embeddings_cache.py, [EmbeddingsCache]) *)

Module EmbeddingsCache.

(** The dictionary pickled into the cache file. *)
Record cache_data : Type := {
  content_hash : string;
  chunks : list str;
  embeddings : list (list Q);
  chunk_count : nat
}.

(** The dictionary written to the metadata file. *)
Record metadata : Type := {
  meta_content_hash : string;
  meta_chunk_size : Z;
  meta_chunk_count : nat;
  meta_content_length : nat;
  meta_created_at : string;
  meta_cache_version : string
}.

(** What a file of the cache directory holds, by what loading it gives:
    a pickled [cache_data], a JSON [metadata], or anything else, on which
    loading raises. *)
Inductive file : Type :=
| Pickle (data : cache_data)
| Json (meta : metadata)
| Unreadable (raw : string).

Section Cache.

(** [hashlib.md5(content.encode('utf-8')).hexdigest()] *)
Variable md5_hexdigest : str -> string.

Definition _get_content_hash (content : str) : string :=
  md5_hexdigest content.

(** File names inside [cache_dir]. *)
Definition _get_cache_file (content_hash : string) : string :=
  ("embeddings_" +:+ content_hash +:+ ".pkl")%string.

Definition _get_metadata_file (content_hash : string) : string :=
  ("metadata_" +:+ content_hash +:+ ".json")%string.

(** [unlink(missing_ok=True)] of the two files. *)
Definition unlink_both (cache_dir : gmap string file)
    (cache_file metadata_file : string) : gmap string file :=
  delete metadata_file (delete cache_file cache_dir).

(** lines 37-71; the result comes with the cache directory as the call
    leaves it. *)
Definition get_cached_embeddings (cache_dir : gmap string file)
    (content : str) (chunk_size : Z)
  : option cache_data * gmap string file :=
  let content_hash := _get_content_hash content in
  let cache_file := _get_cache_file content_hash in
  let metadata_file := _get_metadata_file content_hash in
  match cache_dir !! cache_file, cache_dir !! metadata_file with
  | Some cached, Some meta_file =>
      match meta_file with
      | Json meta =>
          if negb (meta_chunk_size meta =? chunk_size)%Z
          then (None, cache_dir)
          else
            match cached with
            | Pickle cached_data => (Some cached_data, cache_dir)
            | _ => (None, unlink_both cache_dir cache_file metadata_file)
            end
      | _ => (None, unlink_both cache_dir cache_file metadata_file)
      end
  | _, _ => (None, cache_dir)
  end.

(** lines 73-115; [dump_fault] and [json_fault] are the faults, if any,
    of the two writes, and [now] is [datetime.now().isoformat()]. *)
Definition cache_embeddings (dump_fault json_fault : option str)
    (cache_dir : gmap string file) (content : str) (chunks : list str)
    (embeddings : list (list Q)) (chunk_size : Z) (now : string)
  : gmap string file :=
  let content_hash := _get_content_hash content in
  let cache_file := _get_cache_file content_hash in
  let metadata_file := _get_metadata_file content_hash in
  let cache_data :=
    {| content_hash := content_hash;
       chunks := chunks;
       embeddings := embeddings;
       chunk_count := length chunks |} in
  let metadata :=
    {| meta_content_hash := content_hash;
       meta_chunk_size := chunk_size;
       meta_chunk_count := length chunks;
       meta_content_length := length content;
       meta_created_at := now;
       meta_cache_version := "1.0" |} in
  match dump_fault with
  | Some _ => unlink_both cache_dir cache_file metadata_file
  | None =>
      let cache_dir := <[cache_file := Pickle cache_data]> cache_dir in
      match json_fault with
      | Some _ => unlink_both cache_dir cache_file metadata_file
      | None => <[metadata_file := Json metadata]> cache_dir
      end
  end.

End Cache.

(** A stand-in digest to run the cache on examples. *)
Definition toy_digest (content : str) : string :=
  string_of_list_ascii (rev content).

End EmbeddingsCache.

(** *** Proof automation *)

(** Counts the requests of an explicit gateway trace. *)
Ltac count_requests :=
  unfold requests in *; cbn [List.filter is_request length fst] in *; lia.

(** A model whose verdict is neither [DONE] nor [CONTINUE]. *)
Definition unclear_world : World := {|
  script_reply := fun _ _ _ => Ret (py "print(1)");
  decision_reply := fun _ _ _ => Ret (py "It depends.");
  write_file := fun _ _ => Ret tt;
  read_file := fun _ => Ret [];
  run_python := fun _ _ _ => Ret (0%Z, py "1", []);
  remove_file := fun _ => Ret tt;
  embeddings_reply := fun _ _ => Ret [];
  rag_reply := fun _ _ => Ret []
|}.

(** A working directory that cannot be written. *)
Definition read_only_world : World := {|
  script_reply := fun _ _ _ => Ret (py "print(1)");
  decision_reply := fun _ _ _ => Ret (py "DONE: 1");
  write_file := fun _ _ => Raise (py "[Errno 13] Permission denied");
  read_file := fun _ => Ret [];
  run_python := fun _ _ _ => Ret (0%Z, py "1", []);
  remove_file := fun _ => Ret tt;
  embeddings_reply := fun _ _ => Ret [];
  rag_reply := fun _ _ => Ret []
|}.

(** A script that fails with a traceback, and a model that calls the query
    answered all the same. *)
Definition failing_script_world : World := {|
  script_reply := fun _ _ _ => Ret (py "print(undefined_name)");
  decision_reply := fun _ _ _ => Ret (py "DONE: could not count");
  write_file := fun _ _ => Ret tt;
  read_file := fun _ => Ret [];
  run_python := fun _ _ _ =>
    Ret (1%Z, [], py "NameError: name 'undefined_name' is not defined");
  remove_file := fun _ => Ret tt;
  embeddings_reply := fun _ _ => Ret [];
  rag_reply := fun _ _ => Ret []
|}.

(** A model that fences its script as a Python code block. *)
Definition fenced_world : World := {|
  script_reply := fun _ _ _ =>
    Ret (py "```python" ++ newline :: (py "print(1)" ++ [newline]) ++ py "```");
  decision_reply := fun _ _ _ => Ret (py "DONE: 1");
  write_file := fun _ _ => Ret tt;
  read_file := fun _ => Ret [];
  run_python := fun _ _ _ => Ret (0%Z, py "1", []);
  remove_file := fun _ => Ret tt;
  embeddings_reply := fun _ _ => Ret [];
  rag_reply := fun _ _ => Ret []
|}.

(** An embeddings service that fails on the chunks and answers for the
    prompt, and a model that repeats its context. *)
Definition query_only_world : World := {|
  script_reply := fun _ _ _ => Ret (py "print(1)");
  decision_reply := fun _ _ _ => Ret (py "DONE: 1");
  write_file := fun _ _ => Ret tt;
  read_file := fun _ => Ret [];
  run_python := fun _ _ _ => Ret (0%Z, py "1", []);
  remove_file := fun _ => Ret tt;
  embeddings_reply := fun call_number _ =>
    match call_number with
    | O => Raise (py "Request timed out")
    | _ => Ret [[1; 0]%Q]
    end;
  rag_reply := fun _ context => Ret context
|}.

(** An embeddings service that gives every text the same unit vector, and a
    model that repeats its context. *)
Definition embedding_world : World := {|
  script_reply := fun _ _ _ => Ret (py "print(1)");
  decision_reply := fun _ _ _ => Ret (py "DONE: 1");
  write_file := fun _ _ => Ret tt;
  read_file := fun _ => Ret [];
  run_python := fun _ _ _ => Ret (0%Z, py "1", []);
  remove_file := fun _ => Ret tt;
  embeddings_reply := fun _ texts => Ret (map (fun _ => [1; 0]%Q) texts);
  rag_reply := fun _ context => Ret context
|}.

(** The seconds a gateway trace spends sleeping. *)
Fixpoint total_sleep (t : list gateway_event) : Z :=
  match t with
  | [] => 0
  | GwSleep s :: t' => s + total_sleep t'
  | GwRequest _ _ :: t' => total_sleep t'
  end.

(** The text a response settles the call with, if it does: the content of a
    200 whose body can be read, the error text for a status other than 200
    and 429. *)
Definition settled (r : response) : option str :=
  if (status_code r =? 200)%Z then
    match content r with Ret c => Some c | Raise _ => None end
  else if (status_code r =? 429)%Z then None
  else Some (py "API Error: " ++ str_of_Z (status_code r) ++ py " - "
             ++ text r).

(** An outcome of [requests.post] after which the loop goes on to the next
    attempt: a fault, a 429, or a 200 whose body cannot be read. *)
Definition retriable (o : outcome response) : bool :=
  match o with
  | Raise _ => true
  | Ret r => match settled r with None => true | Some _ => false end
  end.

(** A service that is rate limited once and then answers. *)
Definition recovering_post (access_token : str) (request : payload)
    (attempt : nat) : outcome response :=
  match attempt with
  | O => Ret {| status_code := 429; text := py "Too Many Requests";
                content := Raise (py "'choices'") |}
  | _ => Ret {| status_code := 200; text := [];
                content := Ret (py "Hello") |}
  end.

(** *** Access token cache: [AzureOpenAIAuth.get_access_token]
    (analysis_engine.py, lines 26-49; azure.py and openai_client.py hold the
    same method) *)

(** The two attributes the method reads and writes. *)
Record AuthState : Type := {
  access_token : option str;
  token_expires_at : option Q
}.

(** What [response.json()] of the token endpoint holds: the value under
    ['access_token'], if the key is there, and the one under
    ['expires_in'], a number of seconds. *)
Record token_data : Type := {
  token_value : option str;
  expires_in : option Q
}.

Record token_response : Type := {
  token_status_code : Z;
  token_text : str;
  token_json : outcome token_data
}.

(** The test of line 29: both attributes are set and truthy, and the clock
    is before the expiry. *)
Definition token_valid (st : AuthState) (now : Q) : bool :=
  match access_token st, token_expires_at st with
  | Some token, Some expires_at =>
      negb (is_nil token) && negb (Qeq_bool expires_at 0)
      && negb (Qle_bool expires_at now)
  | _, _ => false
  end.

(** [now] is [time.time()] at the test, [later] is [time.time()] when the
    new token is stored, and [post] is what the token request gives. *)
Definition get_access_token (st : AuthState) (now later : Q)
    (post : outcome token_response) : outcome str * AuthState :=
  if token_valid st now then
    match access_token st with
    | Some token => (Ret token, st)
    | None => (Raise [], st)
    end
  else
    match post with
    | Raise e => (Raise e, st)
    | Ret response =>
        if (token_status_code response =? 200)%Z then
          match token_json response with
          | Raise e => (Raise e, st)
          | Ret data =>
              match token_value data with
              | None => (Raise (py "'access_token'"), st)
              | Some token =>
                  (Ret token,
                   {| access_token := Some token;
                      token_expires_at :=
                        Some (later
                              + match expires_in data with
                                | Some seconds => seconds
                                | None => 3600
                                end
                              - 300)%Q |})
              end
          end
        else
          (Raise (py "Auth failed: " ++ str_of_Z (token_status_code response)
                  ++ py " - " ++ token_text response), st)
    end.

(** The state of a new [AzureOpenAIAuth]. *)
Definition no_token : AuthState :=
  {| access_token := None; token_expires_at := None |}.

(** A token endpoint that grants [token] for [seconds] seconds. *)
Definition granted (token : str) (seconds : Q) : outcome token_response :=
  Ret {| token_status_code := 200; token_text := [];
         token_json := Ret {| token_value := Some token;
                              expires_in := Some seconds |} |}.

(** *** Clearing the cache: [EmbeddingsCache.clear_cache]
    (embeddings_cache.py, lines 117-126) *)

Module CacheClearing.

Import EmbeddingsCache.

(** [s.endswith(suffix)] on file names. *)
Definition ends_with (suffix s : string) : bool :=
  let n := String.length s in
  let m := String.length suffix in
  (m <=? n)%nat && String.eqb (String.substring (n - m) m s) suffix.

(** A name matches the pattern [prefix*suffix] of [Path.glob]. *)
Definition glob_star (prefix suffix name : string) : bool :=
  (String.length prefix + String.length suffix <=? String.length name)%nat
  && String.prefix prefix name && ends_with suffix name.

(** The two loops, when no [unlink] raises: every file matching
    [embeddings_*.pkl] or [metadata_*.json] is removed. *)
Definition clear_cache (cache_dir : gmap string file) : gmap string file :=
  filter (fun entry : string * file =>
            glob_star "embeddings_" ".pkl" entry.1 = false
            /\ glob_star "metadata_" ".json" entry.1 = false)
    cache_dir.

End CacheClearing.

(** Two cache directories to run the cache on: one holding a file of another
    kind, and one holding also an entry whose metadata cannot be parsed. *)
Definition notes_dir : gmap string EmbeddingsCache.file :=
  <["notes.txt" := EmbeddingsCache.Unreadable "kept"]> ∅.

Definition broken_dir : gmap string EmbeddingsCache.file :=
  <[EmbeddingsCache._get_metadata_file
      (EmbeddingsCache.toy_digest (py "One chunk."))
    := EmbeddingsCache.Unreadable "{"]>
    (<[EmbeddingsCache._get_cache_file
         (EmbeddingsCache.toy_digest (py "One chunk."))
       := EmbeddingsCache.Pickle
            {| EmbeddingsCache.content_hash :=
                 EmbeddingsCache.toy_digest (py "One chunk.");
               EmbeddingsCache.chunks := [py "One chunk."];
               EmbeddingsCache.embeddings := [[1; 0]%Q];
               EmbeddingsCache.chunk_count := 1 |}]> notes_dir).

(** *** The backend's gateway: [OpenAIClient._azure_chat_completion]
    (openai_client.py, lines 141-209) *)

Section AzureChat.

Variable post : str -> payload -> nat -> outcome response.

(** The retry loop of lines 165-205.  Here a failure is raised, not
    returned, and the [raise] of an API error sits inside the [try] of its
    attempt, so that the handler of the attempt catches it. *)
Fixpoint azure_attempts_from (access_token : str) (request : payload)
    (remaining attempt : nat) : list gateway_event * outcome str :=
  match remaining with
  | O => ([], Raise (py "Azure API failed after " ++ str_of_nat max_retries
                     ++ py " attempts"))
  | S remaining' =>
      let on_fault (result : request_result) (e : str)
        : list gateway_event * outcome str :=
        if (attempt =? max_retries - 1)%nat
        then ([GwRequest attempt result], Raise e)
        else
          let (t, answer) :=
            azure_attempts_from access_token request remaining' (S attempt) in
          (GwRequest attempt result
             :: GwSleep (2 ^ Z.of_nat attempt + 2) :: t, answer) in
      match post access_token request attempt with
      | Raise e => on_fault Faulted e
      | Ret r =>
          if (status_code r =? 200)%Z then
            match content r with
            | Ret c => ([GwRequest attempt Answered], Ret c)
            | Raise e => on_fault Faulted e
            end
          else if (status_code r =? 429)%Z then
            let (t, answer) :=
              azure_attempts_from access_token request remaining' (S attempt) in
            (GwRequest attempt RateLimited
               :: GwSleep (2 ^ Z.of_nat attempt + 3) :: t, answer)
          else
            on_fault ApiError
              (py "Azure API Error: " ++ str_of_Z (status_code r) ++ py " - "
               ++ text r)
      end
  end.

(** The outer handler logs and raises again. *)
Definition _azure_chat_completion (get_access_token : outcome str)
    (request : payload) : list gateway_event * outcome str :=
  match get_access_token with
  | Raise e => ([], Raise e)
  | Ret access_token =>
      azure_attempts_from access_token request max_retries 0
  end.

End AzureChat.

(** The content of a response that answers: a 200 whose body can be read. *)
Definition answer_of (o : outcome response) : option str :=
  match o with
  | Raise _ => None
  | Ret r =>
      if (status_code r =? 200)%Z then
        match content r with Ret c => Some c | Raise _ => None end
      else None
  end.

(** A service that answers 500 twice and then answers, and one that answers
    500 every time. *)
Definition flaky_post (access_token : str) (request : payload)
    (attempt : nat) : outcome response :=
  if (attempt <? 2)%nat
  then Ret {| status_code := 500; text := py "Internal Server Error";
              content := Raise (py "'choices'") |}
  else Ret {| status_code := 200; text := [];
              content := Ret (py "Hello") |}.

Definition failing_post (access_token : str) (request : payload)
    (attempt : nat) : outcome response :=
  Ret {| status_code := 500; text := py "Internal Server Error";
         content := Raise (py "'choices'") |}.

(** *** The backend's engine: [AIAnalysisEngine]
    (openai_client.py, lines 286-339 and 397-574) *)

Module AIAnalysisEngine.

Import OpenAIClient.

(** What the client answers to the engine's requests, and the numeric
    libraries. *)
Record Services : Type := {
  (** [chat_completions_create] of [generate_script]
      (iteration, prompt, content preview) *)
  chat_script : nat -> str -> str -> outcome str;
  (** [chat_completions_create] of the refinement
      (iteration, error text, prompt, head of the script) *)
  chat_fix : nat -> str -> str -> str -> outcome str;
  (** [embeddings_create] (call number, texts) *)
  embeddings_create : nat -> list str -> outcome (list (list Q));
  (** [chat_completions_create] of [process_with_rag]
      (head of the context, prompt) *)
  chat_analysis : str -> str -> outcome str
}.

(** What an extraction run does, in order. *)
Inductive engine_event : Type :=
| EngGenerate (iteration : nat)
| EngExecute (iteration : nat) (script_code : str)
| EngFix (iteration : nat) (script_head : str).

Definition max_iterations : nat := 3.

Definition completed_message : str :=
  py "Script generation completed after " ++ str_of_nat max_iterations
  ++ py " attempts. Please check the results.".

(** The literal [0.7] of [find_similar_chunks], as the double it denotes. *)
Definition threshold : Q := 3152519739159347 # 4503599627370496.

Section Engine.

Variable value : Type.
Variable py_str : value -> outcome str.
Variable py_exec : str -> str -> outcome (str * str * list (str * value)).
Variable cosine : list Q -> list Q -> Q.
Variable argsort : list Q -> list nat.
Variable s : Services.

(** line 312 *)
Definition content_preview (file_content : str) : str :=
  if (2000 <? length file_content)%nat
  then py_slice_to file_content 2000 ++ py "..."
  else file_content.

(** lines 286-339 *)
Definition generate_script (iteration : nat) (prompt file_content : str)
  : str :=
  try_except (chat_script s iteration prompt (content_preview file_content))
    (fun e => py "# Error generating script: " ++ e ++ [newline]
              ++ py "# Please check Azure OpenAI configuration").

(** The [for iteration in range(max_iterations)] loop of
    [process_with_extraction], with [remaining] iterations to go. *)
Fixpoint extraction_iterations (prompt file_content : str)
    (remaining iteration : nat) : list engine_event * str :=
  match remaining with
  | O => ([], completed_message)
  | S remaining' =>
      let next (t : list engine_event) : list engine_event * str :=
        let (t', answer) :=
          extraction_iterations prompt file_content remaining' (S iteration) in
        (t ++ t', answer) in
      let script_code := generate_script iteration prompt file_content in
      if is_nil script_code
         || contains (py "Error generating script") script_code
      then next [EngGenerate iteration]
      else
        let execution_result :=
          execute_script_safely value py_str py_exec script_code file_content in
        if success execution_result
           && negb (is_nil (strip (stdout execution_result)))
        then ([EngGenerate iteration; EngExecute iteration script_code],
              py "Analysis Results:" ++ [newline] ++ stdout execution_result)
        else if (iteration <? max_iterations - 1)%nat then
          match chat_fix s iteration
                  (match error execution_result with
                   | Some e => e
                   | None => py "Unknown error"
                   end)
                  prompt (py_slice_to script_code 1000) with
          | Ret _ =>
              next [EngGenerate iteration; EngExecute iteration script_code;
                    EngFix iteration (py_slice_to script_code 1000)]
          | Raise _ =>
              ([EngGenerate iteration; EngExecute iteration script_code;
                EngFix iteration (py_slice_to script_code 1000)],
               completed_message)
          end
        else next [EngGenerate iteration; EngExecute iteration script_code]
  end.

(** lines 397-452.  Nothing inside the outer [try] raises: the two calls
    answer with a value, and the refinement request has a handler of its
    own. *)
Definition process_with_extraction (prompt file_content : str)
  : list engine_event * str :=
  extraction_iterations prompt file_content max_iterations 0.

(** [cosine_similarity(query_array, chunk_arrays)[0]] on the two arrays of
    lines 484-485: the library refuses an empty array and rows that have
    not the dimension of the query. *)
Definition pairwise_cosine (query_embedding : list Q)
    (chunk_embeddings : list (list Q)) : outcome (list Q) :=
  if is_nil query_embedding || is_nil chunk_embeddings
     || negb (forallb (fun e => length e =? length query_embedding)%nat
                chunk_embeddings)
  then Raise (py "Incompatible dimension for X and Y matrices")
  else Ret (map (cosine query_embedding) chunk_embeddings).

(** lines 481-503 *)
Definition find_similar_chunks (query_embedding : list Q)
    (chunk_embeddings : list (list Q)) (chunks : list str) (top_k : Z)
  : list str :=
  try_except
    (bind (pairwise_cosine query_embedding chunk_embeddings)
       (fun similarities =>
     let top_indices := rev (py_slice_from (argsort similarities) (- top_k)) in
     mapM (list_get chunks)
       (List.filter (fun idx => Qle_bool threshold (nth idx similarities 0%Q))
          top_indices)))
    (fun _ => py_slice_to chunks top_k).

(** The chunks [process_with_rag] builds its context from (lines 515-528). *)
Definition context_chunks (prompt : str) (chunks : list str) : list str :=
  let relevant_chunks :=
    match
      bind (embeddings_create s 0 chunks) (fun chunk_embeddings =>
      bind (embeddings_create s 1 [prompt]) (fun query_embeddings =>
      bind (list_get query_embeddings 0) (fun query_embedding =>
      Ret (chunk_embeddings, query_embedding))))
    with
    | Raise _ => py_slice_to chunks 5
    | Ret (chunk_embeddings, query_embedding) =>
        find_similar_chunks query_embedding chunk_embeddings chunks 5
    end in
  if is_nil relevant_chunks then py_slice_to chunks 3 else relevant_chunks.

(** lines 505-560.  [None]: [chunk_document] has not returned within one
    iteration per character of the document. *)
Definition process_with_rag (prompt file_content : str) : option str :=
  option_map
    (fun chunks =>
       try_except
         (if is_nil chunks then Ret (py "No content available for analysis.")
          else
            let context :=
              join [newline; newline] (context_chunks prompt chunks) in
            chat_analysis s (py_slice_to context 3000) prompt)
         (fun e => py "Error in analysis: " ++ e))
    (chunk_document (S (length file_content)) file_content 1000 100).

(** lines 562-574 *)
Definition analyze (prompt method file_content : str) : option str :=
  if str_eqb method (py "extraction")
  then Some (snd (process_with_extraction prompt file_content))
  else if str_eqb method (py "reasoning")
  then process_with_rag prompt file_content
  else Some (py "Analysis failed: " ++ py "Unknown analysis method: " ++ method).

End Engine.

End AIAnalysisEngine.

(** The fault [_azure_chat_completion] raises when the third attempt is the
    given outcome and is no answer. *)
Definition last_failure (o : outcome response) : str :=
  match o with
  | Raise e => e
  | Ret r =>
      if (status_code r =? 200)%Z then
        match content r with Raise e => e | Ret _ => [] end
      else if (status_code r =? 429)%Z then
        py "Azure API failed after " ++ str_of_nat max_retries
        ++ py " attempts"
      else py "Azure API Error: " ++ str_of_Z (status_code r) ++ py " - "
           ++ text r
  end.

(** Counting the steps of an extraction run. *)
Definition generations (t : list AIAnalysisEngine.engine_event) : nat :=
  length (List.filter
            (fun ev => match ev with
                       | AIAnalysisEngine.EngGenerate _ => true
                       | _ => false
                       end) t).

Definition executions (t : list AIAnalysisEngine.engine_event) : nat :=
  length (List.filter
            (fun ev => match ev with
                       | AIAnalysisEngine.EngExecute _ _ => true
                       | _ => false
                       end) t).

Definition refinements (t : list AIAnalysisEngine.engine_event) : nat :=
  length (List.filter
            (fun ev => match ev with
                       | AIAnalysisEngine.EngFix _ _ => true
                       | _ => false
                       end) t).

(** Whether an outcome is a fault. *)
Definition raises {A : Type} (o : outcome A) : bool :=
  match o with Raise _ => true | Ret _ => false end.

(** The interpreter on a script that prints nothing, and on one that prints
    a count. *)
Definition silent_exec (script_code file_content : str)
  : outcome (str * str * list (str * Z)) :=
  Ret ([], [], []).

Definition counting_exec (script_code file_content : str)
  : outcome (str * str * list (str * Z)) :=
  Ret (py "4 complaints" ++ [newline], [], []).

(** Services whose script request answers with one line of code, and whose
    other requests answer as given. *)
Definition scripted_services (fix_reply : outcome str)
    (embeddings : outcome (list (list Q))) : AIAnalysisEngine.Services := {|
  AIAnalysisEngine.chat_script := fun _ _ _ => Ret (py "print(len(file_content))");
  AIAnalysisEngine.chat_fix := fun _ _ _ _ => fix_reply;
  AIAnalysisEngine.embeddings_create := fun _ _ => embeddings;
  AIAnalysisEngine.chat_analysis := fun _ _ => Ret (py "An analysis.")
|}.

(** Services that cannot be reached. *)
Definition unreachable_services : AIAnalysisEngine.Services := {|
  AIAnalysisEngine.chat_script := fun _ _ _ => Raise (py "Connection refused");
  AIAnalysisEngine.chat_fix := fun _ _ _ _ => Raise (py "Connection refused");
  AIAnalysisEngine.embeddings_create := fun _ _ => Raise (py "Connection refused");
  AIAnalysisEngine.chat_analysis := fun _ _ => Raise (py "Connection refused")
|}.

(** ** Part II. Theorems *)


(** *** Word chunker *)

Lemma range_up_spec (fuel : nat) : forall i stop step : Z,
  (0 < step)%Z -> (stop - i <= Z.of_nat fuel)%Z ->
  range_up fuel i stop step =
  map (fun k : nat => (i + Z.of_nat k * step)%Z)
      (seq 0 (Z.to_nat (ceil_div (stop - i) step))).
Proof.
  induction fuel as [|fuel IH]; intros i stop step Hstep Hfuel.
  - assert (Hq : (ceil_div (stop - i) step <= 0)%Z).
    { unfold ceil_div.
      assert ((stop - i + step - 1) / step < 1)%Z; [|lia].
      apply Z.div_lt_upper_bound; lia. }
    replace (Z.to_nat (ceil_div (stop - i) step)) with O by lia.
    reflexivity.
  - simpl. destruct (Z.ltb_spec i stop) as [Hlt|Hge].
    + assert (Hq : ceil_div (stop - i) step
                   = (ceil_div (stop - (i + step)) step + 1)%Z).
      { unfold ceil_div.
        replace (stop - i + step - 1)%Z
          with ((stop - (i + step) + step - 1) + 1 * step)%Z by lia.
        rewrite Z.div_add by lia. reflexivity. }
      assert (Hnn : (0 <= ceil_div (stop - (i + step)) step)%Z).
      { unfold ceil_div. apply Z.div_pos; lia. }
      rewrite Hq, Z2Nat.inj_add, Nat.add_1_r by lia.
      simpl. f_equal; [lia|].
      rewrite IH by lia.
      rewrite <- seq_shift, map_map.
      apply map_ext. intros k. lia.
    + assert (Hq : (ceil_div (stop - i) step <= 0)%Z).
      { unfold ceil_div.
        assert ((stop - i + step - 1) / step < 1)%Z; [|lia].
        apply Z.div_lt_upper_bound; lia. }
      replace (Z.to_nat (ceil_div (stop - i) step)) with O by lia.
      reflexivity.
Qed.

Lemma split_from_words (s : str) : forall cur : str,
  no_space cur -> Forall is_word (split_from cur s).
Proof.
  induction s as [|c s IH]; intros cur Hcur; simpl.
  - destruct cur as [|a cur']; constructor; [|constructor].
    split; [discriminate|assumption].
  - destruct (py_isspace c) eqn:Hc.
    + destruct cur as [|a cur'].
      * apply IH. constructor.
      * constructor; [split; [discriminate|assumption]|].
        apply IH. constructor.
    + apply IH. unfold no_space. apply Forall_app. split; [assumption|].
      constructor; [assumption|constructor].
Qed.

Lemma split_words (s : str) : Forall is_word (split s).
Proof. apply split_from_words. constructor. Qed.

Lemma split_from_app_word (w : str) : forall cur rest : str,
  no_space w -> split_from cur (w ++ rest) = split_from (cur ++ w) rest.
Proof.
  induction w as [|c w IH]; intros cur rest Hw; simpl.
  - now rewrite app_nil_r.
  - inversion Hw as [|? ? Hc Hw']; subst. rewrite Hc.
    rewrite IH by assumption. now rewrite <- app_assoc.
Qed.

Lemma split_join (ws : list str) :
  Forall is_word ws -> split (join (py " ") ws) = ws.
Proof.
  induction ws as [|w ws IH]; intros Hws; [reflexivity|].
  inversion Hws as [|? ? [Hne Hw] Hws']; subst.
  unfold split in *. destruct ws as [|w2 ws].
  - simpl. rewrite <- (app_nil_r w) at 1.
    rewrite split_from_app_word by assumption. simpl.
    destruct w; [contradiction|reflexivity].
  - change (join (py " ") (w :: w2 :: ws))
      with (w ++ " "%char :: join (py " ") (w2 :: ws)).
    rewrite split_from_app_word by assumption. simpl.
    destruct w as [|a w]; [contradiction|].
    simpl. f_equal. apply IH. assumption.
Qed.

Lemma join_nonempty (sep : str) (ws : list str) :
  ws <> [] -> Forall is_word ws -> join sep ws <> [].
Proof.
  destruct ws as [|w ws]; [contradiction|]. intros _ Hws.
  inversion Hws as [|? ? [Hne _] _]; subst.
  destruct w as [|a w]; [contradiction|].
  destruct ws; simpl; discriminate.
Qed.

Lemma ceil_div_bounds (w s : Z) :
  (0 < s)%Z -> (0 <= w)%Z ->
  (0 <= ceil_div w s)%Z
  /\ (w <= ceil_div w s * s)%Z
  /\ (forall k : Z, (0 <= k < ceil_div w s)%Z -> (k * s < w)%Z).
Proof.
  intros Hs Hw. unfold ceil_div.
  pose proof (Z.div_mod (w + s - 1) s ltac:(lia)) as Hdm.
  pose proof (Z.mod_pos_bound (w + s - 1) s Hs) as Hmod.
  set (q := ((w + s - 1) / s)%Z) in *.
  repeat split.
  - apply Z.div_pos; lia.
  - nia.
  - intros k Hk. nia.
Qed.

Lemma py_slice_window {A : Type} (l : list A) (a n : nat) :
  a <= length l ->
  py_slice l (Z.of_nat a) (Z.of_nat a + Z.of_nat n) = firstn n (skipn a l).
Proof.
  intros Ha. unfold py_slice, slice_bound.
  destruct (Z.ltb_spec (Z.of_nat a) 0) as [?|_]; [lia|].
  destruct (Z.ltb_spec (Z.of_nat a + Z.of_nat n) 0) as [?|_]; [lia|].
  rewrite (Z.min_l (Z.of_nat a)) by lia.
  rewrite Nat2Z.id.
  destruct (Z.le_ge_cases (Z.of_nat a + Z.of_nat n) (Z.of_nat (length l)))
    as [Hle|Hge].
  - rewrite Z.min_l by lia. f_equal. lia.
  - rewrite Z.min_r by lia.
    rewrite !take_ge; [reflexivity| |]; rewrite length_drop; lia.
Qed.

Lemma concat_windows {A : Type} (l : list A) (n m : nat) :
  concat (map (fun k => firstn n (skipn (k * n) l)) (seq 0 m))
  = firstn (m * n) l.
Proof.
  induction m as [|m IH]; [reflexivity|].
  rewrite seq_S, map_app, concat_app, IH. simpl.
  rewrite app_nil_r, take_take_drop. f_equal. lia.
Qed.

(** The chunks are the consecutive windows of [chunk_size] words. *)
Lemma prepare_document_chunks_windows (content : str) (s : Z) :
  (0 < s)%Z ->
  prepare_document_chunks content s
  = map (fun k => join (py " ")
                    (firstn (Z.to_nat s) (skipn (k * Z.to_nat s) (split content))))
        (seq 0 (Z.to_nat (ceil_div (Z.of_nat (length (split content))) s))).
Proof.
  intros Hs. unfold prepare_document_chunks, py_range.
  destruct (Z.eqb_spec s 0) as [?|_]; [lia|].
  destruct (Z.ltb_spec 0 s) as [_|?]; [|lia].
  simpl. rewrite range_up_spec by lia.
  rewrite Z.sub_0_r, map_map.
  destruct (ceil_div_bounds (Z.of_nat (length (split content))) s Hs
              ltac:(lia)) as (Hm0 & _ & Hlt).
  apply map_ext_in. intros k Hk. apply in_seq in Hk.
  specialize (Hlt (Z.of_nat k) ltac:(lia)).
  f_equal.
  rewrite <- (py_slice_window _ _ (Z.to_nat s)) by nia.
  f_equal; lia.
Qed.

(** C4. For every chunk size [s > 0] and every document text,
    [prepare_document_chunks] produces [ceil (w / s)] chunks, where [w] is the
    number of whitespace-delimited words; no chunk is empty; splitting the
    chunks back on whitespace and concatenating gives the original word
    sequence in order; and the empty text gives the empty chunk sequence. *)
Theorem prepare_document_chunks_correct (content : str) (s : Z) :
  (0 < s)%Z ->
  Z.of_nat (length (prepare_document_chunks content s))
    = ceil_div (Z.of_nat (length (split content))) s
  /\ Forall (fun chunk => chunk <> []) (prepare_document_chunks content s)
  /\ concat (map split (prepare_document_chunks content s)) = split content
  /\ prepare_document_chunks [] s = [].
Proof.
  intros Hs.
  pose proof (split_words content) as Hwords.
  destruct (ceil_div_bounds (Z.of_nat (length (split content))) s Hs
              ltac:(lia)) as (Hm0 & Hcover & Hlt).
  rewrite (prepare_document_chunks_windows content s Hs).
  rewrite (prepare_document_chunks_windows [] s Hs).
  set (words := split content) in *.
  set (n := Z.to_nat s).
  set (m := Z.to_nat (ceil_div (Z.of_nat (length words)) s)).
  assert (Hwin : forall k, In k (seq 0 m) ->
            firstn n (skipn (k * n) words) <> []
            /\ Forall is_word (firstn n (skipn (k * n) words))).
  { intros k Hk. apply in_seq in Hk. split.
    - specialize (Hlt (Z.of_nat k) ltac:(lia)).
      intros Hnil. apply (f_equal (@length str)) in Hnil.
      rewrite length_take, length_drop in Hnil. simpl in Hnil. nia.
    - apply Forall_take, Forall_drop. exact Hwords. }
  repeat split.
  - rewrite length_map, length_seq. lia.
  - apply List.Forall_forall. intros chunk Hin.
    apply in_map_iff in Hin. destruct Hin as (k & <- & Hk).
    destruct (Hwin k Hk). now apply join_nonempty.
  - rewrite map_map.
    rewrite (map_ext_in _ (fun k => firstn n (skipn (k * n) words))).
    + rewrite concat_windows. apply take_ge. nia.
    + intros k Hk. apply split_join. apply (Hwin k Hk).
  - change (split []) with (@nil str). unfold ceil_div. simpl.
    rewrite Z.div_small by lia. reflexivity.
Qed.

(** The theorem at a three-word text cut in chunks of two words. *)
Lemma prepare_document_chunks_correct_witness :
  let content := py "alpha  beta gamma" in
  (0 < 2)%Z
  /\ prepare_document_chunks content 2 = [py "alpha beta"; py "gamma"]
  /\ (Z.of_nat (length (prepare_document_chunks content 2))
        = ceil_div (Z.of_nat (length (split content))) 2
      /\ Forall (fun chunk => chunk <> []) (prepare_document_chunks content 2)
      /\ concat (map split (prepare_document_chunks content 2)) = split content
      /\ prepare_document_chunks [] 2 = []).
Proof.
  split; [lia|]. split; [reflexivity|].
  apply (prepare_document_chunks_correct (py "alpha  beta gamma") 2). lia.
Defined.

(** *** Similarity ranker *)

Section SortedLists.
Context {A : Type} (R : A -> A -> Prop).

Lemma StronglySorted_filter (p : A -> bool) (l : list A) :
  StronglySorted R l -> StronglySorted R (List.filter p l).
Proof.
  induction 1 as [|x l Hl IH Hx]; simpl; [constructor|].
  destruct (p x); [|assumption].
  constructor; [assumption|].
  apply List.Forall_forall. intros y Hy. apply filter_In in Hy.
  rewrite List.Forall_forall in Hx. now apply Hx.
Qed.

Lemma StronglySorted_firstn (n : nat) (l : list A) :
  StronglySorted R l -> StronglySorted R (firstn n l).
Proof.
  intros Hl. revert n.
  induction Hl as [|x l Hl IH Hx]; intros [|n]; simpl; try constructor.
  - apply IH.
  - now apply Forall_take.
Qed.

Lemma StronglySorted_rev (l : list A) :
  StronglySorted R l -> StronglySorted (fun x y => R y x) (rev l).
Proof.
  induction 1 as [|x l Hl IH Hx]; simpl; [constructor|].
  apply StronglySorted_app_2.
  - intros y z Hy Hz. apply list_elem_of_In in Hy, Hz.
    destruct Hz as [<-|[]]. apply in_rev in Hy.
    rewrite List.Forall_forall in Hx. now apply Hx.
  - assumption.
  - repeat constructor.
Qed.

Lemma StronglySorted_split (l1 l2 : list A) (x y : A) :
  StronglySorted R (l1 ++ l2) -> In x l1 -> In y l2 -> R x y.
Proof.
  intros Hs Hx Hy.
  apply (StronglySorted_app_1_elem_of R l1 l2); [assumption| |];
    now apply list_elem_of_In.
Qed.
End SortedLists.

(** *** Similarity ranker *)

Section RankerFacts.

Variable cosine : list Q -> list Q -> Q.
Variable argsort : list Q -> list nat.

Lemma select_relevant_from (sims : list Q) (top_k : Z) (t : Q)
    (l : list nat) : forall acc : list nat,
  fold_left
    (fun relevant_indices idx =>
       if Qle_bool t (nth idx sims 0%Q)
          && (Z.of_nat (length relevant_indices) <? top_k)%Z
       then relevant_indices ++ [idx]
       else relevant_indices) l acc
  = acc ++ firstn (Z.to_nat top_k - length acc)
             (List.filter (fun i => Qle_bool t (nth i sims 0%Q)) l).
Proof.
  induction l as [|x l IH]; intros acc; simpl.
  - now rewrite firstn_nil, app_nil_r.
  - destruct (Qle_bool t (nth x sims 0%Q)); simpl; [|apply IH].
    destruct (Z.ltb_spec (Z.of_nat (length acc)) top_k) as [Hlt|Hge].
    + rewrite IH, length_app. simpl.
      replace (Z.to_nat top_k - length acc)
        with (S (Z.to_nat top_k - (length acc + 1))) by lia.
      simpl. now rewrite <- app_assoc.
    + rewrite IH.
      replace (Z.to_nat top_k - length acc) with O by lia.
      reflexivity.
Qed.

(** The selection loop keeps the first [top_k] indices that reach the
    threshold. *)
Lemma select_relevant_spec (sims : list Q) (sorted : list nat)
    (top_k : Z) (t : Q) :
  select_relevant sims sorted top_k t
  = firstn (Z.to_nat top_k)
      (List.filter (fun i => Qle_bool t (nth i sims 0%Q)) sorted).
Proof.
  unfold select_relevant. rewrite select_relevant_from. simpl.
  now rewrite Nat.sub_0_r.
Qed.

Lemma mapM_list_get (chunks : list str) (idxs : list nat) :
  Forall (fun i => i < length chunks) idxs ->
  mapM (list_get chunks) idxs = Ret (map (fun i => nth i chunks []) idxs).
Proof.
  induction 1 as [|i idxs Hi _ IH]; simpl; [reflexivity|].
  unfold list_get at 1.
  destruct (nth_error chunks i) as [c|] eqn:Hc.
  - rewrite IH. f_equal. f_equal. symmetry. now apply nth_error_nth.
  - apply nth_error_None in Hc. lia.
Qed.

Lemma cosine_similarity_ok (q : list Q) (embs : list (list Q)) :
  Forall (fun e => length e = length q) embs ->
  cosine_similarity cosine q embs = Ret (map (cosine q) embs).
Proof.
  intros Hdim. unfold cosine_similarity.
  replace (forallb (fun e => (length e =? length q)%nat) embs) with true;
    [reflexivity|].
  symmetry. apply forallb_forall. intros e He.
  rewrite List.Forall_forall in Hdim. apply Nat.eqb_eq. now apply Hdim.
Qed.

Hypothesis argsort_ok : argsort_spec argsort.

Lemma sorted_indices_perm (s : list Q) :
  Permutation (rev (argsort s)) (seq 0 (length s)).
Proof.
  destruct (argsort_ok s) as [Hp _].
  rewrite <- Hp. symmetry. apply Permutation_rev.
Qed.

Lemma sorted_indices_desc (s : list Q) :
  StronglySorted (by_descending s) (rev (argsort s)).
Proof.
  destruct (argsort_ok s) as [_ Hs].
  apply (StronglySorted_rev (by_ascending s)). exact Hs.
Qed.

Lemma sorted_indices_in (s : list Q) (i : nat) :
  In i (rev (argsort s)) <-> i < length s.
Proof.
  split; intros H.
  - apply (Permutation_in _ (sorted_indices_perm s)) in H.
    apply in_seq in H. lia.
  - apply (Permutation_in _ (Permutation_sym (sorted_indices_perm s))).
    apply in_seq. lia.
Qed.

Lemma relevant_indices_in_range (s : list Q) (top_k : Z) (t : Q) :
  Forall (fun i => i < length s) (relevant_indices_of argsort s top_k t).
Proof.
  assert (Hall : Forall (fun i => i < length s) (rev (argsort s))).
  { apply List.Forall_forall. intros i. apply sorted_indices_in. }
  unfold relevant_indices_of. rewrite select_relevant_spec.
  destruct (is_nil _).
  - now apply Forall_take.
  - apply Forall_take. apply List.Forall_forall. intros i Hi.
    apply filter_In in Hi. rewrite List.Forall_forall in Hall.
    now apply Hall.
Qed.

Lemma relevant_indices_desc (s : list Q) (top_k : Z) (t : Q) :
  StronglySorted (by_descending s) (relevant_indices_of argsort s top_k t).
Proof.
  unfold relevant_indices_of. rewrite select_relevant_spec.
  destruct (is_nil _).
  - apply StronglySorted_firstn, sorted_indices_desc.
  - apply StronglySorted_firstn, StronglySorted_filter, sorted_indices_desc.
Qed.

(** On well-formed inputs the function returns the chunks at the indices
    it settled on. *)
Lemma retrieve_relevant_chunks_indices (q : list Q) (chunks : list str)
    (embs : list (list Q)) (top_k : Z) (t : Q) :
  ranker_inputs q chunks embs ->
  retrieve_relevant_chunks cosine argsort q chunks embs top_k t
  = map (fun i => nth i chunks [])
      (relevant_indices_of argsort (map (cosine q) embs) top_k t).
Proof.
  intros (Hq & Hc & Hlen & Hdim). unfold retrieve_relevant_chunks.
  destruct q as [|x q]; [contradiction|].
  destruct embs as [|e embs];
    [destruct chunks; [contradiction|discriminate]|].
  cbn [is_nil orb].
  rewrite cosine_similarity_ok by assumption. cbn [bind].
  rewrite mapM_list_get; [reflexivity|].
  rewrite <- Hlen, <- (length_map (cosine (x :: q))).
  apply relevant_indices_in_range.
Qed.

End RankerFacts.

Lemma filter_nil_iff {A : Type} (p : A -> bool) (l : list A) :
  List.filter p l = [] <-> (forall x, In x l -> p x = false).
Proof.
  induction l as [|a l IH]; simpl.
  - split; [intros _ x []|reflexivity].
  - destruct (p a) eqn:Ha.
    + split; [discriminate|]. intros H.
      specialize (H a (or_introl eq_refl)). congruence.
    + rewrite IH. split.
      * intros H x [<-|Hx]; [assumption|now apply H].
      * intros H x Hx. apply H. now right.
Qed.

Section RankerClaims.

Variable cosine : list Q -> list Q -> Q.
Variable argsort : list Q -> list nat.
Hypothesis argsort_ok : argsort_spec argsort.

(** The threshold pass keeps nothing exactly when [top_k] is not positive
    or no score reaches the threshold. *)
Lemma threshold_pass_nil (s : list Q) (top_k : Z) (t : Q) :
  threshold_pass argsort s top_k t = []
  <-> (top_k <= 0)%Z \/ Forall (fun x => (x < t)%Q) s.
Proof.
  unfold threshold_pass. rewrite select_relevant_spec. split.
  - intros Hnil.
    destruct (Z.to_nat top_k) as [|k] eqn:Hk; [left; lia|right].
    destruct (List.filter _ _) as [|i f] eqn:Hf; [|discriminate].
    rewrite filter_nil_iff in Hf.
    apply (Forall_nth (fun x => (x < t)%Q) 0%Q s). intros i Hi.
    apply Qnot_le_lt. intros Hle.
    apply Qle_bool_iff in Hle.
    rewrite Hf in Hle; [discriminate|].
    now apply (sorted_indices_in argsort argsort_ok).
  - intros [Hk|Hall].
    + now replace (Z.to_nat top_k) with O by lia.
    + replace (List.filter _ _) with (@nil nat); [apply firstn_nil|].
      symmetry. apply filter_nil_iff. intros i Hi.
      apply (sorted_indices_in argsort argsort_ok) in Hi.
      destruct (Qle_bool t (nth i s 0%Q)) eqn:Hle; [|reflexivity].
      apply Qle_bool_iff in Hle.
      pose proof (proj1 (Forall_nth (fun x => (x < t)%Q) 0%Q s) Hall i Hi)
        as Hlt.
      exfalso. now apply (Qlt_not_le _ _ Hlt).
Qed.

Lemma threshold_pass_bounds (s : list Q) (top_k : Z) (t : Q) :
  threshold_pass argsort s top_k t <> [] ->
  (Z.of_nat (length (threshold_pass argsort s top_k t)) <= top_k)%Z
  /\ Forall (fun i => (t <= nth i s 0)%Q) (threshold_pass argsort s top_k t).
Proof.
  unfold threshold_pass. rewrite select_relevant_spec. intros Hne. split.
  - destruct (Z.to_nat top_k) as [|k] eqn:Hk; [now destruct Hne|].
    rewrite <- Hk, length_take. lia.
  - apply Forall_take. apply List.Forall_forall. intros i Hi.
    apply filter_In in Hi. now apply Qle_bool_iff.
Qed.

(** The first five indices in descending score order are the five best. *)
Lemma top5_best (s : list Q) (i j : nat) :
  In i (firstn 5 (rev (argsort s))) -> j < length s ->
  ~ In j (firstn 5 (rev (argsort s))) ->
  (nth j s 0 <= nth i s 0)%Q.
Proof.
  intros Hi Hj Hnj.
  pose proof (sorted_indices_desc argsort argsort_ok s) as Hs.
  apply (sorted_indices_in argsort argsort_ok) in Hj.
  rewrite <- (firstn_skipn 5 (rev (argsort s))) in Hs, Hj.
  apply in_app_or in Hj. destruct Hj as [Hj|Hj]; [contradiction|].
  exact (StronglySorted_split _ _ _ i j Hs Hi Hj).
Qed.

Lemma top5_length (s : list Q) :
  length (firstn 5 (rev (argsort s))) = Nat.min 5 (length s).
Proof.
  rewrite length_take.
  now rewrite (Permutation_length (sorted_indices_perm argsort argsort_ok s)),
    length_seq.
Qed.

Lemma relevant_indices_cases (s : list Q) (top_k : Z) (t : Q) :
  (threshold_pass argsort s top_k t = [] ->
     relevant_indices_of argsort s top_k t = firstn 5 (rev (argsort s)))
  /\ (threshold_pass argsort s top_k t <> [] ->
     relevant_indices_of argsort s top_k t = threshold_pass argsort s top_k t).
Proof.
  unfold relevant_indices_of, threshold_pass.
  destruct (select_relevant _ _ _ _) as [|i l]; simpl; split; intros H;
    congruence.
Qed.

Lemma chunks_at_in (chunks : list str) (idxs : list nat) :
  Forall (fun i => i < length chunks) idxs ->
  Forall (fun c => In c chunks) (map (fun i => nth i chunks []) idxs).
Proof.
  intros H. apply List.Forall_forall. intros c Hc.
  apply in_map_iff in Hc. destruct Hc as (i & <- & Hi).
  rewrite List.Forall_forall in H. apply nth_In. now apply H.
Qed.

(** C2 (amended). On a non-empty chunk list with one embedding per chunk
    and a query embedding of the same dimension, for every threshold [t]
    and every [top_k], [retrieve_relevant_chunks] returns the chunks at a
    list of indices that is sorted by descending similarity; every returned
    element is an element of the input list.  The threshold pass keeps
    nothing exactly when [top_k <= 0] or no similarity reaches [t].  When it
    keeps something, the result is what it kept: at most [top_k] chunks, all
    of similarity at least [t].  When it keeps nothing, the result is the
    first five indices in descending similarity order: [min 5 n] chunks,
    each at least as similar as every chunk left out. *)
Theorem retrieve_relevant_chunks_ranking (q : list Q) (chunks : list str)
    (embs : list (list Q)) (top_k : Z) (t : Q) :
  ranker_inputs q chunks embs ->
  exists idxs : list nat,
    retrieve_relevant_chunks cosine argsort q chunks embs top_k t
      = map (fun i => nth i chunks []) idxs
    /\ Forall (fun i => i < length chunks) idxs
    /\ StronglySorted (by_descending (map (cosine q) embs)) idxs
    /\ Forall (fun c => In c chunks)
         (retrieve_relevant_chunks cosine argsort q chunks embs top_k t)
    /\ (threshold_pass argsort (map (cosine q) embs) top_k t = []
        <-> (top_k <= 0)%Z \/ Forall (fun x => (x < t)%Q) (map (cosine q) embs))
    /\ (threshold_pass argsort (map (cosine q) embs) top_k t <> [] ->
          idxs = threshold_pass argsort (map (cosine q) embs) top_k t
          /\ (Z.of_nat (length idxs) <= top_k)%Z
          /\ Forall (fun i => (t <= nth i (map (cosine q) embs) 0)%Q) idxs)
    /\ (threshold_pass argsort (map (cosine q) embs) top_k t = [] ->
          idxs = firstn 5 (rev (argsort (map (cosine q) embs)))
          /\ length idxs = Nat.min 5 (length chunks)
          /\ forall i j, In i idxs -> j < length chunks -> ~ In j idxs ->
               (nth j (map (cosine q) embs) 0 <= nth i (map (cosine q) embs) 0)%Q).
Proof.
  intros Hin.
  pose proof (retrieve_relevant_chunks_indices cosine argsort argsort_ok
                q chunks embs top_k t Hin) as Hres.
  destruct Hin as (Hq & Hc & Hlen & Hdim).
  set (s := map (cosine q) embs) in *.
  assert (Hn : length s = length chunks)
    by (unfold s; now rewrite length_map).
  pose proof (relevant_indices_in_range argsort argsort_ok s top_k t) as Hrange.
  rewrite Hn in Hrange.
  destruct (relevant_indices_cases s top_k t) as [Hnil Hcons].
  exists (relevant_indices_of argsort s top_k t).
  split; [exact Hres|]. split; [exact Hrange|].
  split; [apply relevant_indices_desc, argsort_ok|].
  split; [rewrite Hres; now apply chunks_at_in|].
  split; [apply threshold_pass_nil|].
  split.
  - intros Hne. rewrite (Hcons Hne). split; [reflexivity|].
    now apply threshold_pass_bounds.
  - intros He. rewrite (Hnil He). split; [reflexivity|].
    split; [now rewrite top5_length, Hn|].
    intros i j Hi Hj Hnj. apply top5_best; [assumption|lia|assumption].
Qed.

(** C10. On a non-empty chunk list with embeddings present, for every
    [top_k >= 0] the result of [retrieve_relevant_chunks] is non-empty.
    When the threshold pass keeps nothing, the result is the chunks at the
    first five indices in descending similarity order, [min 5 n] of them,
    each at least as similar as every chunk left out.  With [top_k = 0] the
    threshold pass always keeps nothing, so the result is longer than
    [top_k]. *)
Theorem retrieve_relevant_chunks_nonempty (q : list Q) (chunks : list str)
    (embs : list (list Q)) (top_k : Z) (t : Q) :
  ranker_inputs q chunks embs -> (0 <= top_k)%Z ->
  retrieve_relevant_chunks cosine argsort q chunks embs top_k t <> []
  /\ (threshold_pass argsort (map (cosine q) embs) top_k t = [] ->
        retrieve_relevant_chunks cosine argsort q chunks embs top_k t
          = map (fun i => nth i chunks [])
              (firstn 5 (rev (argsort (map (cosine q) embs))))
        /\ length (retrieve_relevant_chunks cosine argsort q chunks embs top_k t)
            = Nat.min 5 (length chunks)
        /\ forall i j,
             In i (firstn 5 (rev (argsort (map (cosine q) embs)))) ->
             j < length chunks ->
             ~ In j (firstn 5 (rev (argsort (map (cosine q) embs)))) ->
             (nth j (map (cosine q) embs) 0 <= nth i (map (cosine q) embs) 0)%Q)
  /\ (top_k = 0%Z ->
        threshold_pass argsort (map (cosine q) embs) top_k t = []
        /\ (top_k < Z.of_nat (length
               (retrieve_relevant_chunks cosine argsort q chunks embs top_k t)))%Z).
Proof.
  intros Hin Hk.
  pose proof (retrieve_relevant_chunks_indices cosine argsort argsort_ok
                q chunks embs top_k t Hin) as Hres.
  destruct Hin as (Hq & Hc & Hlen & Hdim).
  set (s := map (cosine q) embs) in *.
  assert (Hn : length s = length chunks)
    by (unfold s; now rewrite length_map).
  assert (Hpos : 0 < length chunks)
    by (destruct chunks; [contradiction|simpl; lia]).
  destruct (relevant_indices_cases s top_k t) as [Hnil Hcons].
  assert (Hfallback : threshold_pass argsort s top_k t = [] ->
            length (retrieve_relevant_chunks cosine argsort q chunks embs top_k t)
            = Nat.min 5 (length chunks)).
  { intros He. now rewrite Hres, length_map, (Hnil He), top5_length, Hn. }
  split; [|split].
  - destruct (threshold_pass argsort s top_k t) as [|i l] eqn:Hpass.
    + intros Hr. specialize (Hfallback eq_refl).
      rewrite Hr in Hfallback. cbn [length] in Hfallback. lia.
    + rewrite Hres, Hcons by discriminate. discriminate.
  - intros He. split; [now rewrite Hres, (Hnil He)|].
    split; [now apply Hfallback|].
    intros i j Hi Hj Hnj. apply top5_best; [assumption|lia|assumption].
  - intros ->.
    assert (He : threshold_pass argsort s 0 t = [])
      by (apply threshold_pass_nil; left; lia).
    split; [exact He|]. rewrite (Hfallback He). lia.
Qed.

End RankerClaims.

(** The insertion argsort meets the specification of [numpy.argsort]. *)

Lemma insert_by_perm (s : list Q) (i : nat) (l : list nat) :
  Permutation (insert_by s i l) (i :: l).
Proof.
  induction l as [|j l IH]; simpl; [reflexivity|].
  destruct (Qle_bool _ _); [reflexivity|].
  rewrite IH. apply perm_swap.
Qed.

Lemma insert_by_sorted (s : list Q) (i : nat) (l : list nat) :
  StronglySorted (by_ascending s) l ->
  StronglySorted (by_ascending s) (insert_by s i l).
Proof.
  induction 1 as [|j l Hl IH Hj]; simpl; [repeat constructor|].
  destruct (Qle_bool (nth i s 0%Q) (nth j s 0%Q)) eqn:Hle.
  - apply Qle_bool_iff in Hle.
    constructor; [now constructor|].
    constructor; [exact Hle|].
    apply List.Forall_forall. intros y Hy.
    rewrite List.Forall_forall in Hj. specialize (Hj y Hy).
    unfold by_ascending in *. now apply (Qle_trans _ (nth j s 0%Q)).
  - constructor; [exact IH|].
    apply List.Forall_forall. intros y Hy.
    apply (Permutation_in _ (insert_by_perm s i l)) in Hy.
    destruct Hy as [<-|Hy].
    + unfold by_ascending. apply Qlt_le_weak, Qnot_le_lt.
      intros H. apply Qle_bool_iff in H. congruence.
    + rewrite List.Forall_forall in Hj. now apply Hj.
Qed.

Lemma argsort_insertion_spec : argsort_spec argsort_insertion.
Proof.
  intros s. unfold argsort_insertion.
  generalize (seq 0 (length s)) as l.
  induction l as [|i l [IHp IHs]]; simpl.
  - split; constructor.
  - split.
    + rewrite insert_by_perm. now constructor.
    + now apply insert_by_sorted.
Qed.

(** Two chunks with unit embeddings, of cosines 1 and 3/5 to the query. *)
Lemma two_chunks_inputs :
  ranker_inputs [1; 0]%Q [py "alpha"; py "beta"] [[1; 0]; [3 # 5; 4 # 5]]%Q.
Proof.
  unfold ranker_inputs. repeat split; try discriminate. repeat constructor.
Defined.

(** The ranking theorem at two chunks with unit embeddings, cosines 1 and
    3/5, threshold 1/10 and [top_k = 1]. *)
Lemma retrieve_relevant_chunks_ranking_witness :
  ranker_inputs [1; 0]%Q [py "alpha"; py "beta"] [[1; 0]; [3 # 5; 4 # 5]]%Q
  /\ exists idxs : list nat,
      retrieve_relevant_chunks dot argsort_insertion [1; 0]%Q
        [py "alpha"; py "beta"] [[1; 0]; [3 # 5; 4 # 5]]%Q 1 (1 # 10)
      = map (fun i => nth i [py "alpha"; py "beta"] []) idxs.
Proof.
  pose proof two_chunks_inputs as Hin.
  split; [exact Hin|].
  destruct (retrieve_relevant_chunks_ranking dot argsort_insertion
              argsort_insertion_spec _ _ _ 1%Z (1 # 10)%Q Hin)
    as (idxs & Hres & _).
  exists idxs. exact Hres.
Defined.

(** The non-emptiness theorem at the same chunks with [top_k = 0]. *)
Lemma retrieve_relevant_chunks_nonempty_witness :
  ranker_inputs [1; 0]%Q [py "alpha"; py "beta"] [[1; 0]; [3 # 5; 4 # 5]]%Q
  /\ (0 <= 0)%Z
  /\ retrieve_relevant_chunks dot argsort_insertion [1; 0]%Q
       [py "alpha"; py "beta"] [[1; 0]; [3 # 5; 4 # 5]]%Q 0 (1 # 10) <> [].
Proof.
  pose proof two_chunks_inputs as Hin.
  split; [exact Hin|]. split; [lia|].
  apply (retrieve_relevant_chunks_nonempty dot argsort_insertion
           argsort_insertion_spec _ _ _ 0%Z (1 # 10)%Q Hin).
  lia.
Defined.

(** C2 as the specification words it fails: with [top_k = 0] and both chunks
    above the threshold 1/10, the function returns both chunks, more than
    [top_k]. *)
Lemma ranking_as_specified_fails :
  retrieve_relevant_chunks dot argsort_insertion [1; 0]%Q
    [py "alpha"; py "beta"] [[1; 0]; [3 # 5; 4 # 5]]%Q 0 (1 # 10)
  = [py "alpha"; py "beta"]
  /\ ~ ranking_as_specified dot [1; 0]%Q [py "alpha"; py "beta"]
        [[1; 0]; [3 # 5; 4 # 5]]%Q 0 (1 # 10)
        (retrieve_relevant_chunks dot argsort_insertion [1; 0]%Q
           [py "alpha"; py "beta"] [[1; 0]; [3 # 5; 4 # 5]]%Q 0 (1 # 10)).
Proof.
  split; [reflexivity|].
  intros (idxs & Hres & _ & _ & Hbound & _).
  destruct Hbound as [Hlen _].
  - apply Exists_cons_hd. vm_compute. discriminate.
  - apply (f_equal (@length str)) in Hres.
    rewrite length_map in Hres.
    change (length (retrieve_relevant_chunks dot argsort_insertion [1; 0]%Q
              [py "alpha"; py "beta"] [[1; 0]; [3 # 5; 4 # 5]]%Q 0 (1 # 10)))
      with 2 in Hres.
    lia.
Qed.

(** *** Query orchestrator *)

Lemma generation_attempts_app (t1 t2 : list event) :
  generation_attempts (t1 ++ t2)
  = generation_attempts t1 + generation_attempts t2.
Proof.
  unfold generation_attempts. now rewrite List.filter_app, length_app.
Qed.

Lemma startswith_continue_not_done (decision : str) :
  startswith decision (py "CONTINUE") = true ->
  startswith decision (py "DONE") = false.
Proof.
  destruct decision as [|c decision]; [discriminate|].
  change (py "CONTINUE") with ("C"%char :: py "ONTINUE").
  change (py "DONE") with ("D"%char :: py "ONE").
  cbn [startswith]. intros H. apply andb_true_iff in H. destruct H as [Hc _].
  apply Ascii.eqb_eq in Hc. subst c. reflexivity.
Qed.

Lemma bind_run_attempts {A B : Type} (m : run A) (k : A -> run B) :
  generation_attempts (fst (bind_run m k))
  = generation_attempts (fst m)
    + match snd m with
      | Ret a => generation_attempts (fst (k a))
      | Raise _ => 0
      end.
Proof.
  destruct m as [t [a|e]]; simpl.
  - destruct (k a) as [t' r]. simpl. apply generation_attempts_app.
  - lia.
Qed.

Lemma bind_run_silent {A B : Type} (m : run A) (k : A -> run B) :
  generation_attempts (fst m) = 0 ->
  (forall a, generation_attempts (fst (k a)) = 0) ->
  generation_attempts (fst (bind_run m k)) = 0.
Proof.
  intros Hm Hk. rewrite bind_run_attempts, Hm.
  destruct (snd m); [apply Hk|reflexivity].
Qed.

Lemma bind_run_emit_generate {B : Type} (iteration : nat) (prompt : str)
    (k : unit -> run B) :
  generation_attempts (fst (bind_run (emit (EvGenerate iteration prompt)) k))
  = S (generation_attempts (fst (k tt))).
Proof. unfold bind_run, emit. destruct (k tt). reflexivity. Qed.

Section OrchestratorFacts.

Variable w : World.

(** Every iteration makes exactly one generation attempt, however it
    ends. *)
Lemma iteration_decision_attempts (target_file : str) (iteration : nat)
    (user_prompt : str) :
  generation_attempts
    (fst (iteration_decision w target_file iteration user_prompt)) = 1.
Proof.
  unfold iteration_decision.
  rewrite bind_run_emit_generate. f_equal.
  repeat (apply bind_run_silent; [reflexivity|intros]).
  reflexivity.
Qed.

Lemma act_on_decision_attempts (user_prompt : str)
    (execution_result : ExecutionResult) (decision : str) :
  generation_attempts
    (fst (act_on_decision user_prompt execution_result decision)) = 0.
Proof.
  unfold act_on_decision, unit_run.
  repeat match goal with
         | |- context [if ?x then _ else _] => destruct x
         end; reflexivity.
Qed.

Lemma iteration_try_attempts (target_file : str) (iteration : nat)
    (user_prompt : str) :
  generation_attempts
    (fst (iteration_try w target_file iteration user_prompt)) = 1.
Proof.
  unfold iteration_try, bind_run.
  pose proof (iteration_decision_attempts target_file iteration user_prompt)
    as H.
  destruct (iteration_decision w target_file iteration user_prompt)
    as [t [[er d]|e]]; simpl in *; [|exact H].
  pose proof (act_on_decision_attempts user_prompt er d) as H'.
  destruct (act_on_decision user_prompt er d) as [t' r]; simpl in *.
  rewrite generation_attempts_app. lia.
Qed.

(** No world makes the loop attempt more generations than it has
    iterations. *)
Lemma loop_iterations_bound (target_file : str) (remaining : nat) :
  forall (iteration : nat) (user_prompt : str),
    generation_attempts
      (fst (loop_iterations w target_file remaining iteration user_prompt))
    <= remaining.
Proof.
  induction remaining as [|n IH]; intros i p; simpl; [reflexivity|].
  pose proof (iteration_try_attempts target_file i p) as H.
  destruct (iteration_try w target_file i p) as [t [[a|p'|]|e]];
    cbn [fst snd] in *; rewrite ?generation_attempts_app;
    try (change (generation_attempts [EvCleanup]) with 0; lia).
  specialize (IH (S i) p').
  destruct (loop_iterations w target_file n (S i) p') as [t' a'].
  cbn [fst snd] in *. rewrite generation_attempts_app. lia.
Qed.

Lemma loop_iterations_continue (target_file : str) (remaining : nat) :
  forall (iteration : nat) (user_prompt : str),
    (forall k, k < remaining ->
       exists er d,
         snd (iteration_decision w target_file (iteration + k)
                (retry_prompt user_prompt k)) = Ret (er, d)
         /\ startswith d (py "CONTINUE") = true) ->
    generation_attempts
      (fst (loop_iterations w target_file remaining iteration user_prompt))
    = remaining
    /\ snd (loop_iterations w target_file remaining iteration user_prompt)
       = exhausted_message.
Proof.
  induction remaining as [|n IH]; intros i p Hall; simpl; [now split|].
  pose proof (iteration_try_attempts target_file i p) as Hone.
  destruct (Hall 0 ltac:(lia)) as (er & d & Hdec & Hcont).
  rewrite Nat.add_0_r in Hdec. simpl in Hdec.
  unfold iteration_try, bind_run in *.
  destruct (iteration_decision w target_file i p) as [t o].
  simpl in Hdec. subst o.
  unfold act_on_decision in *.
  rewrite (startswith_continue_not_done d Hcont), Hcont in *.
  unfold unit_run in *. simpl in Hone |- *.
  destruct (IH (S i) (p ++ retry_hint)) as [Hn Hmsg].
  { intros k Hk. specialize (Hall (S k) ltac:(lia)).
    now replace (i + S k) with (S i + k) in Hall by lia. }
  destruct (loop_iterations w target_file n (S i) (p ++ retry_hint))
    as [t' a']. simpl in *.
  rewrite generation_attempts_app. split; [lia|assumption].
Qed.

(** C1. With [max_iterations = 3] the loop never makes a fourth generation
    attempt; and a run in which every iteration's decision starts with
    [CONTINUE] makes exactly three generation attempts, one per iteration,
    and then returns the text "Analysis completed after maximum
    iterations". *)
Theorem autonomous_analysis_loop_exhausts (user_prompt target_file : str) :
  generation_attempts
    (fst (autonomous_analysis_loop w user_prompt target_file 3)) <= 3
  /\ (always_continue w user_prompt target_file 3 ->
      generation_attempts
        (fst (autonomous_analysis_loop w user_prompt target_file 3)) = 3
      /\ snd (autonomous_analysis_loop w user_prompt target_file 3)
         = py "Analysis completed after maximum iterations").
Proof.
  unfold autonomous_analysis_loop.
  change (Z.to_nat 3) with 3. split.
  - apply loop_iterations_bound.
  - intros Hall. apply loop_iterations_continue.
    intros k Hk. exact (Hall k Hk).
Qed.

(** C3 (amended). When the decision of an iteration starts with [DONE] and
    the execution succeeded with non-empty stdout, the loop returns the raw
    stdout exactly when that stdout contains both "list" and "detailed" as
    substrings (case-insensitively), or has more than 5 newlines, or has
    more than 3 hyphen characters; otherwise it returns the decision
    without its first five characters, stripped. *)
Theorem done_branch_answer (target_file : str) (remaining iteration : nat)
    (user_prompt : str) (er : ExecutionResult) (d : str) :
  snd (iteration_decision w target_file iteration user_prompt) = Ret (er, d) ->
  startswith d (py "DONE") = true ->
  success er = true ->
  output er <> [] ->
  snd (loop_iterations w target_file (S remaining) iteration user_prompt)
  = if (contains (py "list") (lower (output er))
        && contains (py "detailed") (lower (output er)))
       || (5 <? count_char newline (output er))%Z
       || (3 <? count_char "-"%char (output er))%Z
    then output er
    else strip (py_slice_from d 5).
Proof.
  intros Hdec Hdone Hok Hout. cbn [loop_iterations].
  unfold iteration_try, bind_run.
  destruct (iteration_decision w target_file iteration user_prompt) as [t o].
  cbn [snd] in Hdec. subst o.
  unfold act_on_decision. rewrite Hdone, Hok.
  destruct (output er) as [|c out] eqn:Hout'; [contradiction|].
  cbn [is_nil negb andb]. fold (looks_detailed (c :: out)).
  destruct (looks_detailed (c :: out)); reflexivity.
Qed.

End OrchestratorFacts.

(** The loop theorem in a world whose model always answers [CONTINUE]. *)
Lemma autonomous_analysis_loop_exhausts_witness :
  always_continue continue_world (py "how many") (py "test.txt") 3
  /\ generation_attempts
       (fst (autonomous_analysis_loop continue_world (py "how many")
               (py "test.txt") 3)) = 3
  /\ snd (autonomous_analysis_loop continue_world (py "how many")
            (py "test.txt") 3)
     = py "Analysis completed after maximum iterations".
Proof.
  assert (H : always_continue continue_world (py "how many") (py "test.txt") 3).
  { intros k _. eexists. eexists. split; reflexivity. }
  split; [exact H|].
  exact (proj2 (autonomous_analysis_loop_exhausts continue_world
                  (py "how many") (py "test.txt")) H).
Defined.

(** The [DONE] theorem in a world whose script prints one dated line. *)
Lemma done_branch_answer_witness :
  snd (loop_iterations dated_world (py "test.txt") 3 1 (py "how many"))
  = dated_output.
Proof.
  apply (done_branch_answer dated_world (py "test.txt") 2 1 (py "how many")
           {| success := true; output := dated_output; error := [];
              script_file := py "gpt4o_script_iter_1.py" |}
           (py "DONE: 4 complaints")).
  - reflexivity.
  - reflexivity.
  - reflexivity.
  - discriminate.
Defined.

(** C3 as the specification words it fails: the output below has four
    hyphens but no hyphen-prefixed line, one newline, and neither word; the
    loop returns it raw, where the specification gives the summary. *)
Lemma done_branch_as_specified_fails :
  let er := {| success := true; output := dated_output; error := [];
               script_file := py "gpt4o_script_iter_1.py" |} in
  let d := py "DONE: 4 complaints" in
  snd (iteration_decision dated_world (py "test.txt") 1 (py "how many"))
    = Ret (er, d)
  /\ startswith d (py "DONE") = true
  /\ detailed_as_specified (output er) = false
  /\ snd (autonomous_analysis_loop dated_world (py "how many") (py "test.txt") 3)
     = dated_output
  /\ ~ done_branch_as_specified er d
        (snd (autonomous_analysis_loop dated_world (py "how many")
                (py "test.txt") 3)).
Proof.
  cbv zeta. repeat split; try reflexivity.
  unfold done_branch_as_specified. vm_compute. discriminate.
Qed.

(** *** Top-level query processor *)

Lemma str_eqb_eq (a b : str) : str_eqb a b = true <-> a = b.
Proof.
  revert b. induction a as [|x a IH]; intros [|y b]; simpl;
    try (split; [discriminate|discriminate]); [now split|].
  rewrite andb_true_iff, Ascii.eqb_eq, IH. split.
  - intros [-> ->]. reflexivity.
  - intros H. inversion H. now split.
Qed.

Section QueryProcessorFacts.

Variable cosine : list Q -> list Q -> Q.
Variable argsort : list Q -> list nat.
Variable w : World.

(** The extraction path answers with the loop's text, or with an error
    text when the temporary file cannot be written or read back. *)
Lemma manual_query_processor_extraction (prompt file_content : str) :
  manual_query_processor cosine argsort w prompt (py "extraction") file_content
  = Ret match write_file w temp_file file_content with
        | Raise e => py "Error in extraction analysis: " ++ e
        | Ret _ =>
            match read_file w temp_file with
            | Raise e => py "Error in extraction analysis: " ++ e
            | Ret _ => snd (autonomous_analysis_loop w prompt temp_file 3)
            end
        end.
Proof.
  unfold manual_query_processor.
  change (str_eqb (py "extraction") (py "extraction")) with true.
  cbv iota. f_equal.
  destruct (write_file w temp_file file_content); [|reflexivity].
  cbn [bind try_except].
  destruct (read_file w temp_file); reflexivity.
Qed.

Lemma manual_query_processor_reasoning (prompt file_content : str) :
  manual_query_processor cosine argsort w prompt (py "reasoning") file_content
  = Ret (rag_analysis cosine argsort w prompt file_content).
Proof. reflexivity. Qed.

(** Any other method is refused with a [ValueError]. *)
Lemma manual_query_processor_other (prompt method file_content : str) :
  method <> py "extraction" -> method <> py "reasoning" ->
  manual_query_processor cosine argsort w prompt method file_content
  = Raise (py "Method must be 'extraction' or 'reasoning'").
Proof.
  intros He Hr. unfold manual_query_processor.
  destruct (str_eqb method (py "extraction")) eqn:E1;
    [apply str_eqb_eq in E1; contradiction|].
  destruct (str_eqb method (py "reasoning")) eqn:E2;
    [apply str_eqb_eq in E2; contradiction|].
  reflexivity.
Qed.

(** C8. For every prompt, every file content, both methods and every
    world (model, interpreter, file system and embeddings behaving in any
    way, faults included), [manual_query_processor] returns a text and
    raises nothing; and [analyze] answers with the text of the method it
    routes to, or with an "Analysis failed" text when that method or the
    routing raises. *)
Theorem manual_query_processor_returns (prompt method file_content : str) :
  method = py "extraction" \/ method = py "reasoning" ->
  (exists answer : str,
     manual_query_processor cosine argsort w prompt method file_content
     = Ret answer)
  /\ (forall (process_with_extraction process_with_rag
                : str -> str -> str -> outcome str) (filename : str),
        (exists answer : str,
           (process_with_extraction prompt file_content filename = Ret answer
            \/ process_with_rag prompt file_content filename = Ret answer)
           /\ analyze process_with_extraction process_with_rag prompt method
                file_content filename = answer)
        \/ (exists e : str,
              analyze process_with_extraction process_with_rag prompt method
                file_content filename = py "Analysis failed: " ++ e)).
Proof.
  intros [-> | ->]; split.
  - rewrite manual_query_processor_extraction. eexists. reflexivity.
  - intros pe pr filename. unfold analyze.
    change (str_eqb (py "extraction") (py "extraction")) with true.
    cbv iota.
    destruct (pe prompt file_content filename) as [a|e] eqn:E.
    + left. exists a. split; [now left|reflexivity].
    + right. exists e. reflexivity.
  - rewrite manual_query_processor_reasoning. eexists. reflexivity.
  - intros pe pr filename. unfold analyze.
    change (str_eqb (py "reasoning") (py "extraction")) with false.
    change (str_eqb (py "reasoning") (py "reasoning")) with true.
    cbv iota.
    destruct (pr prompt file_content filename) as [a|e] eqn:E.
    + left. exists a. split; [now right|reflexivity].
    + right. exists e. reflexivity.
Qed.

End QueryProcessorFacts.

(** The theorem for the extraction method in the world of the dated line. *)
Lemma manual_query_processor_returns_witness :
  exists answer : str,
    manual_query_processor dot argsort_insertion dated_world (py "how many")
      (py "extraction") (py "Complaint ID: 001") = Ret answer.
Proof.
  apply (manual_query_processor_returns dot argsort_insertion dated_world
           (py "how many") (py "extraction") (py "Complaint ID: 001")).
  left. reflexivity.
Defined.

(** *** Script executor *)

Section ScriptExecutorFacts.

Import OpenAIClient.

Variable value : Type.
Variable py_str : value -> outcome str.
Variable py_exec : str -> str -> outcome (str * str * list (str * value)).


End ScriptExecutorFacts.



(** *** Character-window chunker *)

Section ChunkDocumentFacts.

Import OpenAIClient.

Lemma find_last_bound (c : ascii) (s : str) : forall i best : Z,
  (best < i + Z.of_nat (length s))%Z ->
  (find_last c s i best < i + Z.of_nat (length s))%Z.
Proof.
  induction s as [|x s IH]; intros i best Hb; simpl find_last.
  - exact Hb.
  - replace (i + Z.of_nat (length (x :: s)))%Z
      with ((i + 1) + Z.of_nat (length s))%Z by (simpl length; lia).
    apply IH. simpl length in Hb. destruct (Ascii.eqb x c); lia.
Qed.

Lemma rfind_bound (s : str) (c : ascii) :
  (rfind s c < Z.of_nat (length s))%Z.
Proof. unfold rfind. apply (find_last_bound c s 0 (-1)). lia. Qed.

Lemma py_slice_length_le {A : Type} (l : list A) (lo n : Z) :
  (0 <= lo)%Z -> (0 <= n)%Z ->
  (Z.of_nat (length (py_slice l lo (lo + n))) <= n)%Z.
Proof.
  intros Hlo Hn. unfold py_slice, slice_bound.
  rewrite length_take, length_drop.
  destruct (Z.ltb_spec lo 0), (Z.ltb_spec (lo + n) 0); lia.
Qed.

(** The comparison of line 469 sets an index into the chunk against a
    position in the text: a window that starts at or after half the chunk
    size is never cut at a sentence end. *)
Lemma window_never_snaps (text : str) (chunk_size start : Z) :
  (0 <= start)%Z -> (0 <= chunk_size)%Z ->
  (chunk_size - 1 <= start + chunk_size / 2)%Z ->
  window text chunk_size start
  = (py_slice text start (start + chunk_size), (start + chunk_size)%Z).
Proof.
  intros Hs Hc Hhalf. unfold window.
  destruct (_ <? Z.of_nat (length text))%Z; [|reflexivity].
  set (chunk := py_slice text start (start + chunk_size)).
  pose proof (rfind_bound chunk "."%char) as Hp.
  pose proof (rfind_bound chunk newline) as Hn.
  pose proof (py_slice_length_le text start chunk_size Hs Hc) as Hl.
  fold chunk in Hl.
  destruct (Z.ltb_spec (start + chunk_size / 2)
              (Z.max (rfind chunk ".") (rfind chunk newline)));
    [lia|reflexivity].
Qed.

(** C5 (defect). On a text of 24 characters cut with [chunk_size = 10] and
    no overlap, the second window holds a period at its ninth character and
    ends before the end of the text.  The specification ends the chunk just
    after the period, at position 19, which leaves nine characters, more
    than half the chunk size; the code keeps the raw boundary at 20.  The
    same sentence in a first window is cut after its period. *)
Theorem chunk_document_second_window :
  chunk_document 10 (py "aaaaaaaaaabbbbbbbb.bcccc") 10 0
  = Some [py "aaaaaaaaaa"; py "bbbbbbbb.b"; py "cccc"]
  /\ window (py "aaaaaaaaaabbbbbbbb.bcccc") 10 10 = (py "bbbbbbbb.b", 20%Z)
  /\ window_end_as_specified (py "aaaaaaaaaabbbbbbbb.bcccc") 10 10 = 19%Z
  /\ py_slice (py "aaaaaaaaaabbbbbbbb.bcccc") 10 19 = py "bbbbbbbb."
  /\ window (py "bbbbbbbb.bcccc") 10 0 = (py "bbbbbbbb.", 9%Z).
Proof. repeat split; vm_compute; reflexivity. Qed.

(** The same with the parameters of [process_with_rag]: the second window
    starts at 900 and holds the period at its index 950; the specification
    ends the chunk at 1851, the code at 1900. *)
Lemma chunk_document_default_window :
  option_map (map (@length ascii)) (chunk_document 10 one_period_text 1000 100)
  = Some [1000; 1000; 551]
  /\ snd (window one_period_text 1000 0) = 1000%Z
  /\ snd (window one_period_text 1000 900) = 1900%Z
  /\ rfind (py_slice one_period_text 900 1900) "."%char = 950%Z
  /\ window_end_as_specified one_period_text 1000 900 = 1851%Z.
Proof. repeat split; vm_compute; reflexivity. Qed.

End ChunkDocumentFacts.

(** *** Model gateway *)

Section GatewayFacts.

Variable post : str -> payload -> nat -> outcome response.


(** A fault of the token request of step 1 is not handled by the retry
    loop: it reaches the caller. *)
Lemma make_api_call_token_fault (e : str) (request : payload) :
  make_api_call post (Raise e) request = ([], Raise e).
Proof. reflexivity. Qed.


End GatewayFacts.

(** The gateway against a service that is rate limited to the end, and
    against one that cannot be reached. *)
Example make_api_call_rate_limited :
  make_api_call rate_limited_post (Ret (py "token"))
    {| messages := []; max_completion_tokens := 4000; temperature := 3 # 10 |}
  = ([GwRequest 0 RateLimited; GwSleep 4;
      GwRequest 1 RateLimited; GwSleep 5;
      GwRequest 2 RateLimited; GwSleep 7],
     Ret (py "Failed after 3 attempts")).
Proof. reflexivity. Qed.

Example make_api_call_unreachable :
  make_api_call unreachable_post (Ret (py "token"))
    {| messages := []; max_completion_tokens := 4000; temperature := 3 # 10 |}
  = ([GwRequest 0 Faulted; GwSleep 3; GwRequest 1 Faulted; GwSleep 4;
      GwRequest 2 Faulted],
     Ret (py "Request failed after 3 attempts: Connection refused")).
Proof. reflexivity. Qed.

(** *** Embeddings cache *)

Section EmbeddingsCacheFacts.

Import EmbeddingsCache.

Variable md5_hexdigest : str -> string.

Lemma cache_file_not_metadata_file (content_hash : string) :
  _get_cache_file content_hash <> _get_metadata_file content_hash.
Proof. unfold _get_cache_file, _get_metadata_file. simpl. discriminate. Qed.

(** What the two files hold after a caching without faults. *)
Lemma cache_embeddings_files (cache_dir : gmap string file) (content : str)
    (chunks : list str) (embeddings : list (list Q)) (chunk_size : Z)
    (now : string) :
  let cache_dir' :=
    cache_embeddings md5_hexdigest None None cache_dir content chunks
      embeddings chunk_size now in
  exists (data : cache_data) (meta : metadata),
    cache_dir' !! _get_cache_file (md5_hexdigest content) = Some (Pickle data)
    /\ cache_dir' !! _get_metadata_file (md5_hexdigest content)
       = Some (Json meta)
    /\ EmbeddingsCache.chunks data = chunks
    /\ EmbeddingsCache.embeddings data = embeddings
    /\ meta_chunk_size meta = chunk_size.
Proof.
  cbv zeta. unfold cache_embeddings, _get_content_hash.
  eexists. eexists. split.
  { rewrite lookup_insert_ne
      by (intros H; symmetry in H; now apply cache_file_not_metadata_file in H).
    apply lookup_insert_eq. }
  split; [apply lookup_insert_eq|].
  repeat split.
Qed.

(** C9. After [cache_embeddings] has stored chunks and embeddings for a
    content with a chunk size, [get_cached_embeddings] with the same
    content and the same chunk size returns the stored chunks and
    embeddings, and leaves the cache as it is; with any other chunk size it
    returns [None].  The function takes no model gateway: the answer comes
    from the cache directory alone. *)
Theorem cache_round_trip (cache_dir : gmap string file) (content : str)
    (chunks : list str) (embeddings : list (list Q)) (chunk_size : Z)
    (now : string) :
  (exists data : cache_data,
     get_cached_embeddings md5_hexdigest
       (cache_embeddings md5_hexdigest None None cache_dir content chunks
          embeddings chunk_size now)
       content chunk_size
     = (Some data,
        cache_embeddings md5_hexdigest None None cache_dir content chunks
          embeddings chunk_size now)
     /\ EmbeddingsCache.chunks data = chunks
     /\ EmbeddingsCache.embeddings data = embeddings)
  /\ (forall other_size : Z,
        other_size <> chunk_size ->
        fst (get_cached_embeddings md5_hexdigest
               (cache_embeddings md5_hexdigest None None cache_dir content
                  chunks embeddings chunk_size now)
               content other_size)
        = None).
Proof.
  destruct (cache_embeddings_files cache_dir content chunks embeddings
              chunk_size now) as (data & meta & Hc & Hm & Hch & Hemb & Hsize).
  split.
  - exists data. unfold get_cached_embeddings, _get_content_hash.
    rewrite Hc, Hm, Hsize, Z.eqb_refl. cbn [negb]. now repeat split.
  - intros other_size Hne. unfold get_cached_embeddings, _get_content_hash.
    rewrite Hc, Hm, Hsize.
    destruct (Z.eqb_spec chunk_size other_size) as [Heq|_]; [congruence|].
    reflexivity.
Qed.

End EmbeddingsCacheFacts.

(** The round trip for one cached chunk, asked again with another chunk
    size. *)
Lemma cache_round_trip_witness :
  (1000 <> 500)%Z
  /\ fst (EmbeddingsCache.get_cached_embeddings EmbeddingsCache.toy_digest
            (EmbeddingsCache.cache_embeddings EmbeddingsCache.toy_digest
               None None ∅ (py "One chunk.") [py "One chunk."] [[1; 0]%Q]
               500 "2025-01-01T00:00:00")
            (py "One chunk.") 1000)
     = None.
Proof.
  split; [lia|].
  apply (proj2 (cache_round_trip EmbeddingsCache.toy_digest ∅
                  (py "One chunk.") [py "One chunk."] [[1; 0]%Q] 500
                  "2025-01-01T00:00:00")).
  lia.
Defined.


(** ** Further properties of the code *)

(** *** The loop beyond its bound *)

Lemma generate_events_bind {A B : Type} (m : run A) (k : A -> run B) :
  List.filter is_event_generate (fst (bind_run m k))
  = List.filter is_event_generate (fst m)
    ++ match snd m with
       | Ret a => List.filter is_event_generate (fst (k a))
       | Raise _ => []
       end.
Proof.
  destruct m as [t [a|e]]; simpl.
  - destruct (k a) as [t' r]. simpl. apply List.filter_app.
  - now rewrite app_nil_r.
Qed.

Lemma cleanup_free_bind {A B : Type} (m : run A) (k : A -> run B) :
  ~ In EvCleanup (fst m) ->
  (forall a, ~ In EvCleanup (fst (k a))) ->
  ~ In EvCleanup (fst (bind_run m k)).
Proof.
  intros Hm Hk. destruct m as [t [a|e]]; simpl in *; [|exact Hm].
  specialize (Hk a). destruct (k a) as [t' r]. simpl in *.
  intros H. apply in_app_or in H. tauto.
Qed.

Section LoopFacts.

Variable w : World.

Lemma iteration_decision_generates (target_file : str) (iteration : nat)
    (user_prompt : str) :
  List.filter is_event_generate
    (fst (iteration_decision w target_file iteration user_prompt))
  = [EvGenerate iteration user_prompt].
Proof.
  unfold iteration_decision.
  rewrite generate_events_bind.
  change (List.filter is_event_generate
            (fst (emit (EvGenerate iteration user_prompt))))
    with [EvGenerate iteration user_prompt].
  change (snd (emit (EvGenerate iteration user_prompt))) with (Ret tt).
  cbv iota beta.
  match goal with
  | |- _ ++ ?l = _ => enough (H : l = []) by (rewrite H; reflexivity)
  end.
  repeat (rewrite generate_events_bind;
          match goal with
          | |- context [snd ?m] => destruct (snd m)
          end; cbn [fst emit call List.filter is_event_generate app];
          try reflexivity).
Qed.

Lemma iteration_decision_no_cleanup (target_file : str) (iteration : nat)
    (user_prompt : str) :
  ~ In EvCleanup (fst (iteration_decision w target_file iteration user_prompt)).
Proof.
  unfold iteration_decision.
  repeat (apply cleanup_free_bind;
          [cbn; intros H; repeat (destruct H as [H|H]; [discriminate|]);
           exact H|intros]).
  cbn. tauto.
Qed.

Lemma act_on_decision_cases (user_prompt : str) (er : ExecutionResult)
    (d : str) :
  (exists answer,
     act_on_decision user_prompt er d = ([EvCleanup], Ret (StepReturn answer)))
  \/ act_on_decision user_prompt er d
     = ([], Ret (StepContinue (user_prompt ++ retry_hint)))
  \/ act_on_decision user_prompt er d = ([], Ret StepBreak).
Proof.
  unfold act_on_decision, unit_run.
  destruct (startswith d (py "DONE")).
  - left. destruct (success er && negb (is_nil (output er)));
      [destruct (looks_detailed (output er))|]; eexists; reflexivity.
  - destruct (startswith d (py "CONTINUE")); [right; left|right; right];
      reflexivity.
Qed.

(** X1. A decision that starts with neither [DONE] nor [CONTINUE] ends the
    loop at once, whatever iterations remain: no further generation attempt
    is made and the text returned is the one of the exhausted loop. *)
Theorem unclear_decision_stops (target_file : str) (remaining iteration : nat)
    (user_prompt : str) (er : ExecutionResult) (d : str) :
  snd (iteration_decision w target_file iteration user_prompt) = Ret (er, d) ->
  startswith d (py "DONE") = false ->
  startswith d (py "CONTINUE") = false ->
  snd (loop_iterations w target_file (S remaining) iteration user_prompt)
    = py "Analysis completed after maximum iterations"
  /\ generation_attempts
       (fst (loop_iterations w target_file (S remaining) iteration user_prompt))
     = 1.
Proof.
  intros Hdec Hdone Hcont. cbn [loop_iterations].
  pose proof (iteration_try_attempts w target_file iteration user_prompt)
    as Hone.
  unfold iteration_try, bind_run in *.
  destruct (iteration_decision w target_file iteration user_prompt) as [t o].
  cbn [snd] in Hdec. subst o.
  unfold act_on_decision in *. rewrite Hdone, Hcont in *.
  unfold unit_run in *. cbn [fst snd] in *.
  split; [reflexivity|].
  rewrite generation_attempts_app. cbn. lia.
Qed.

(** X2. A fault raised anywhere in an iteration before the decision is read
    (by the model call, by writing the script or its debug copy, by the
    decision call) does not leave the loop as a fault: the loop stops, makes
    no further generation attempt, and returns the text of the exhausted
    loop. *)
Theorem iteration_fault_stops (target_file : str) (remaining iteration : nat)
    (user_prompt : str) (e : str) :
  snd (iteration_decision w target_file iteration user_prompt) = Raise e ->
  snd (loop_iterations w target_file (S remaining) iteration user_prompt)
    = py "Analysis completed after maximum iterations"
  /\ generation_attempts
       (fst (loop_iterations w target_file (S remaining) iteration user_prompt))
     = 1.
Proof.
  intros Hdec. cbn [loop_iterations].
  pose proof (iteration_try_attempts w target_file iteration user_prompt)
    as Hone.
  unfold iteration_try, bind_run in *.
  destruct (iteration_decision w target_file iteration user_prompt) as [t o].
  cbn [snd] in Hdec. subst o. cbn [fst snd] in *.
  split; [reflexivity|].
  rewrite generation_attempts_app. cbn. lia.
Qed.

Lemma loop_iterations_cleanup (target_file : str) (remaining : nat) :
  forall (iteration : nat) (user_prompt : str),
    exists t : list event,
      fst (loop_iterations w target_file remaining iteration user_prompt)
        = t ++ [EvCleanup]
      /\ ~ In EvCleanup t.
Proof.
  induction remaining as [|n IH]; intros i p.
  - exists []. split; [reflexivity|intros []].
  - cbn [loop_iterations]. unfold iteration_try, bind_run.
    pose proof (iteration_decision_no_cleanup target_file i p) as Hno.
    destruct (iteration_decision w target_file i p) as [t [[er d]|e]];
      cbn [fst] in Hno.
    + destruct (act_on_decision_cases p er d) as [[a Ha]|[Ha|Ha]]; rewrite Ha.
      * exists t. split; [reflexivity|exact Hno].
      * destruct (IH (S i) (p ++ retry_hint)) as (t' & Ht' & Hno').
        destruct (loop_iterations w target_file n (S i) (p ++ retry_hint))
          as [t2 a2]. cbn [fst] in *. subst t2.
        exists ((t ++ []) ++ t'). split; [now rewrite app_assoc|].
        rewrite app_nil_r. intros H. apply in_app_or in H. tauto.
      * exists (t ++ []). split; [reflexivity|now rewrite app_nil_r].
    + exists t. split; [reflexivity|exact Hno].
Qed.

(** X3. For every world, every prompt and every [max_iterations] (zero and
    negative values included), a run of the loop cleans the generated files
    up exactly once, as its last action, whichever way it ends; and it makes
    at most [max_iterations] generation attempts, none when [max_iterations]
    is not positive. *)
Theorem autonomous_analysis_loop_cleans_up_once (user_prompt target_file : str)
    (max_iterations : Z) :
  (exists t : list event,
     fst (autonomous_analysis_loop w user_prompt target_file max_iterations)
       = t ++ [EvCleanup]
     /\ ~ In EvCleanup t)
  /\ (Z.of_nat (generation_attempts
        (fst (autonomous_analysis_loop w user_prompt target_file
                max_iterations)))
      <= Z.max 0 max_iterations)%Z.
Proof.
  unfold autonomous_analysis_loop. split.
  - apply loop_iterations_cleanup.
  - pose proof (loop_iterations_bound w target_file (Z.to_nat max_iterations)
                  1 user_prompt). lia.
Qed.

(** X4. When the decision starts with [DONE] but the execution failed or
    printed nothing, the loop returns the model's summary (the decision
    without its first five characters, stripped), whatever the output looks
    like. *)
Theorem done_without_output_returns_summary (target_file : str)
    (remaining iteration : nat) (user_prompt : str) (er : ExecutionResult)
    (d : str) :
  snd (iteration_decision w target_file iteration user_prompt) = Ret (er, d) ->
  startswith d (py "DONE") = true ->
  success er = false \/ output er = [] ->
  snd (loop_iterations w target_file (S remaining) iteration user_prompt)
  = strip (py_slice_from d 5).
Proof.
  intros Hdec Hdone Hfail. cbn [loop_iterations].
  unfold iteration_try, bind_run.
  destruct (iteration_decision w target_file iteration user_prompt) as [t o].
  cbn [snd] in Hdec. subst o.
  unfold act_on_decision. rewrite Hdone.
  replace (success er && negb (is_nil (output er))) with false; [reflexivity|].
  destruct Hfail as [-> | ->]; [reflexivity|]. cbn. now rewrite andb_false_r.
Qed.

Lemma loop_iterations_prompts (target_file : str) (remaining : nat) :
  forall (iteration : nat) (user_prompt : str),
    (forall k, k < remaining ->
       exists er d,
         snd (iteration_decision w target_file (iteration + k)
                (retry_prompt user_prompt k)) = Ret (er, d)
         /\ startswith d (py "CONTINUE") = true) ->
    List.filter is_event_generate
      (fst (loop_iterations w target_file remaining iteration user_prompt))
    = map (fun k => EvGenerate (iteration + k) (retry_prompt user_prompt k))
        (seq 0 remaining).
Proof.
  induction remaining as [|n IH]; intros i p Hall; [reflexivity|].
  cbn [loop_iterations].
  pose proof (iteration_decision_generates target_file i p) as Hgen.
  destruct (Hall 0 ltac:(lia)) as (er & d & Hdec & Hcont).
  rewrite Nat.add_0_r in Hdec. cbn [retry_prompt] in Hdec.
  unfold iteration_try, bind_run.
  destruct (iteration_decision w target_file i p) as [t o].
  cbn [fst snd] in *. subst o.
  unfold act_on_decision.
  rewrite (startswith_continue_not_done d Hcont), Hcont.
  unfold unit_run.
  specialize (IH (S i) (p ++ retry_hint)).
  destruct (loop_iterations w target_file n (S i) (p ++ retry_hint))
    as [t' a']. cbn [fst] in *.
  rewrite app_nil_r, List.filter_app, Hgen, IH.
  - cbn [seq map app retry_prompt]. rewrite Nat.add_0_r. f_equal.
    rewrite <- seq_shift, map_map. apply map_ext. intros k.
    now replace (i + S k) with (S i + k) by lia.
  - intros k Hk. specialize (Hall (S k) ltac:(lia)).
    now replace (i + S k) with (S i + k) in Hall by lia.
Qed.

Lemma retry_prompt_length (k : nat) : forall user_prompt : str,
  length (retry_prompt user_prompt k) = length user_prompt + k * 56.
Proof.
  induction k as [|k IH]; intros p; cbn [retry_prompt]; [lia|].
  rewrite IH, length_app.
  replace (length retry_hint) with 56 by reflexivity. lia.
Qed.

(** X5. Every [CONTINUE] appends the same hint to the prompt once more: in a
    run of [n] iterations whose decisions all start with [CONTINUE], the
    [k]-th generation request (counting from 0) is made in iteration [k + 1]
    with the original prompt followed by [k] copies of the hint, so the
    prompt grows by 56 characters per retry.  What the model answered after
    [CONTINUE:] is not passed on. *)
Theorem retries_accumulate_hint (user_prompt target_file : str) (n : nat) :
  always_continue w user_prompt target_file n ->
  List.filter is_event_generate
    (fst (autonomous_analysis_loop w user_prompt target_file (Z.of_nat n)))
  = map (fun k => EvGenerate (S k) (retry_prompt user_prompt k)) (seq 0 n)
  /\ forall k, length (retry_prompt user_prompt k)
               = length user_prompt + k * 56.
Proof.
  intros Hall. split; [|intros k; apply retry_prompt_length].
  unfold autonomous_analysis_loop. rewrite Nat2Z.id.
  rewrite loop_iterations_prompts; [reflexivity|].
  intros k Hk. exact (Hall k Hk).
Qed.

End LoopFacts.

Lemma unclear_decision_stops_witness :
  snd (loop_iterations unclear_world (py "test.txt") 3 1 (py "how many"))
  = py "Analysis completed after maximum iterations"
  /\ generation_attempts
       (fst (loop_iterations unclear_world (py "test.txt") 3 1 (py "how many")))
     = 1.
Proof.
  apply (unclear_decision_stops unclear_world (py "test.txt") 2 1
           (py "how many")
           {| success := true; output := py "1"; error := [];
              script_file := py "gpt4o_script_iter_1.py" |}
           (py "It depends.")); reflexivity.
Defined.

Lemma iteration_fault_stops_witness :
  snd (loop_iterations read_only_world (py "test.txt") 3 1 (py "how many"))
  = py "Analysis completed after maximum iterations"
  /\ generation_attempts
       (fst (loop_iterations read_only_world (py "test.txt") 3 1
               (py "how many")))
     = 1.
Proof.
  apply (iteration_fault_stops read_only_world (py "test.txt") 2 1
           (py "how many") (py "[Errno 13] Permission denied")).
  reflexivity.
Defined.

Lemma done_without_output_returns_summary_witness :
  snd (loop_iterations failing_script_world (py "test.txt") 3 1 (py "how many"))
  = py "could not count".
Proof.
  apply (done_without_output_returns_summary failing_script_world
           (py "test.txt") 2 1 (py "how many")
           {| success := false; output := [];
              error := py "NameError: name 'undefined_name' is not defined";
              script_file := py "gpt4o_script_iter_1.py" |}
           (py "DONE: could not count")).
  - reflexivity.
  - reflexivity.
  - left. reflexivity.
Defined.

Lemma retries_accumulate_hint_witness :
  List.filter is_event_generate
    (fst (autonomous_analysis_loop continue_world (py "how many")
            (py "test.txt") (Z.of_nat 2)))
  = [EvGenerate 1 (py "how many");
     EvGenerate 2 (py "how many" ++ retry_hint)].
Proof.
  apply (proj1 (retries_accumulate_hint continue_world (py "how many")
                  (py "test.txt") 2
                  (fun k _ => ex_intro _ _ (ex_intro _ _
                     (conj eq_refl eq_refl))))).
Defined.

(** *** Code fences around a generated script *)

Lemma lstrip_head (s : str) :
  lstrip s = []
  \/ exists c z, lstrip s = c :: z /\ py_isspace c = false.
Proof.
  induction s as [|c s IH]; [now left|]. simpl.
  destruct (py_isspace c) eqn:Hc; [exact IH|].
  right. now exists c, s.
Qed.

Lemma lstrip_app_visible (a b : str) (c : ascii) :
  py_isspace c = false -> lstrip (a ++ c :: b) = lstrip a ++ c :: b.
Proof.
  intros Hc. induction a as [|x a IH]; simpl.
  - now rewrite Hc.
  - destruct (py_isspace x); [exact IH|reflexivity].
Qed.

Lemma rstrip_cons_visible (c : ascii) (s : str) :
  py_isspace c = false -> rstrip (c :: s) = c :: rstrip s.
Proof.
  intros Hc. unfold rstrip. simpl rev.
  rewrite lstrip_app_visible by assumption.
  now rewrite rev_app_distr.
Qed.

Lemma rstrip_snoc_visible (s : str) (c : ascii) :
  py_isspace c = false -> rstrip (s ++ [c]) = s ++ [c].
Proof.
  intros Hc. unfold rstrip. rewrite rev_app_distr. simpl.
  rewrite Hc. simpl. now rewrite rev_involutive.
Qed.

Lemma lstrip_idempotent (s : str) : lstrip (lstrip s) = lstrip s.
Proof.
  destruct (lstrip_head s) as [->|(c & z & -> & Hc)]; [reflexivity|].
  simpl. now rewrite Hc.
Qed.

Lemma rstrip_idempotent (s : str) : rstrip (rstrip s) = rstrip s.
Proof.
  unfold rstrip. now rewrite rev_involutive, lstrip_idempotent.
Qed.

(** [strip] gives a text that [strip] leaves alone. *)
Lemma strip_idempotent (s : str) : strip (strip s) = strip s.
Proof.
  unfold strip.
  destruct (lstrip_head s) as [->|(c & z & -> & Hc)]; [reflexivity|].
  rewrite rstrip_cons_visible by assumption.
  simpl lstrip. rewrite Hc.
  rewrite rstrip_cons_visible by assumption.
  now rewrite rstrip_idempotent.
Qed.

Lemma startswith_app_self (p s : str) : startswith (p ++ s) p = true.
Proof.
  induction p as [|a p IH]; simpl; [now destruct s|].
  now rewrite Ascii.eqb_refl, IH.
Qed.

Lemma startswith_prefix (s p q : str) :
  startswith s (p ++ q) = true -> startswith s p = true.
Proof.
  revert s. induction p as [|a p IH]; intros s H; [now destruct s|].
  destruct s as [|b s]; [discriminate|]. simpl in *.
  apply andb_true_iff in H. destruct H as [-> H]. now apply IH.
Qed.

Lemma py_slice_from_app {A : Type} (p s : list A) :
  py_slice_from (p ++ s) (Z.of_nat (length p)) = s.
Proof.
  unfold py_slice_from, slice_bound.
  destruct (Z.ltb_spec (Z.of_nat (length p)) 0); [lia|].
  rewrite Z.min_l by (rewrite length_app; lia).
  rewrite Nat2Z.id. apply drop_app_length.
Qed.

Lemma py_slice_to_app {A : Type} (s q : list A) :
  q <> [] -> py_slice_to (s ++ q) (- Z.of_nat (length q)) = s.
Proof.
  intros Hq. unfold py_slice_to, slice_bound.
  assert (0 < length q) by (destruct q; [contradiction|simpl; lia]).
  destruct (Z.ltb_spec (- Z.of_nat (length q)) 0); [|lia].
  rewrite length_app.
  replace (Z.to_nat (Z.max 0 (Z.of_nat (length s + length q)
                               + - Z.of_nat (length q))))
    with (length s) by lia.
  apply take_app_length.
Qed.

Section ScriptFenceFacts.

Variable w : World.

(** X6. Whatever the model replies, the script [get_gpt4o_script] hands on
    has no leading or trailing whitespace; and a reply that, once stripped,
    neither starts nor ends with three backquotes is handed on stripped and
    otherwise unchanged. *)
Theorem get_gpt4o_script_trimmed (iteration : nat) (prompt target_file : str)
    (reply : str) :
  script_reply w iteration prompt target_file = Ret reply ->
  exists script : str,
    get_gpt4o_script w iteration prompt target_file = Ret script
    /\ strip script = script
    /\ (startswith (strip reply) (py "```") = false ->
        endswith (strip reply) (py "```") = false ->
        script = strip reply).
Proof.
  intros Hreply. unfold get_gpt4o_script. rewrite Hreply. cbn [bind].
  eexists. split; [reflexivity|]. split; [apply strip_idempotent|].
  intros Hstart Hend.
  destruct (startswith (strip reply) (py "```python")) eqn:Hpy.
  - apply (startswith_prefix _ (py "```") (py "python")) in Hpy. congruence.
  - rewrite Hstart, Hend. apply strip_idempotent.
Qed.

(** X7. A reply fenced as a Python code block, three backquotes and the word
    [python], a newline, the code, three backquotes, is reduced to the code
    inside, stripped. *)
Theorem get_gpt4o_script_unfences (iteration : nat) (prompt target_file : str)
    (body : str) :
  script_reply w iteration prompt target_file
    = Ret (py "```python" ++ newline :: body ++ py "```") ->
  get_gpt4o_script w iteration prompt target_file = Ret (strip body).
Proof.
  intros Hreply. unfold get_gpt4o_script. rewrite Hreply. cbn [bind].
  set (inner := newline :: body).
  assert (Hstrip : strip (py "```python" ++ inner ++ py "```")
                   = py "```python" ++ inner ++ py "```").
  { unfold strip.
    change (lstrip (py "```python" ++ inner ++ py "```"))
      with (py "```python" ++ inner ++ py "```").
    replace (py "```python" ++ inner ++ py "```")
      with ((py "```python" ++ inner ++ py "``") ++ ["`"%char])
      by (rewrite <- !app_assoc; reflexivity).
    now apply rstrip_snoc_visible. }
  change (newline :: body ++ py "```") with (inner ++ py "```").
  rewrite Hstrip, startswith_app_self.
  replace (py_slice_from (py "```python" ++ inner ++ py "```") 9)
    with (inner ++ py "```")
    by (symmetry; apply (py_slice_from_app (py "```python"))).
  change (startswith (inner ++ py "```") (py "```")) with false. cbv iota.
  unfold endswith. rewrite rev_app_distr, startswith_app_self.
  replace (py_slice_to (inner ++ py "```") (-3)) with inner
    by (symmetry; apply (py_slice_to_app inner (py "```")); discriminate).
  reflexivity.
Qed.

End ScriptFenceFacts.

Lemma get_gpt4o_script_trimmed_witness :
  exists script : str,
    get_gpt4o_script continue_world 1 (py "how many") (py "test.txt")
      = Ret script
    /\ strip script = script.
Proof.
  destruct (get_gpt4o_script_trimmed continue_world 1 (py "how many")
              (py "test.txt") (py "print(1)") eq_refl)
    as (script & Hs & Ht & _).
  exists script. now split.
Defined.

Lemma get_gpt4o_script_unfences_witness :
  get_gpt4o_script fenced_world 1 (py "how many") (py "test.txt")
  = Ret (py "print(1)").
Proof.
  apply (get_gpt4o_script_unfences fenced_world 1 (py "how many")
           (py "test.txt") (py "print(1)" ++ [newline])).
  reflexivity.
Defined.

(** *** The ranker in degraded mode, and how many chunks it returns *)

Lemma NoDup_firstn {A : Type} (n : nat) (l : list A) :
  List.NoDup l -> List.NoDup (firstn n l).
Proof.
  intros H. rewrite <- (firstn_skipn n l) in H.
  now apply NoDup_app_remove_r in H.
Qed.

Lemma filter_length_perm {A : Type} (f : A -> bool) (l l' : list A) :
  Permutation l l' ->
  length (List.filter f l) = length (List.filter f l').
Proof.
  induction 1 as [|x l l' _ IH|x y l|l l' l'' _ IH1 _ IH2]; simpl.
  - reflexivity.
  - destruct (f x); simpl; now rewrite IH.
  - destruct (f x), (f y); reflexivity.
  - now rewrite IH1.
Qed.

Lemma filter_length_map {A B : Type} (f : A -> B) (g : B -> bool)
    (l : list A) :
  length (List.filter g (map f l))
  = length (List.filter (fun a => g (f a)) l).
Proof.
  induction l as [|a l IH]; simpl; [reflexivity|].
  destruct (g (f a)); simpl; now rewrite IH.
Qed.

Lemma filter_length_indices (p : Q -> bool) (s : list Q) :
  length (List.filter (fun i => p (nth i s 0%Q)) (seq 0 (length s)))
  = length (List.filter p s).
Proof.
  induction s as [|a s IH]; [reflexivity|].
  cbn [length seq List.filter nth]. rewrite <- seq_shift.
  destruct (p a); cbn [length]; rewrite filter_length_map; cbn [nth];
    now rewrite IH.
Qed.

Section RankerEdges.

Variable cosine : list Q -> list Q -> Q.
Variable argsort : list Q -> list nat.

(** Without a usable pair of embeddings the ranking is skipped. *)
Lemma retrieve_relevant_chunks_unranked (q : list Q) (chunks : list str)
    (embs : list (list Q)) (top_k : Z) (t : Q) :
  q = [] \/ embs = [] \/ Exists (fun e => length e <> length q) embs ->
  retrieve_relevant_chunks cosine argsort q chunks embs top_k t
    = py_slice_to chunks top_k.
Proof.
  intros Hbad. unfold retrieve_relevant_chunks.
  destruct q as [|x q]; [reflexivity|].
  destruct embs as [|e embs]; [reflexivity|].
  destruct Hbad as [Hq|[He|Hdim]]; try discriminate.
  cbn [is_nil orb]. unfold cosine_similarity.
  replace (forallb (fun e0 => (length e0 =? length (x :: q))%nat) (e :: embs))
    with false; [reflexivity|].
  symmetry. apply not_true_is_false. intros Hall.
  rewrite forallb_forall in Hall.
  apply List.Exists_exists in Hdim. destruct Hdim as (e' & Hin & Hne).
  apply Hne. apply Nat.eqb_eq. now apply Hall.
Qed.

Lemma py_slice_to_nonneg {A : Type} (l : list A) (k : Z) :
  (0 <= k)%Z -> py_slice_to l k = firstn (Z.to_nat k) l.
Proof.
  intros Hk. unfold py_slice_to, slice_bound.
  destruct (Z.ltb_spec k 0); [lia|].
  destruct (Z.le_ge_cases k (Z.of_nat (length l))).
  - now rewrite Z.min_l by lia.
  - rewrite Z.min_r, Nat2Z.id by lia.
    rewrite !take_ge by lia. reflexivity.
Qed.

Lemma py_slice_to_negative {A : Type} (l : list A) (k : Z) :
  (k < 0)%Z -> py_slice_to l k = firstn (length l - Z.to_nat (- k)) l.
Proof.
  intros Hk. unfold py_slice_to, slice_bound.
  destruct (Z.ltb_spec k 0); [|lia]. f_equal. lia.
Qed.

(** X8. When no ranking is possible, because the query embedding is empty,
    because there are no chunk embeddings, or because some chunk embedding
    has not the dimension of the query, [retrieve_relevant_chunks] returns
    [chunks[:top_k]]: the first [top_k] chunks in their original order, and
    for a negative [top_k] all the chunks but the last [-top_k]. *)
Theorem retrieve_relevant_chunks_degraded (q : list Q) (chunks : list str)
    (embs : list (list Q)) (top_k : Z) (t : Q) :
  q = [] \/ embs = [] \/ Exists (fun e => length e <> length q) embs ->
  retrieve_relevant_chunks cosine argsort q chunks embs top_k t
    = py_slice_to chunks top_k
  /\ ((0 <= top_k)%Z -> py_slice_to chunks top_k = firstn (Z.to_nat top_k) chunks)
  /\ ((top_k < 0)%Z ->
      py_slice_to chunks top_k
      = firstn (length chunks - Z.to_nat (- top_k)) chunks).
Proof.
  intros Hbad. split; [|split].
  - now apply retrieve_relevant_chunks_unranked.
  - apply py_slice_to_nonneg.
  - apply py_slice_to_negative.
Qed.

Hypothesis argsort_ok : argsort_spec argsort.

Lemma sorted_indices_nodup (s : list Q) : List.NoDup (rev (argsort s)).
Proof.
  apply List.NoDup_rev.
  apply (Permutation_NoDup (Permutation_sym (proj1 (argsort_ok s)))).
  apply List.seq_NoDup.
Qed.

Lemma relevant_indices_nodup (s : list Q) (top_k : Z) (t : Q) :
  List.NoDup (relevant_indices_of argsort s top_k t).
Proof.
  unfold relevant_indices_of. rewrite select_relevant_spec.
  destruct (is_nil _).
  - apply NoDup_firstn, sorted_indices_nodup.
  - apply NoDup_firstn, List.NoDup_filter, sorted_indices_nodup.
Qed.

(** On well-formed inputs the result is the chunks at a list of distinct
    positions of the chunk list. *)
Lemma retrieve_relevant_chunks_positions (q : list Q) (chunks : list str)
    (embs : list (list Q)) (top_k : Z) (t : Q) :
  ranker_inputs q chunks embs ->
  exists idxs : list nat,
    retrieve_relevant_chunks cosine argsort q chunks embs top_k t
      = map (fun i => nth i chunks []) idxs
    /\ List.NoDup idxs
    /\ Forall (fun i => i < length chunks) idxs.
Proof.
  intros Hin.
  pose proof (retrieve_relevant_chunks_indices cosine argsort argsort_ok
                q chunks embs top_k t Hin) as Hres.
  destruct Hin as (_ & _ & Hlen & _).
  set (s := map (cosine q) embs) in *.
  assert (Hn : length s = length chunks) by (unfold s; now rewrite length_map).
  pose proof (relevant_indices_nodup s top_k t) as Hnd.
  pose proof (relevant_indices_in_range argsort argsort_ok s top_k t) as Hrg.
  rewrite Hn in Hrg.
  exists (relevant_indices_of argsort s top_k t).
  repeat split; assumption.
Qed.

(** X9. On well-formed inputs the result never holds the same chunk
    position twice: it is the chunks at a list of distinct positions, so it
    is never longer than the chunk list, whatever [top_k] is. *)
Theorem retrieve_relevant_chunks_distinct (q : list Q) (chunks : list str)
    (embs : list (list Q)) (top_k : Z) (t : Q) :
  ranker_inputs q chunks embs ->
  exists idxs : list nat,
    retrieve_relevant_chunks cosine argsort q chunks embs top_k t
      = map (fun i => nth i chunks []) idxs
    /\ List.NoDup idxs
    /\ Forall (fun i => i < length chunks) idxs
    /\ length (retrieve_relevant_chunks cosine argsort q chunks embs top_k t)
       <= length chunks.
Proof.
  intros Hin.
  destruct (retrieve_relevant_chunks_positions q chunks embs top_k t Hin)
    as (idxs & Hres & Hnd & Hrg).
  exists idxs. repeat split; try assumption.
  rewrite Hres, length_map.
  assert (Hle : length idxs <= length (seq 0 (length chunks))).
  { apply NoDup_incl_length; [assumption|].
    intros i Hi. apply in_seq. rewrite List.Forall_forall in Hrg.
    specialize (Hrg i Hi). lia. }
  now rewrite List.length_seq in Hle.
Qed.

(** X10. When [top_k >= 1] and some chunk reaches the threshold, the number
    of chunks returned is the smaller of [top_k] and the number of chunks
    whose similarity is at or above the threshold: the function returns as
    many qualifying chunks as [top_k] allows. *)
Theorem retrieve_relevant_chunks_count (q : list Q) (chunks : list str)
    (embs : list (list Q)) (top_k : Z) (t : Q) :
  ranker_inputs q chunks embs ->
  (1 <= top_k)%Z ->
  Exists (fun x => (t <= x)%Q) (map (cosine q) embs) ->
  length (retrieve_relevant_chunks cosine argsort q chunks embs top_k t)
  = Nat.min (Z.to_nat top_k)
      (length (List.filter (Qle_bool t) (map (cosine q) embs))).
Proof.
  intros Hin Hk Hex.
  rewrite (retrieve_relevant_chunks_indices cosine argsort argsort_ok
             q chunks embs top_k t Hin), length_map.
  set (s := map (cosine q) embs) in *.
  assert (Hlen : length (select_relevant s (rev (argsort s)) top_k t)
                 = Nat.min (Z.to_nat top_k)
                     (length (List.filter (Qle_bool t) s))).
  { rewrite select_relevant_spec, length_take. f_equal.
    rewrite (filter_length_perm _ _ _
               (sorted_indices_perm argsort argsort_ok s)).
    apply (filter_length_indices (Qle_bool t)). }
  assert (Hpos : 0 < length (List.filter (Qle_bool t) s)).
  { apply List.Exists_exists in Hex. destruct Hex as (x & Hx & Hle).
    assert (Hf : In x (List.filter (Qle_bool t) s))
      by (apply filter_In; split; [assumption|now apply Qle_bool_iff]).
    destruct (List.filter (Qle_bool t) s); [destruct Hf|simpl; lia]. }
  unfold relevant_indices_of.
  destruct (select_relevant s (rev (argsort s)) top_k t) as [|i l] eqn:Hsel.
  - simpl in Hlen. lia.
  - exact Hlen.
Qed.

End RankerEdges.

Lemma retrieve_relevant_chunks_degraded_witness :
  retrieve_relevant_chunks dot argsort_insertion [] [py "alpha"; py "beta"]
    [[1; 0]; [3 # 5; 4 # 5]]%Q (-1) (1 # 10)
  = py_slice_to [py "alpha"; py "beta"] (-1).
Proof.
  exact (proj1 (retrieve_relevant_chunks_degraded dot argsort_insertion []
                  [py "alpha"; py "beta"] [[1; 0]; [3 # 5; 4 # 5]]%Q (-1)
                  (1 # 10) (or_introl eq_refl))).
Defined.

Lemma retrieve_relevant_chunks_distinct_witness :
  exists idxs : list nat,
    retrieve_relevant_chunks dot argsort_insertion [1; 0]%Q
      [py "alpha"; py "beta"] [[1; 0]; [3 # 5; 4 # 5]]%Q 7 (1 # 10)
    = map (fun i => nth i [py "alpha"; py "beta"] []) idxs
    /\ List.NoDup idxs.
Proof.
  destruct (retrieve_relevant_chunks_distinct dot argsort_insertion
              argsort_insertion_spec _ _ _ 7%Z (1 # 10)%Q two_chunks_inputs)
    as (idxs & Hres & Hnd & _).
  exists idxs. now split.
Defined.

Lemma retrieve_relevant_chunks_count_witness :
  length (retrieve_relevant_chunks dot argsort_insertion [1; 0]%Q
            [py "alpha"; py "beta"] [[1; 0]; [3 # 5; 4 # 5]]%Q 1 (1 # 10))
  = Nat.min (Z.to_nat 1)
      (length (List.filter (Qle_bool (1 # 10))
                 (map (dot [1; 0]%Q) [[1; 0]; [3 # 5; 4 # 5]]%Q))).
Proof.
  apply (retrieve_relevant_chunks_count dot argsort_insertion
           argsort_insertion_spec _ _ _ 1%Z (1 # 10)%Q two_chunks_inputs).
  - lia.
  - apply Exists_cons_hd. vm_compute. discriminate.
Defined.

(** *** The retrieval path on small, blank and unembedded documents *)

Lemma split_blank (content : str) :
  Forall (fun c => py_isspace c = true) content -> split content = [].
Proof.
  unfold split. induction 1 as [|c s Hc _ IH]; simpl; [reflexivity|].
  now rewrite Hc.
Qed.

Lemma ceil_div_one (w s : Z) :
  (1 <= w <= s)%Z -> ceil_div w s = 1%Z.
Proof.
  intros H. unfold ceil_div.
  replace (w + s - 1)%Z with ((w - 1) + 1 * s)%Z by lia.
  rewrite Z.div_add by lia. rewrite Z.div_small by lia. reflexivity.
Qed.

(** A document of at most [chunk_size] words is one chunk: its words joined
    by single spaces. *)
Lemma prepare_document_chunks_single (content : str) (s : Z) :
  (1 <= Z.of_nat (length (split content)) <= s)%Z ->
  prepare_document_chunks content s = [join (py " ") (split content)].
Proof.
  intros H. rewrite prepare_document_chunks_windows by lia.
  rewrite ceil_div_one by lia.
  change (Z.to_nat 1) with 1. cbn [seq map]. f_equal. f_equal.
  rewrite Nat.mul_0_l. cbn [skipn]. apply take_ge. lia.
Qed.

Lemma prepare_document_chunks_some (content : str) :
  split content <> [] -> prepare_document_chunks content 300 <> [].
Proof.
  intros Hw Hnil.
  apply (f_equal (@length str)) in Hnil.
  rewrite prepare_document_chunks_windows in Hnil by lia.
  rewrite length_map, length_seq in Hnil. cbn [length] in Hnil.
  destruct (ceil_div_bounds (Z.of_nat (length (split content))) 300
              ltac:(lia) ltac:(lia)) as (_ & Hcover & _).
  destruct (split content); [contradiction|]. cbn [length] in *. lia.
Qed.

Section RagFacts.

Variable cosine : list Q -> list Q -> Q.
Variable argsort : list Q -> list nat.
Variable w : World.

(** X11. For an empty or whitespace-only document the retrieval path
    answers "Error: Could not process document for RAG analysis", in every
    world: no answer of the model or of the embeddings service can change
    it. *)
Theorem rag_analysis_blank_document (prompt file_content : str) :
  Forall (fun c => py_isspace c = true) file_content ->
  manual_query_processor cosine argsort w prompt (py "reasoning") file_content
  = Ret (py "Error: Could not process document for RAG analysis").
Proof.
  intros Hblank. rewrite manual_query_processor_reasoning. f_equal.
  unfold rag_analysis, prepare_document_chunks.
  rewrite (split_blank file_content Hblank). reflexivity.
Qed.

(** X12. When the document has a word but the embedding of the prompt
    cannot be had (the request raises or returns nothing), the retrieval
    path answers "Error: Could not create query embedding" and the model is
    not asked. *)
Theorem rag_analysis_no_query_embedding (prompt file_content : str) :
  split file_content <> [] ->
  (exists e, embeddings_reply w 1 [prompt] = Raise e)
  \/ embeddings_reply w 1 [prompt] = Ret [] ->
  rag_analysis cosine argsort w prompt file_content
  = py "Error: Could not create query embedding".
Proof.
  intros Hw Hq. unfold rag_analysis.
  pose proof (prepare_document_chunks_some file_content Hw) as Hc.
  destruct (prepare_document_chunks file_content 300) as [|c cs];
    [contradiction|].
  cbn [is_nil]. cbv zeta. unfold create_embeddings.
  destruct Hq as [[e ->]| ->]; reflexivity.
Qed.

(** X13. When the chunks cannot be embedded (the request raises or returns
    nothing) but the prompt can, the retrieval path still answers: the model
    is asked with the first 25 chunks of the document, in document order, as
    context. *)
Theorem rag_analysis_without_chunk_embeddings (prompt file_content : str)
    (query_embedding : list Q) (others : list (list Q)) :
  split file_content <> [] ->
  (exists e, embeddings_reply w 0 (prepare_document_chunks file_content 300)
             = Raise e)
  \/ embeddings_reply w 0 (prepare_document_chunks file_content 300) = Ret [] ->
  embeddings_reply w 1 [prompt] = Ret (query_embedding :: others) ->
  rag_analysis cosine argsort w prompt file_content
  = generate_rag_response w prompt
      (firstn 25 (prepare_document_chunks file_content 300)).
Proof.
  intros Hw Hc Hq. unfold rag_analysis.
  pose proof (prepare_document_chunks_some file_content Hw) as Hne.
  destruct (prepare_document_chunks file_content 300) as [|c cs] eqn:Hchunks;
    [contradiction|].
  cbn [is_nil]. cbv zeta. unfold create_embeddings. rewrite Hq.
  cbn [try_except]. f_equal.
  assert (Hnone : try_except (embeddings_reply w 0 (c :: cs)) (fun _ => [])
                  = []) by (destruct Hc as [[e ->]| ->]; reflexivity).
  rewrite Hnone.
  rewrite (retrieve_relevant_chunks_unranked cosine argsort
             query_embedding (c :: cs) [] 25 (5 # 100)
             (or_intror (or_introl eq_refl))).
  apply py_slice_to_nonneg. lia.
Qed.

Hypothesis argsort_ok : argsort_spec argsort.

Lemma single_index (idxs : list nat) :
  idxs <> [] -> List.NoDup idxs -> Forall (fun i => i < 1) idxs -> idxs = [0].
Proof.
  intros Hne Hnd Hlt.
  destruct idxs as [|i idxs]; [contradiction|].
  inversion Hlt as [|? ? Hi Hrest]; subst.
  assert (i = 0) by lia. subst i. f_equal.
  destruct idxs as [|j idxs]; [reflexivity|].
  inversion Hrest as [|? ? Hj _]; subst.
  assert (j = 0) by lia. subst j.
  inversion Hnd as [|? ? Hnotin _]; subst.
  exfalso. apply Hnotin. now left.
Qed.

(** X14. A document of 1 to 300 words is one chunk, and once that chunk and
    the prompt are embedded (in the same dimension) the ranking is trivial:
    whatever the similarity is, the context given to the model is the whole
    document, its words joined by single spaces, and the answer is the
    model's reply, or an error text if the model call raises. *)
Theorem rag_analysis_short_document (prompt file_content : str)
    (chunk_embedding query_embedding : list Q) (others : list (list Q)) :
  (1 <= length (split file_content) <= 300) ->
  embeddings_reply w 0 [join (py " ") (split file_content)]
    = Ret [chunk_embedding] ->
  embeddings_reply w 1 [prompt] = Ret (query_embedding :: others) ->
  query_embedding <> [] ->
  length chunk_embedding = length query_embedding ->
  rag_analysis cosine argsort w prompt file_content
  = match rag_reply w prompt (join (py " ") (split file_content)) with
    | Ret answer => answer
    | Raise e => py "Error generating RAG response: " ++ e
    end.
Proof.
  intros Hwords Hc Hq Hqne Hdim. unfold rag_analysis.
  rewrite (prepare_document_chunks_single file_content 300) by lia.
  cbn [is_nil]. cbv zeta. unfold create_embeddings. rewrite Hc, Hq.
  cbn [try_except].
  set (chunk := join (py " ") (split file_content)).
  assert (Hin : ranker_inputs query_embedding [chunk] [chunk_embedding]).
  { repeat split; try assumption; try discriminate. repeat constructor.
    exact Hdim. }
  destruct (retrieve_relevant_chunks_positions cosine argsort argsort_ok
              query_embedding [chunk] [chunk_embedding] 25 (5 # 100) Hin)
    as (idxs & Hres & Hnd & Hrange).
  assert (Hne : retrieve_relevant_chunks cosine argsort query_embedding
                  [chunk] [chunk_embedding] 25 (5 # 100) <> []).
  { rewrite (retrieve_relevant_chunks_indices cosine argsort argsort_ok
               _ _ _ 25%Z (5 # 100)%Q Hin).
    intros Hnil. apply map_eq_nil in Hnil.
    unfold relevant_indices_of in Hnil.
    destruct (select_relevant _ _ _ _) as [|i l] eqn:Hsel;
      [|discriminate].
    cbn [is_nil] in Hnil.
    apply (f_equal (@length nat)) in Hnil.
    rewrite (top5_length argsort argsort_ok) in Hnil. discriminate. }
  rewrite Hres in Hne |- *.
  assert (Hidx : idxs = [0]).
  { apply single_index; [|assumption|exact Hrange].
    intros ->. now apply Hne. }
  rewrite Hidx. reflexivity.
Qed.

End RagFacts.

Lemma rag_analysis_blank_document_witness :
  manual_query_processor dot argsort_insertion embedding_world (py "compare")
    (py "reasoning") [" "%char; newline]
  = Ret (py "Error: Could not process document for RAG analysis").
Proof.
  apply (rag_analysis_blank_document dot argsort_insertion embedding_world
           (py "compare") [" "%char; newline]).
  repeat constructor.
Defined.

Lemma rag_analysis_no_query_embedding_witness :
  rag_analysis dot argsort_insertion continue_world (py "compare")
    (py "Complaint 001")
  = py "Error: Could not create query embedding".
Proof.
  apply (rag_analysis_no_query_embedding dot argsort_insertion continue_world
           (py "compare") (py "Complaint 001")).
  - discriminate.
  - right. reflexivity.
Defined.

Lemma rag_analysis_without_chunk_embeddings_witness :
  rag_analysis dot argsort_insertion query_only_world (py "compare")
    (py "Complaint 001")
  = py "Complaint 001".
Proof.
  apply (rag_analysis_without_chunk_embeddings dot argsort_insertion
           query_only_world (py "compare") (py "Complaint 001") [1; 0]%Q []).
  - discriminate.
  - left. eexists. reflexivity.
  - reflexivity.
Defined.

Lemma rag_analysis_short_document_witness :
  rag_analysis dot argsort_insertion embedding_world (py "compare")
    (py "Complaint   001")
  = py "Complaint 001".
Proof.
  apply (rag_analysis_short_document dot argsort_insertion embedding_world
           argsort_insertion_spec (py "compare") (py "Complaint   001")
           [1; 0]%Q [1; 0]%Q []).
  - change (length (split (py "Complaint   001"))) with 2. lia.
  - reflexivity.
  - reflexivity.
  - discriminate.
  - reflexivity.
Defined.

(** *** Termination of the character-window chunker *)

Lemma lstrip_length (s : str) : length (lstrip s) <= length s.
Proof.
  induction s as [|c s IH]; simpl; [lia|].
  destruct (py_isspace c); simpl; lia.
Qed.

Lemma strip_length (s : str) : length (strip s) <= length s.
Proof.
  unfold strip, rstrip. rewrite length_rev.
  pose proof (lstrip_length (rev (lstrip s))) as H1.
  pose proof (lstrip_length s) as H2.
  rewrite length_rev in H1. lia.
Qed.

(** A slice of width [n] has at most [n] elements, wherever it starts. *)
Lemma py_slice_width {A : Type} (l : list A) (lo n : Z) :
  (0 <= n)%Z -> (Z.of_nat (length (py_slice l lo (lo + n))) <= n)%Z.
Proof.
  intros Hn. unfold py_slice, slice_bound.
  rewrite length_take, length_drop.
  destruct (Z.ltb_spec lo 0), (Z.ltb_spec (lo + n) 0); lia.
Qed.

Section ChunkerTermination.

Import OpenAIClient.

(** What a window gives when it starts inside the text: a chunk of at most
    [chunk_size] characters and an end that leaves room for the overlap. *)
Lemma window_progress (text : str) (chunk_size overlap start : Z) :
  (0 < chunk_size)%Z -> (overlap <= chunk_size / 2)%Z -> (0 <= start)%Z ->
  (Z.of_nat (length (fst (window text chunk_size start))) <= chunk_size)%Z
  /\ (start + 1 <= snd (window text chunk_size start) - overlap)%Z.
Proof.
  intros Hc Ho Hs.
  assert (Hhalf : (0 <= chunk_size / 2 < chunk_size)%Z)
    by (split; [apply Z.div_pos|apply Z.div_lt]; lia).
  unfold window.
  set (chunk := py_slice text start (start + chunk_size)).
  pose proof (py_slice_width text start chunk_size ltac:(lia)) as Hl.
  fold chunk in Hl.
  destruct (_ <? Z.of_nat (length text))%Z; [|cbn [fst snd]; lia].
  pose proof (rfind_bound chunk "."%char) as Hp.
  pose proof (rfind_bound chunk newline) as Hn.
  assert (Hbp : (Z.max (rfind chunk ".") (rfind chunk newline)
                 < Z.of_nat (length chunk))%Z) by lia.
  set (bp := Z.max (rfind chunk ".") (rfind chunk newline)) in *.
  destruct (Z.ltb_spec (start + chunk_size / 2) bp); cbn [fst snd];
    [|lia].
  split; [|lia].
  pose proof (py_slice_width text start (bp + 1 - start) ltac:(lia)) as Hw.
  replace (start + (bp + 1 - start))%Z with (bp + 1)%Z in Hw by lia.
  lia.
Qed.

Lemma chunk_document_loop_terminates (text : str) (chunk_size overlap : Z)
    (fuel : nat) :
  (0 < chunk_size)%Z -> (overlap <= chunk_size / 2)%Z ->
  forall (start : Z) (chunks : list str),
    (0 <= start)%Z ->
    (Z.of_nat (length text) - start < Z.of_nat fuel)%Z ->
    (0 < fuel) ->
    exists new : list str,
      chunk_document_loop fuel text chunk_size overlap start chunks
        = Some (chunks ++ new)
      /\ Forall (fun chunk => strip chunk = chunk
                              /\ (Z.of_nat (length chunk) <= chunk_size)%Z) new.
Proof.
  intros Hc Ho.
  induction fuel as [|fuel IH]; intros start chunks Hs Hfuel Hpos; [lia|].
  cbn [chunk_document_loop].
  destruct (Z.ltb_spec start (Z.of_nat (length text))) as [Hin|Hout].
  - destruct (window_progress text chunk_size overlap start Hc Ho Hs)
      as [Hlen Hprog].
    destruct (window text chunk_size start) as [chunk end_].
    cbn [fst snd] in *.
    assert (Hchunk : strip (strip chunk) = strip chunk
                     /\ (Z.of_nat (length (strip chunk)) <= chunk_size)%Z).
    { split; [apply strip_idempotent|].
      pose proof (strip_length chunk). lia. }
    destruct (Z.leb_spec (Z.of_nat (length text)) (end_ - overlap)).
    + exists [strip chunk]. split; [reflexivity|]. now constructor.
    + destruct (IH (end_ - overlap)%Z (chunks ++ [strip chunk]))
        as (new & Hrun & Hall); try lia.
      exists (strip chunk :: new). split.
      * rewrite Hrun. now rewrite <- app_assoc.
      * now constructor.
  - exists []. split; [now rewrite app_nil_r|constructor].
Qed.

(** X15. Whenever the overlap is at most half the chunk size (as with the
    1000 and 100 of [process_with_rag]), [chunk_document] terminates on
    every text, within one iteration per character; no chunk it returns is
    empty, every chunk is stripped of surrounding whitespace, and none is
    longer than [chunk_size]. *)
Theorem chunk_document_terminates (text : str) (chunk_size overlap : Z) :
  (0 < chunk_size)%Z -> (overlap <= chunk_size / 2)%Z ->
  exists chunks : list str,
    chunk_document (S (length text)) text chunk_size overlap = Some chunks
    /\ Forall (fun chunk => chunk <> []
                            /\ strip chunk = chunk
                            /\ (Z.of_nat (length chunk) <= chunk_size)%Z)
         chunks.
Proof.
  intros Hc Ho. unfold chunk_document.
  destruct (chunk_document_loop_terminates text chunk_size overlap
              (S (length text)) Hc Ho 0%Z [] ltac:(lia) ltac:(lia) ltac:(lia))
    as (new & Hrun & Hall).
  rewrite Hrun. cbn [app option_map]. eexists. split; [reflexivity|].
  apply List.Forall_forall. intros chunk Hin.
  apply filter_In in Hin. destruct Hin as [Hin Hne].
  rewrite List.Forall_forall in Hall. specialize (Hall chunk Hin).
  split; [|exact Hall].
  intros ->. discriminate.
Qed.

Lemma chunk_document_loop_diverges (text : str) (chunk_size overlap : Z)
    (fuel : nat) :
  (0 <= chunk_size <= overlap)%Z -> text <> [] ->
  forall (start : Z) (chunks : list str),
    (start <= 0)%Z ->
    chunk_document_loop fuel text chunk_size overlap start chunks = None.
Proof.
  intros Hc Htext.
  assert (Hlen : (0 < Z.of_nat (length text))%Z)
    by (destruct text; [contradiction|cbn [length]; lia]).
  induction fuel as [|fuel IH]; intros start chunks Hs; [reflexivity|].
  cbn [chunk_document_loop].
  destruct (Z.ltb_spec start (Z.of_nat (length text))); [|lia].
  assert (Hend : (snd (window text chunk_size start) <= chunk_size)%Z).
  { unfold window.
    set (chunk := py_slice text start (start + chunk_size)).
    pose proof (py_slice_width text start chunk_size ltac:(lia)) as Hl.
    fold chunk in Hl.
    pose proof (rfind_bound chunk "."%char) as Hp.
    pose proof (rfind_bound chunk newline) as Hn.
    destruct (_ <? Z.of_nat (length text))%Z; [|cbn [snd]; lia].
    destruct (_ <? Z.max _ _)%Z; cbn [snd]; lia. }
  destruct (window text chunk_size start) as [chunk end_]. cbn [snd] in Hend.
  destruct (Z.leb_spec (Z.of_nat (length text)) (end_ - overlap)); [lia|].
  apply IH. lia.
Qed.

(** X16. With an overlap at or above the chunk size (and a chunk size that
    is not negative) [chunk_document] never returns on a non-empty text: the
    start of the window never gets past the beginning of the text, so the
    loop runs for ever, adding a chunk every time. *)
Theorem chunk_document_diverges (text : str) (chunk_size overlap : Z)
    (fuel : nat) :
  (0 <= chunk_size <= overlap)%Z -> text <> [] ->
  chunk_document fuel text chunk_size overlap = None.
Proof.
  intros Hc Htext. unfold chunk_document.
  now rewrite (chunk_document_loop_diverges text chunk_size overlap fuel
                 Hc Htext 0%Z [] ltac:(lia)).
Qed.

(** X17. A non-empty text that fits into one chunk less the overlap is
    returned as one chunk, the stripped text (or as no chunk when it is all
    whitespace). *)
Theorem chunk_document_small_text (text : str) (chunk_size overlap : Z)
    (fuel : nat) :
  (0 <= overlap)%Z ->
  (1 <= Z.of_nat (length text) <= chunk_size - overlap)%Z ->
  chunk_document (S fuel) text chunk_size overlap
  = Some (if is_nil (strip text) then [] else [strip text]).
Proof.
  intros Ho Hlen. unfold chunk_document. cbn [chunk_document_loop].
  destruct (Z.ltb_spec 0 (Z.of_nat (length text))); [|lia].
  unfold window.
  destruct (Z.ltb_spec (0 + chunk_size) (Z.of_nat (length text))); [lia|].
  destruct (Z.leb_spec (Z.of_nat (length text)) (0 + chunk_size - overlap));
    [|lia].
  assert (Hall : py_slice text 0 (0 + chunk_size) = text).
  { unfold py_slice, slice_bound.
    destruct (Z.ltb_spec 0 0); [lia|].
    destruct (Z.ltb_spec (0 + chunk_size) 0); [lia|].
    rewrite (Z.min_l 0), (Z.min_r (0 + chunk_size)) by lia.
    cbn [Z.to_nat skipn]. apply take_ge. lia. }
  rewrite Hall. cbn [app option_map List.filter].
  destruct (strip text); reflexivity.
Qed.

End ChunkerTermination.

Lemma chunk_document_terminates_witness :
  exists chunks : list str,
    OpenAIClient.chunk_document (S (length OpenAIClient.one_period_text))
      OpenAIClient.one_period_text 1000 100 = Some chunks.
Proof.
  destruct (chunk_document_terminates OpenAIClient.one_period_text 1000 100
              ltac:(lia) ltac:(vm_compute; discriminate))
    as (chunks & Hrun & _).
  exists chunks. exact Hrun.
Defined.

Lemma chunk_document_diverges_witness :
  OpenAIClient.chunk_document 1000 (py "One sentence.") 10 10 = None.
Proof.
  apply (chunk_document_diverges (py "One sentence.") 10 10 1000).
  - lia.
  - discriminate.
Defined.

Lemma chunk_document_small_text_witness :
  OpenAIClient.chunk_document 1 (py " One sentence. ") 1000 100
  = Some [py "One sentence."].
Proof.
  apply (chunk_document_small_text (py " One sentence. ") 1000 100 0).
  - lia.
  - cbn [length py list_ascii_of_string]. lia.
Defined.

(** *** The gateway's waits and its first settled attempt *)

Section GatewayTiming.

Variable post : str -> payload -> nat -> outcome response.

Lemma attempts_from_sleep (access_token : str) (request : payload)
    (remaining : nat) : forall attempt : nat,
  (0 <= total_sleep
          (fst (attempts_from post access_token request remaining attempt))
   <= 2 ^ Z.of_nat attempt * (2 ^ Z.of_nat remaining - 1)
      + 3 * Z.of_nat remaining)%Z.
Proof.
  induction remaining as [|n IH]; intros a.
  { cbn [attempts_from fst total_sleep]. change (2 ^ Z.of_nat 0)%Z with 1%Z. lia. }
  assert (Hpa : (0 < 2 ^ Z.of_nat a)%Z) by (apply Z.pow_pos_nonneg; lia).
  assert (Hpn : (0 < 2 ^ Z.of_nat n)%Z) by (apply Z.pow_pos_nonneg; lia).
  assert (Hsa : (2 ^ Z.of_nat (S a) = 2 * 2 ^ Z.of_nat a)%Z)
    by (rewrite Nat2Z.inj_succ; apply Z.pow_succ_r; lia).
  assert (Hsn : (2 ^ Z.of_nat (S n) = 2 * 2 ^ Z.of_nat n)%Z)
    by (rewrite Nat2Z.inj_succ; apply Z.pow_succ_r; lia).
  assert (Hstop : (0 <= 2 ^ Z.of_nat a * (2 ^ Z.of_nat (S n) - 1)
                        + 3 * Z.of_nat (S n))%Z) by nia.
  assert (Hrec : forall (result : request_result) (s : Z),
            (0 <= s <= 2 ^ Z.of_nat a + 3)%Z ->
            let (t, answer) :=
              attempts_from post access_token request n (S a) in
            (0 <= total_sleep (GwRequest a result :: GwSleep s :: t)
             <= 2 ^ Z.of_nat a * (2 ^ Z.of_nat (S n) - 1)
                + 3 * Z.of_nat (S n))%Z).
  { intros result s Hs. specialize (IH (S a)).
    destruct (attempts_from post access_token request n (S a)) as [t ans].
    cbn [fst] in IH. cbn [total_sleep]. rewrite Hsa in IH. rewrite Hsn. nia. }
  cbn [attempts_from].
  assert (Hfault : forall e : str,
            (0 <= total_sleep (fst
              (if (a =? max_retries - 1)%nat
               then ([GwRequest a Faulted],
                     py "Request failed after " ++ str_of_nat max_retries
                     ++ py " attempts: " ++ e)
               else
                 let (t, answer) :=
                   attempts_from post access_token request n (S a) in
                 (GwRequest a Faulted
                    :: GwSleep (2 ^ Z.of_nat a + 2) :: t, answer)))
             <= 2 ^ Z.of_nat a * (2 ^ Z.of_nat (S n) - 1)
                + 3 * Z.of_nat (S n))%Z).
  { intros e. destruct (a =? max_retries - 1)%nat.
    - cbn [fst total_sleep]. lia.
    - specialize (Hrec Faulted (2 ^ Z.of_nat a + 2)%Z ltac:(lia)).
      destruct (attempts_from post access_token request n (S a)) as [t ans].
      exact Hrec. }
  destruct (post access_token request a) as [r|e]; [|apply Hfault].
  destruct (status_code r =? 200)%Z.
  - destruct (content r) as [c|e]; [|apply Hfault].
    cbn [fst total_sleep]. lia.
  - destruct (status_code r =? 429)%Z.
    + specialize (Hrec RateLimited (2 ^ Z.of_nat a + 3)%Z ltac:(lia)).
      destruct (attempts_from post access_token request n (S a)) as [t ans].
      exact Hrec.
    + cbn [fst total_sleep]. lia.
Qed.

(** X18. Whatever the token request and the service do, one call of
    [make_api_call] sleeps for at most 16 seconds in total between and after
    its requests (4 + 5 + 7, reached when every attempt is rate limited). *)
Theorem make_api_call_sleep_bound (get_access_token : outcome str)
    (request : payload) :
  (0 <= total_sleep (fst (make_api_call post get_access_token request))
   <= 16)%Z.
Proof.
  unfold make_api_call. destruct get_access_token as [access_token|e].
  - pose proof (attempts_from_sleep access_token request max_retries 0) as H.
    destruct (attempts_from post access_token request max_retries 0)
      as [t answer].
    cbn [fst] in *. exact H.
  - cbn [fst total_sleep]. lia.
Qed.

Lemma attempts_from_settles (access_token : str) (request : payload)
    (r : response) (answer : str) (k : nat) :
  forall remaining attempt : nat,
  attempt + remaining = max_retries ->
  k < remaining ->
  (forall j : nat, j < k ->
     retriable (post access_token request (attempt + j)) = true) ->
  post access_token request (attempt + k) = Ret r ->
  settled r = Some answer ->
  snd (attempts_from post access_token request remaining attempt) = answer
  /\ requests (fst (attempts_from post access_token request remaining attempt))
     = S k.
Proof.
  induction k as [|k IH]; intros remaining a Hsum Hk Hretry Hpost Hset.
  - destruct remaining as [|n]; [lia|].
    cbn [attempts_from]. rewrite Nat.add_0_r in Hpost. rewrite Hpost.
    unfold settled in Hset.
    destruct (status_code r =? 200)%Z.
    + destruct (content r) as [c|e]; [|discriminate].
      injection Hset as <-. now split.
    + destruct (status_code r =? 429)%Z; [discriminate|].
      injection Hset as <-. now split.
  - destruct remaining as [|n]; [lia|].
    assert (Hnext : snd (attempts_from post access_token request n (S a))
                    = answer
                    /\ requests
                         (fst (attempts_from post access_token request n (S a)))
                       = S k).
    { apply IH; [lia|lia| | |exact Hset].
      - intros j Hj. replace (S a + j) with (a + S j) by lia.
        apply Hretry. lia.
      - now replace (S a + k) with (a + S k) by lia. }
    assert (Hnotlast : (a =? max_retries - 1)%nat = false)
      by (apply Nat.eqb_neq; unfold max_retries in *; lia).
    pose proof (Hretry 0 ltac:(lia)) as H0. rewrite Nat.add_0_r in H0.
    cbn [attempts_from]. rewrite Hnotlast.
    destruct (attempts_from post access_token request n (S a)) as [t ans].
    cbn [fst snd] in Hnext. destruct Hnext as [-> Hreq].
    unfold retriable, settled in H0.
    destruct (post access_token request a) as [r0|e0].
    + destruct (status_code r0 =? 200)%Z.
      * destruct (content r0) as [c|e]; [discriminate|].
        cbn [fst snd]. split; [reflexivity|count_requests].
      * destruct (status_code r0 =? 429)%Z; [|discriminate].
        cbn [fst snd]. split; [reflexivity|count_requests].
    + cbn [fst snd]. split; [reflexivity|count_requests].
Qed.

(** X19. The first attempt that settles decides the call: when the
    attempts before attempt [k] (of the three) are rate limited or faulted,
    and attempt [k] answers with a readable 200 or with a status other than
    200 and 429, then [make_api_call] returns that content, or the text
    "API Error: <status> - <body>", after exactly [k + 1] requests.  An API
    error is thus returned as if it were the model's answer, and is not
    retried. *)
Theorem make_api_call_first_settled (access_token : str) (request : payload)
    (k : nat) (r : response) (answer : str) :
  k < 3 ->
  (forall j : nat, j < k ->
     retriable (post access_token request j) = true) ->
  post access_token request k = Ret r ->
  settled r = Some answer ->
  snd (make_api_call post (Ret access_token) request) = Ret answer
  /\ requests (fst (make_api_call post (Ret access_token) request)) = S k.
Proof.
  intros Hk Hretry Hpost Hset. unfold make_api_call.
  destruct (attempts_from_settles access_token request r answer k
              max_retries 0 eq_refl Hk Hretry Hpost Hset) as [Hans Hreq].
  destruct (attempts_from post access_token request max_retries 0)
    as [t ans].
  cbn [fst snd] in *. now subst.
Qed.

End GatewayTiming.

Lemma make_api_call_first_settled_witness :
  snd (make_api_call recovering_post (Ret (py "token"))
         {| messages := []; max_completion_tokens := 4000;
            temperature := 3 # 10 |})
  = Ret (py "Hello")
  /\ requests
       (fst (make_api_call recovering_post (Ret (py "token"))
               {| messages := []; max_completion_tokens := 4000;
                  temperature := 3 # 10 |}))
     = 2.
Proof.
  apply (make_api_call_first_settled recovering_post (py "token")
           {| messages := []; max_completion_tokens := 4000;
              temperature := 3 # 10 |}
           1 {| status_code := 200; text := []; content := Ret (py "Hello") |}
           (py "Hello")).
  - lia.
  - intros j Hj. assert (j = 0) as -> by lia. reflexivity.
  - reflexivity.
  - reflexivity.
Defined.

(** *** The access token cache *)

Lemma token_valid_iff (st : AuthState) (now : Q) :
  token_valid st now = true
  <-> exists (token : str) (expires_at : Q),
        access_token st = Some token
        /\ token_expires_at st = Some expires_at
        /\ token <> [] /\ ~ (expires_at == 0)%Q /\ (now < expires_at)%Q.
Proof.
  unfold token_valid. split.
  - destruct (access_token st) as [token|]; [|discriminate].
    destruct (token_expires_at st) as [expires_at|]; [|discriminate].
    intros H. apply andb_true_iff in H. destruct H as [H Hlt].
    apply andb_true_iff in H. destruct H as [Htok Hzero].
    exists token, expires_at. repeat split.
    + intros ->. discriminate.
    + intros Heq. apply Qeq_bool_iff in Heq. rewrite Heq in Hzero.
      discriminate.
    + apply Qnot_le_lt. intros Hle. apply Qle_bool_iff in Hle.
      rewrite Hle in Hlt. discriminate.
  - intros (token & expires_at & -> & -> & Htok & Hzero & Hlt).
    destruct token as [|c token]; [contradiction|]. cbn [is_nil negb andb].
    destruct (Qeq_bool expires_at 0) eqn:Heq.
    { apply Qeq_bool_iff in Heq. contradiction. }
    destruct (Qle_bool expires_at now) eqn:Hle; [|reflexivity].
    apply Qle_bool_iff in Hle. exfalso. exact (Qlt_not_le _ _ Hlt Hle).
Qed.

(** X20. After a token request has succeeded at clock [later], granting a
    non-empty token for [lifetime] seconds (3600 when the answer has no
    [expires_in]), a later call of [get_access_token] returns the stored
    token without asking the token endpoint as long as the clock is before
    [later + lifetime - 300], and asks the endpoint again once the clock has
    reached it.  A token granted for 300 seconds or less is therefore never
    reused. *)
Theorem get_access_token_reuse (st : AuthState) (now later : Q)
    (response : token_response) (data : token_data) (token : str)
    (now' later' : Q) (post' : outcome token_response) :
  token_valid st now = false ->
  token_status_code response = 200%Z ->
  token_json response = Ret data ->
  token_value data = Some token ->
  token <> [] ->
  (0 <= now')%Q ->
  let lifetime :=
    match expires_in data with Some seconds => seconds | None => 3600%Q end in
  let st' := snd (get_access_token st now later (Ret response)) in
  fst (get_access_token st now later (Ret response)) = Ret token
  /\ ((now' < later + lifetime - 300)%Q ->
      get_access_token st' now' later' post' = (Ret token, st'))
  /\ ((later + lifetime - 300 <= now')%Q ->
      fst (get_access_token st' now' later' post')
      = fst (get_access_token no_token now' later' post'))
  /\ ((lifetime <= 300)%Q -> (later <= now')%Q ->
      fst (get_access_token st' now' later' post')
      = fst (get_access_token no_token now' later' post')).
Proof.
  intros Hinvalid Hstatus Hjson Hvalue Htok Hnow lifetime st'.
  assert (Hst' : st' = {| access_token := Some token;
                          token_expires_at :=
                            Some (later + lifetime - 300)%Q |}).
  { unfold st', get_access_token.
    rewrite Hinvalid, Hstatus, Hjson, Hvalue. reflexivity. }
  assert (Hexpired : (later + lifetime - 300 <= now')%Q ->
            fst (get_access_token st' now' later' post')
            = fst (get_access_token no_token now' later' post')).
  { intros Hle.
    assert (Hinv : token_valid st' now' = false).
    { apply not_true_is_false. intros Hv. apply token_valid_iff in Hv.
      destruct Hv as (tok & exp & _ & Hexp & _ & _ & Hlt).
      rewrite Hst' in Hexp. cbn in Hexp. injection Hexp as <-.
      exact (Qlt_not_le _ _ Hlt Hle). }
    unfold get_access_token. rewrite Hinv. cbn [token_valid no_token
      access_token token_expires_at].
    destruct post' as [resp|e]; [|reflexivity].
    destruct (token_status_code resp =? 200)%Z; [|reflexivity].
    destruct (token_json resp) as [d|e]; [|reflexivity].
    destruct (token_value d); reflexivity. }
  split; [|split; [|split]].
  - unfold get_access_token.
    rewrite Hinvalid, Hstatus, Hjson, Hvalue. reflexivity.
  - intros Hlt.
    assert (Hv : token_valid st' now' = true).
    { apply token_valid_iff. exists token, (later + lifetime - 300)%Q.
      rewrite Hst'. repeat split; try assumption.
      intros Hzero. rewrite Hzero in Hlt.
      exact (Qlt_not_le _ _ Hlt Hnow). }
    unfold get_access_token. rewrite Hv. now rewrite Hst'.
  - exact Hexpired.
  - intros Hshort Hlater. apply Hexpired.
    apply Qle_trans with later; [|assumption].
    assert (Hle : (later + lifetime - 300 <= later + 300 - 300)%Q)
      by (apply Qplus_le_l, Qplus_le_r; exact Hshort).
    assert (Heq : (later + 300 - 300 == later)%Q) by ring.
    now rewrite Heq in Hle.
Qed.

Lemma get_access_token_reuse_witness :
  get_access_token
    (snd (get_access_token no_token 1000 1001 (granted (py "abc") 3600)))
    4300 4301 (Raise (py "Connection refused"))
  = (Ret (py "abc"),
     snd (get_access_token no_token 1000 1001 (granted (py "abc") 3600))).
Proof.
  refine (proj1 (proj2
    (get_access_token_reuse no_token 1000 1001
       {| token_status_code := 200; token_text := [];
          token_json := Ret {| token_value := Some (py "abc");
                               expires_in := Some 3600%Q |} |}
       {| token_value := Some (py "abc"); expires_in := Some 3600%Q |}
       (py "abc") 4300 4301 (Raise (py "Connection refused"))
       eq_refl eq_refl eq_refl eq_refl _ _)) _).
  - discriminate.
  - vm_compute. discriminate.
  - vm_compute. reflexivity.
Defined.

(** *** The cache beyond the round trip *)

Lemma string_append_cons (x : ascii) (a b : string) :
  String x a +:+ b = String x (a +:+ b).
Proof. reflexivity. Qed.

Lemma string_length_append (a b : string) :
  String.length (a +:+ b) = String.length a + String.length b.
Proof. induction a as [|c a IH]; simpl; [reflexivity|now rewrite IH]. Qed.

Lemma string_append_inj_r (a b t : string) : a +:+ t = b +:+ t -> a = b.
Proof.
  revert b. induction a as [|c a IH]; intros [|d b] H.
  - reflexivity.
  - apply (f_equal String.length) in H.
    rewrite !string_length_append in H. cbn [String.length] in H. lia.
  - apply (f_equal String.length) in H.
    rewrite !string_length_append in H. cbn [String.length] in H. lia.
  - simpl in H. injection H as -> H. f_equal. now apply IH.
Qed.

Lemma substring_all (b : string) : String.substring 0 (String.length b) b = b.
Proof. induction b as [|c b IH]; simpl; [reflexivity|now rewrite IH]. Qed.

Lemma substring_append (a b : string) :
  String.substring (String.length a) (String.length b) (a +:+ b) = b.
Proof. induction a as [|c a IH]; simpl; [apply substring_all|exact IH]. Qed.

Lemma ends_with_append (a suffix : string) :
  CacheClearing.ends_with suffix (a +:+ suffix) = true.
Proof.
  unfold CacheClearing.ends_with. rewrite string_length_append.
  apply andb_true_iff. split; [apply Nat.leb_le; lia|].
  replace (String.length a + String.length suffix - String.length suffix)
    with (String.length a) by lia.
  rewrite substring_append. apply String.eqb_refl.
Qed.

Lemma string_append_assoc (a b c : string) :
  (a +:+ b) +:+ c = a +:+ (b +:+ c).
Proof.
  induction a as [|x a IH]; [reflexivity|].
  rewrite !string_append_cons. now rewrite IH.
Qed.

Lemma prefix_append (a b : string) : String.prefix a (a +:+ b) = true.
Proof.
  induction a as [|x a IH].
  - now destruct b.
  - rewrite string_append_cons. cbn [String.prefix].
    now destruct (ascii_dec x x).
Qed.

Lemma ends_with_append_2 (a b suffix : string) :
  CacheClearing.ends_with suffix (a +:+ b +:+ suffix) = true.
Proof. rewrite <- string_append_assoc. apply ends_with_append. Qed.

Section EmbeddingsCacheEdges.

Import EmbeddingsCache.

Variable md5_hexdigest : str -> string.

Lemma cache_file_inj (h1 h2 : string) :
  _get_cache_file h1 = _get_cache_file h2 -> h1 = h2.
Proof.
  unfold _get_cache_file. intros H. simpl in H.
  injection H as H. exact (string_append_inj_r h1 h2 _ H).
Qed.

Lemma metadata_file_inj (h1 h2 : string) :
  _get_metadata_file h1 = _get_metadata_file h2 -> h1 = h2.
Proof.
  unfold _get_metadata_file. intros H. simpl in H.
  injection H as H. exact (string_append_inj_r h1 h2 _ H).
Qed.

Lemma cache_file_ne_metadata_file (h1 h2 : string) :
  _get_cache_file h1 <> _get_metadata_file h2.
Proof. unfold _get_cache_file, _get_metadata_file. simpl. discriminate. Qed.

(** A lookup reads two files only. *)
Lemma get_cached_embeddings_reads (d1 d2 : gmap string file) (content : str)
    (chunk_size : Z) :
  d1 !! _get_cache_file (md5_hexdigest content)
    = d2 !! _get_cache_file (md5_hexdigest content) ->
  d1 !! _get_metadata_file (md5_hexdigest content)
    = d2 !! _get_metadata_file (md5_hexdigest content) ->
  fst (get_cached_embeddings md5_hexdigest d1 content chunk_size)
  = fst (get_cached_embeddings md5_hexdigest d2 content chunk_size).
Proof.
  intros Hc Hm. unfold get_cached_embeddings, _get_content_hash.
  rewrite Hc, Hm.
  destruct (d2 !! _get_cache_file (md5_hexdigest content)) as [cached|];
    [|reflexivity].
  destruct (d2 !! _get_metadata_file (md5_hexdigest content)) as [meta|];
    [|reflexivity].
  destruct meta as [data|meta|raw]; try reflexivity.
  destruct (negb (meta_chunk_size meta =? chunk_size)%Z); [reflexivity|].
  destruct cached; reflexivity.
Qed.

(** What a caching leaves of the files of another name. *)
Lemma cache_embeddings_elsewhere (dump_fault json_fault : option str)
    (cache_dir : gmap string file) (content : str) (chunks : list str)
    (embeddings : list (list Q)) (chunk_size : Z) (now name : string) :
  name <> _get_cache_file (md5_hexdigest content) ->
  name <> _get_metadata_file (md5_hexdigest content) ->
  cache_embeddings md5_hexdigest dump_fault json_fault cache_dir content
    chunks embeddings chunk_size now !! name
  = cache_dir !! name.
Proof.
  intros Hc Hm. unfold cache_embeddings, _get_content_hash, unlink_both.
  destruct dump_fault as [e|].
  - now rewrite !lookup_delete_ne by congruence.
  - destruct json_fault as [e|].
    + rewrite !lookup_delete_ne by congruence.
      now rewrite lookup_insert_ne by congruence.
    + now rewrite !lookup_insert_ne by congruence.
Qed.

(** X21. When one of the two writes of [cache_embeddings] raises (and the
    clean-up can unlink), nothing is cached for that content: both its files
    are gone, also those of an earlier successful caching, a lookup with any
    chunk size misses and leaves the directory as it is, and the files of
    every other name are untouched. *)
Theorem cache_embeddings_failed_write (dump_fault json_fault : option str)
    (cache_dir : gmap string file) (content : str) (chunks : list str)
    (embeddings : list (list Q)) (chunk_size : Z) (now : string) :
  dump_fault <> None \/ json_fault <> None ->
  let cache_dir' :=
    cache_embeddings md5_hexdigest dump_fault json_fault cache_dir content
      chunks embeddings chunk_size now in
  cache_dir' !! _get_cache_file (md5_hexdigest content) = None
  /\ cache_dir' !! _get_metadata_file (md5_hexdigest content) = None
  /\ (forall lookup_size : Z,
        get_cached_embeddings md5_hexdigest cache_dir' content lookup_size
        = (None, cache_dir'))
  /\ (forall name : string,
        name <> _get_cache_file (md5_hexdigest content) ->
        name <> _get_metadata_file (md5_hexdigest content) ->
        cache_dir' !! name = cache_dir !! name).
Proof.
  intros Hfault cache_dir'.
  pose proof (cache_file_not_metadata_file (md5_hexdigest content)) as Hne.
  assert (Hc : cache_dir' !! _get_cache_file (md5_hexdigest content) = None).
  { unfold cache_dir', cache_embeddings, _get_content_hash, unlink_both.
    destruct dump_fault as [e|].
    - rewrite lookup_delete_ne by congruence. apply lookup_delete_eq.
    - destruct json_fault as [e|]; [|destruct Hfault; congruence].
      rewrite lookup_delete_ne by congruence. apply lookup_delete_eq. }
  assert (Hm : cache_dir' !! _get_metadata_file (md5_hexdigest content)
               = None).
  { unfold cache_dir', cache_embeddings, _get_content_hash, unlink_both.
    destruct dump_fault as [e|].
    - apply lookup_delete_eq.
    - destruct json_fault as [e|]; [|destruct Hfault; congruence].
      apply lookup_delete_eq. }
  repeat split; try assumption.
  - intros lookup_size. unfold get_cached_embeddings, _get_content_hash.
    now rewrite Hc.
  - intros name Hn1 Hn2. now apply cache_embeddings_elsewhere.
Qed.

(** X22. A lookup touches nothing but the two files of its content, and
    only to remove them when they cannot be loaded: every other file is as
    before, a hit leaves the whole directory as it is, and asking again gives
    the same answer and changes nothing more. *)
Theorem get_cached_embeddings_footprint (cache_dir : gmap string file)
    (content : str) (chunk_size : Z) :
  let result :=
    get_cached_embeddings md5_hexdigest cache_dir content chunk_size in
  (forall name : string,
     name <> _get_cache_file (md5_hexdigest content) ->
     name <> _get_metadata_file (md5_hexdigest content) ->
     snd result !! name = cache_dir !! name)
  /\ (fst result <> None -> snd result = cache_dir)
  /\ get_cached_embeddings md5_hexdigest (snd result) content chunk_size
     = result.
Proof.
  cbv zeta. unfold get_cached_embeddings, _get_content_hash.
  set (cf := _get_cache_file (md5_hexdigest content)).
  set (mf := _get_metadata_file (md5_hexdigest content)).
  assert (Hgone : forall d : gmap string file,
            match unlink_both d cf mf !! cf, unlink_both d cf mf !! mf with
            | Some cached, Some meta_file =>
                match meta_file with
                | Json meta =>
                    if negb (meta_chunk_size meta =? chunk_size)%Z
                    then (None, unlink_both d cf mf)
                    else
                      match cached with
                      | Pickle cached_data =>
                          (Some cached_data, unlink_both d cf mf)
                      | _ => (None, unlink_both (unlink_both d cf mf) cf mf)
                      end
                | _ => (None, unlink_both (unlink_both d cf mf) cf mf)
                end
            | _, _ => (None, unlink_both d cf mf)
            end = (@None cache_data, unlink_both d cf mf)).
  { intros d. unfold unlink_both at 1.
    rewrite lookup_delete_ne
      by (apply not_eq_sym, cache_file_not_metadata_file).
    now rewrite lookup_delete_eq. }
  assert (Helse : forall (d : gmap string file) (name : string),
            name <> cf -> name <> mf -> unlink_both d cf mf !! name = d !! name).
  { intros d name H1 H2. unfold unlink_both.
    now rewrite !lookup_delete_ne by congruence. }
  destruct (cache_dir !! cf) as [cached|] eqn:Hc.
  2: { cbn [fst snd]. rewrite Hc. repeat split; congruence. }
  destruct (cache_dir !! mf) as [meta_file|] eqn:Hm.
  2: { cbn [fst snd]. rewrite Hc, Hm. repeat split; congruence. }
  destruct meta_file as [data|meta|raw].
  - cbn [fst snd]. repeat split; [now apply Helse|congruence|apply Hgone].
  - destruct (negb (meta_chunk_size meta =? chunk_size)%Z) eqn:Hsize.
    + cbn [fst snd]. rewrite Hc, Hm, Hsize. repeat split; congruence.
    + destruct cached as [data|meta'|raw].
      * cbn [fst snd]. rewrite Hc, Hm, Hsize. repeat split; congruence.
      * cbn [fst snd].
        repeat split; [now apply Helse|congruence|apply Hgone].
      * cbn [fst snd].
        repeat split; [now apply Helse|congruence|apply Hgone].
  - cbn [fst snd]. repeat split; [now apply Helse|congruence|apply Hgone].
Qed.

(** X23. Entries of contents with different digests do not interfere:
    caching one content, with or without a failing write, does not change
    what a lookup of a content with another digest returns. *)
Theorem cache_embeddings_independent (dump_fault json_fault : option str)
    (cache_dir : gmap string file) (content other : str)
    (chunks : list str) (embeddings : list (list Q))
    (chunk_size lookup_size : Z) (now : string) :
  md5_hexdigest other <> md5_hexdigest content ->
  fst (get_cached_embeddings md5_hexdigest
         (cache_embeddings md5_hexdigest dump_fault json_fault cache_dir
            other chunks embeddings chunk_size now)
         content lookup_size)
  = fst (get_cached_embeddings md5_hexdigest cache_dir content lookup_size).
Proof.
  intros Hdigest.
  apply get_cached_embeddings_reads; apply cache_embeddings_elsewhere.
  - intros H. apply cache_file_inj in H. congruence.
  - apply cache_file_ne_metadata_file.
  - intros H. symmetry in H. now apply cache_file_ne_metadata_file in H.
  - intros H. apply metadata_file_inj in H. congruence.
Qed.

(** X24. After [clear_cache] (when no unlink raises) every lookup misses,
    for every content and every chunk size, and leaves the directory as it
    is; a file whose name matches neither [embeddings_*.pkl] nor
    [metadata_*.json] is kept. *)
Theorem clear_cache_forgets (cache_dir : gmap string file) :
  (forall (content : str) (chunk_size : Z),
     get_cached_embeddings md5_hexdigest
       (CacheClearing.clear_cache cache_dir) content chunk_size
     = (None, CacheClearing.clear_cache cache_dir))
  /\ (forall name : string,
        CacheClearing.glob_star "embeddings_" ".pkl" name = false ->
        CacheClearing.glob_star "metadata_" ".json" name = false ->
        CacheClearing.clear_cache cache_dir !! name = cache_dir !! name).
Proof.
  split.
  - intros content chunk_size.
    unfold get_cached_embeddings, _get_content_hash.
    assert (Hc : CacheClearing.clear_cache cache_dir
                   !! _get_cache_file (md5_hexdigest content) = None).
    { unfold CacheClearing.clear_cache. apply map_lookup_filter_None.
      right. intros x _ [Hglob _]. cbn [fst] in Hglob.
      assert (Hmatch : CacheClearing.glob_star "embeddings_" ".pkl"
                         (_get_cache_file (md5_hexdigest content)) = true).
      { unfold CacheClearing.glob_star, _get_cache_file.
        rewrite prefix_append, ends_with_append_2, !andb_true_r.
        apply Nat.leb_le. rewrite !string_length_append.
        cbn [String.length]. lia. }
      congruence. }
    now rewrite Hc.
  - intros name H1 H2. unfold CacheClearing.clear_cache.
    destruct (cache_dir !! name) as [f|] eqn:Hf.
    + apply map_lookup_filter_Some. split; [assumption|]. now split.
    + apply map_lookup_filter_None. now left.
Qed.

End EmbeddingsCacheEdges.

Lemma cache_embeddings_failed_write_witness :
  EmbeddingsCache.cache_embeddings EmbeddingsCache.toy_digest
    None (Some (py "No space left on device"))
    (EmbeddingsCache.cache_embeddings EmbeddingsCache.toy_digest None None ∅
       (py "One chunk.") [py "One chunk."] [[1; 0]%Q] 500
       "2025-01-01T00:00:00")
    (py "One chunk.") [py "One chunk."] [[1; 0]%Q] 500 "2025-01-02T00:00:00"
    !! EmbeddingsCache._get_cache_file
         (EmbeddingsCache.toy_digest (py "One chunk."))
  = None.
Proof.
  apply (cache_embeddings_failed_write EmbeddingsCache.toy_digest
           None (Some (py "No space left on device"))).
  right. discriminate.
Defined.

Lemma get_cached_embeddings_footprint_witness :
  snd (EmbeddingsCache.get_cached_embeddings EmbeddingsCache.toy_digest
         broken_dir (py "One chunk.") 500)
    !! "notes.txt"
  = broken_dir !! "notes.txt".
Proof.
  apply (get_cached_embeddings_footprint EmbeddingsCache.toy_digest).
  - vm_compute. discriminate.
  - vm_compute. discriminate.
Defined.

Lemma cache_embeddings_independent_witness :
  fst (EmbeddingsCache.get_cached_embeddings EmbeddingsCache.toy_digest
         (EmbeddingsCache.cache_embeddings EmbeddingsCache.toy_digest
            None None ∅ (py "Another text.") [py "Another text."] [[0; 1]%Q]
            1000 "2025-01-01T00:00:00")
         (py "One chunk.") 1000)
  = fst (EmbeddingsCache.get_cached_embeddings EmbeddingsCache.toy_digest
           ∅ (py "One chunk.") 1000).
Proof.
  apply (cache_embeddings_independent EmbeddingsCache.toy_digest).
  vm_compute. discriminate.
Defined.

Lemma clear_cache_forgets_witness :
  CacheClearing.clear_cache notes_dir !! "notes.txt"
  = notes_dir !! "notes.txt".
Proof.
  apply (proj2 (clear_cache_forgets EmbeddingsCache.toy_digest notes_dir)).
  - vm_compute. reflexivity.
  - vm_compute. reflexivity.
Defined.

(** *** The backend's gateway *)

Section AzureChatFacts.

Variable post : str -> payload -> nat -> outcome response.

Lemma azure_attempts_first_answer (access_token : str) (request : payload)
    (c : str) (k : nat) :
  forall remaining attempt : nat,
  attempt + remaining = max_retries ->
  k < remaining ->
  (forall j : nat, j < k ->
     answer_of (post access_token request (attempt + j)) = None) ->
  answer_of (post access_token request (attempt + k)) = Some c ->
  snd (azure_attempts_from post access_token request remaining attempt)
  = Ret c
  /\ requests
       (fst (azure_attempts_from post access_token request remaining attempt))
     = S k.
Proof.
  induction k as [|k IH]; intros remaining a Hsum Hk Hnone Hans.
  - destruct remaining as [|n]; [lia|].
    cbn [azure_attempts_from]. rewrite Nat.add_0_r in Hans.
    unfold answer_of in Hans.
    destruct (post access_token request a) as [r|e]; [|discriminate].
    destruct (status_code r =? 200)%Z; [|discriminate].
    destruct (content r) as [c'|e]; [|discriminate].
    injection Hans as <-. now split.
  - destruct remaining as [|n]; [lia|].
    assert (Hnext :
      snd (azure_attempts_from post access_token request n (S a)) = Ret c
      /\ requests
           (fst (azure_attempts_from post access_token request n (S a)))
         = S k).
    { apply IH; [lia|lia| |].
      - intros j Hj. replace (S a + j) with (a + S j) by lia.
        apply Hnone. lia.
      - now replace (S a + k) with (a + S k) by lia. }
    assert (Hnotlast : (a =? max_retries - 1)%nat = false)
      by (apply Nat.eqb_neq; unfold max_retries in *; lia).
    pose proof (Hnone 0 ltac:(lia)) as H0. rewrite Nat.add_0_r in H0.
    cbn [azure_attempts_from]. rewrite Hnotlast.
    destruct (azure_attempts_from post access_token request n (S a))
      as [t ans].
    cbn [fst snd] in Hnext. destruct Hnext as [-> Hreq].
    unfold answer_of in H0.
    destruct (post access_token request a) as [r0|e0].
    + destruct (status_code r0 =? 200)%Z.
      * destruct (content r0) as [c'|e]; [discriminate|].
        cbn [fst snd]. split; [reflexivity|count_requests].
      * destruct (status_code r0 =? 429)%Z;
          cbn [fst snd]; (split; [reflexivity|count_requests]).
    + cbn [fst snd]. split; [reflexivity|count_requests].
Qed.

Lemma azure_attempts_no_answer (access_token : str) (request : payload) :
  forall remaining attempt : nat,
  attempt + remaining = max_retries ->
  0 < remaining ->
  (forall j : nat, j < remaining ->
     answer_of (post access_token request (attempt + j)) = None) ->
  snd (azure_attempts_from post access_token request remaining attempt)
  = Raise (last_failure (post access_token request (max_retries - 1)))
  /\ requests
       (fst (azure_attempts_from post access_token request remaining attempt))
     = remaining.
Proof.
  induction remaining as [|n IH]; intros a Hsum Hpos Hnone; [lia|].
  pose proof (Hnone 0 ltac:(lia)) as H0. rewrite Nat.add_0_r in H0.
  cbn [azure_attempts_from].
  destruct (Nat.eqb_spec a (max_retries - 1)) as [Hlast|Hmore].
  - assert (n = 0) as -> by (unfold max_retries in *; lia).
    rewrite <- Hlast. unfold answer_of in H0. unfold last_failure.
    cbn [azure_attempts_from].
    destruct (post access_token request a) as [r0|e0]; [|now split].
    destruct (status_code r0 =? 200)%Z.
    + destruct (content r0) as [c'|e]; [discriminate|now split].
    + destruct (status_code r0 =? 429)%Z; now split.
  - assert (Hnext :
      snd (azure_attempts_from post access_token request n (S a))
      = Raise (last_failure (post access_token request (max_retries - 1)))
      /\ requests
           (fst (azure_attempts_from post access_token request n (S a)))
         = n).
    { apply IH; [lia|unfold max_retries in *; lia|].
      intros j Hj. replace (S a + j) with (a + S j) by lia.
      apply Hnone. lia. }
    destruct (azure_attempts_from post access_token request n (S a))
      as [t ans].
    cbn [fst snd] in Hnext. destruct Hnext as [-> Hreq].
    unfold answer_of in H0.
    destruct (post access_token request a) as [r0|e0].
    + destruct (status_code r0 =? 200)%Z.
      * destruct (content r0) as [c'|e]; [discriminate|].
        cbn [fst snd]. split; [reflexivity|count_requests].
      * destruct (status_code r0 =? 429)%Z;
          cbn [fst snd]; (split; [reflexivity|count_requests]).
    + cbn [fst snd]. split; [reflexivity|count_requests].
Qed.

(** X25. [_azure_chat_completion] raises where [make_api_call] answers with
    an error text, and it retries API errors: once the token is had, the
    content of the first readable 200 among the three attempts is returned,
    whatever the attempts before it were (faults, 429 or any other status),
    after as many requests; and when none of the three attempts answers, a
    fault is raised after exactly three requests, that of the third
    attempt. *)
Theorem azure_chat_completion_result (access_token : str)
    (request : payload) :
  (forall (k : nat) (c : str),
     k < 3 ->
     (forall j : nat, j < k ->
        answer_of (post access_token request j) = None) ->
     answer_of (post access_token request k) = Some c ->
     snd (_azure_chat_completion post (Ret access_token) request) = Ret c
     /\ requests (fst (_azure_chat_completion post (Ret access_token) request))
        = S k)
  /\ ((forall j : nat, j < 3 ->
         answer_of (post access_token request j) = None) ->
      snd (_azure_chat_completion post (Ret access_token) request)
      = Raise (last_failure (post access_token request 2))
      /\ requests (fst (_azure_chat_completion post (Ret access_token) request))
         = 3).
Proof.
  split.
  - intros k c Hk Hnone Hans.
    exact (azure_attempts_first_answer access_token request c k
             max_retries 0 eq_refl Hk Hnone Hans).
  - intros Hnone.
    exact (azure_attempts_no_answer access_token request max_retries 0
             eq_refl ltac:(unfold max_retries; lia) Hnone).
Qed.

End AzureChatFacts.

Lemma azure_chat_completion_result_witness :
  (snd (_azure_chat_completion flaky_post (Ret (py "token"))
          {| messages := []; max_completion_tokens := 2000;
             temperature := 1 # 10 |})
   = Ret (py "Hello")
   /\ requests
        (fst (_azure_chat_completion flaky_post (Ret (py "token"))
                {| messages := []; max_completion_tokens := 2000;
                   temperature := 1 # 10 |}))
      = 3)
  /\ snd (_azure_chat_completion failing_post (Ret (py "token"))
            {| messages := []; max_completion_tokens := 2000;
               temperature := 1 # 10 |})
     = Raise (py "Azure API Error: 500 - Internal Server Error").
Proof.
  split.
  - apply (proj1 (azure_chat_completion_result flaky_post (py "token")
                    {| messages := []; max_completion_tokens := 2000;
                       temperature := 1 # 10 |}) 2 (py "Hello")).
    + lia.
    + intros j Hj.
      assert (j = 0 \/ j = 1) as [-> | ->] by lia; reflexivity.
    + reflexivity.
  - apply (proj2 (azure_chat_completion_result failing_post (py "token")
                    {| messages := []; max_completion_tokens := 2000;
                       temperature := 1 # 10 |})).
    intros j Hj. reflexivity.
Defined.

(** *** The backend's extraction loop *)

Section ExtractionFacts.

Import OpenAIClient AIAnalysisEngine.

Variable value : Type.
Variable py_str : value -> outcome str.
Variable py_exec : str -> str -> outcome (str * str * list (str * value)).

Lemma extraction_iterations_outcome (s : Services) (prompt file_content : str)
    (remaining : nat) : forall iteration : nat,
  iteration + remaining = max_iterations ->
  let run :=
    extraction_iterations value py_str py_exec s prompt file_content
      remaining iteration in
  (snd run = completed_message
   \/ exists i : nat,
        iteration <= i < max_iterations
        /\ let result :=
             execute_script_safely value py_str py_exec
               (generate_script s i prompt file_content) file_content in
           success result = true
           /\ strip (stdout result) <> []
           /\ snd run = py "Analysis Results:" ++ [newline] ++ stdout result)
  /\ generations (fst run) <= remaining
  /\ executions (fst run) <= remaining
  /\ refinements (fst run) <= max_iterations - 1 - iteration.
Proof.
  induction remaining as [|n IH]; intros iteration Hsum; cbv zeta.
  { cbn [extraction_iterations fst snd]. repeat split; try (now left).
    all: unfold generations, executions, refinements; cbn; lia. }
  specialize (IH (S iteration) ltac:(lia)). cbv zeta in IH.
  assert (Hnext : forall t : list engine_event,
            generations t <= 1 -> executions t <= 1 ->
            refinements t <= 1 /\ iteration < max_iterations - 1
            \/ refinements t = 0 ->
            let run :=
              (let (t', answer) :=
                 extraction_iterations value py_str py_exec s prompt
                   file_content n (S iteration) in
               (t ++ t', answer)) in
            (snd run = completed_message
             \/ exists i : nat,
                  iteration <= i < max_iterations
                  /\ let result :=
                       execute_script_safely value py_str py_exec
                         (generate_script s i prompt file_content)
                         file_content in
                     success result = true
                     /\ strip (stdout result) <> []
                     /\ snd run
                        = py "Analysis Results:" ++ [newline] ++ stdout result)
            /\ generations (fst run) <= S n
            /\ executions (fst run) <= S n
            /\ refinements (fst run) <= max_iterations - 1 - iteration).
  { intros t Hg He Hr. cbv zeta.
    destruct (extraction_iterations value py_str py_exec s prompt
                file_content n (S iteration)) as [t' answer].
    cbn [fst snd] in *.
    destruct IH as (Hans & Hg' & He' & Hr').
    split; [|split; [|split]].
    - destruct Hans as [Hdone|(i & Hi & Hres)]; [now left|].
      right. exists i. split; [lia|exact Hres].
    - unfold generations in *. rewrite List.filter_app, length_app. lia.
    - unfold executions in *. rewrite List.filter_app, length_app. lia.
    - unfold refinements in *. rewrite List.filter_app, length_app.
      unfold max_iterations in *. lia. }
  cbn [extraction_iterations].
  set (script_code := generate_script s iteration prompt file_content).
  destruct (is_nil script_code || contains (py "Error generating script")
                                    script_code).
  { apply Hnext; [| |right]; unfold generations, executions, refinements;
      cbn; lia. }
  destruct (success _ && negb (is_nil (strip (stdout _)))) eqn:Hok.
  { cbn [fst snd]. split; [|repeat split].
    - right. exists iteration. split; [unfold max_iterations in *; lia|].
      apply andb_true_iff in Hok. destruct Hok as [Hs Hout].
      cbv zeta. fold script_code. repeat split; try assumption.
      intros Hnil. rewrite Hnil in Hout. discriminate.
    - unfold generations; cbn; lia.
    - unfold executions; cbn; lia.
    - unfold refinements; cbn; lia. }
  destruct (Nat.ltb_spec iteration (max_iterations - 1)) as [Hmore|Hlast].
  - destruct (chat_fix s iteration _ prompt _) as [fixed|e].
    + apply Hnext; [| |left; split; [|exact Hmore]];
        unfold generations, executions, refinements; cbn; lia.
    + cbn [fst snd]. split; [now left|repeat split].
      * unfold generations; cbn; lia.
      * unfold executions; cbn; lia.
      * unfold refinements; cbn; unfold max_iterations in *; lia.
  - apply Hnext; [| |right]; unfold generations, executions, refinements;
      cbn; lia.
Qed.

(** X26. [process_with_extraction] answers either with "Analysis Results:"
    followed by the output of a script that one of its three generation
    requests returned, ran with success and printed something other than
    whitespace, or with the text "Script generation completed after 3
    attempts. Please check the results."; it asks for at most three scripts,
    runs at most three, and asks for at most two refinements. *)
Theorem process_with_extraction_outcome (s : Services)
    (prompt file_content : str) :
  let run :=
    process_with_extraction value py_str py_exec s prompt file_content in
  (snd run = completed_message
   \/ exists i : nat,
        i < 3
        /\ let result :=
             execute_script_safely value py_str py_exec
               (generate_script s i prompt file_content) file_content in
           success result = true
           /\ strip (stdout result) <> []
           /\ snd run = py "Analysis Results:" ++ [newline] ++ stdout result)
  /\ generations (fst run) <= 3
  /\ executions (fst run) <= 3
  /\ refinements (fst run) <= 2.
Proof.
  cbv zeta. unfold process_with_extraction.
  destruct (extraction_iterations_outcome s prompt file_content
              max_iterations 0 eq_refl) as (Hans & Hg & He & Hr).
  cbv zeta in Hans. split; [|repeat split; assumption].
  destruct Hans as [Hdone|(i & Hi & Hres)]; [now left|].
  right. exists i. split; [unfold max_iterations in Hi; lia|exact Hres].
Qed.

Lemma extraction_iterations_fix_discarded (s1 s2 : Services)
    (prompt file_content : str) (remaining : nat) :
  (forall (i : nat) (p c : str), chat_script s1 i p c = chat_script s2 i p c) ->
  (forall (i : nat) (e p h : str),
     raises (chat_fix s1 i e p h) = raises (chat_fix s2 i e p h)) ->
  forall iteration : nat,
    extraction_iterations value py_str py_exec s1 prompt file_content
      remaining iteration
    = extraction_iterations value py_str py_exec s2 prompt file_content
        remaining iteration.
Proof.
  intros Hscript Hfix.
  induction remaining as [|n IH]; intros iteration; [reflexivity|].
  cbn [extraction_iterations].
  assert (Hgen : generate_script s1 iteration prompt file_content
                 = generate_script s2 iteration prompt file_content)
    by (unfold generate_script; now rewrite Hscript).
  rewrite Hgen, (IH (S iteration)).
  set (script_code := generate_script s2 iteration prompt file_content).
  destruct (is_nil script_code || contains (py "Error generating script")
                                    script_code); [reflexivity|].
  destruct (success _ && negb (is_nil (strip (stdout _)))); [reflexivity|].
  destruct (iteration <? max_iterations - 1)%nat; [|reflexivity].
  match goal with
  | |- context [chat_fix s1 iteration ?e prompt ?h] =>
      specialize (Hfix iteration e prompt h);
      destruct (chat_fix s1 iteration e prompt h),
               (chat_fix s2 iteration e prompt h)
  end; try discriminate; reflexivity.
Qed.

(** X27. The corrected script that the refinement request returns is never
    run and never returned: two services that answer the script requests
    alike, and whose refinement requests fail on the same inputs, give the
    same run of [process_with_extraction] (the same scripts asked for and
    run, the same answer), whatever the corrected scripts are.  The next
    iteration overwrites the corrected script with a newly generated one. *)
Theorem process_with_extraction_fix_discarded (s1 s2 : Services)
    (prompt file_content : str) :
  (forall (i : nat) (p c : str), chat_script s1 i p c = chat_script s2 i p c) ->
  (forall (i : nat) (e p h : str),
     raises (chat_fix s1 i e p h) = raises (chat_fix s2 i e p h)) ->
  process_with_extraction value py_str py_exec s1 prompt file_content
  = process_with_extraction value py_str py_exec s2 prompt file_content.
Proof.
  intros Hscript Hfix. unfold process_with_extraction.
  now apply extraction_iterations_fix_discarded.
Qed.

Lemma generate_script_fault (s : Services) (iteration : nat)
    (prompt file_content : str) :
  raises (chat_script s iteration prompt (content_preview file_content))
  = true ->
  is_nil (generate_script s iteration prompt file_content)
  || contains (py "Error generating script")
       (generate_script s iteration prompt file_content) = true.
Proof.
  unfold generate_script.
  destruct (chat_script s iteration prompt (content_preview file_content))
    as [script|e]; [discriminate|].
  intros _. reflexivity.
Qed.

(** X28. When each of the three script requests fails, whatever the fault,
    [process_with_extraction] asks three times, runs nothing, asks for no
    refinement and answers "Script generation completed after 3 attempts.
    Please check the results.": the fault of the gateway is not reported to
    the caller. *)
Theorem process_with_extraction_gateway_down (s : Services)
    (prompt file_content : str) :
  (forall i : nat, i < 3 ->
     raises (chat_script s i prompt (content_preview file_content)) = true) ->
  process_with_extraction value py_str py_exec s prompt file_content
  = ([EngGenerate 0; EngGenerate 1; EngGenerate 2], completed_message).
Proof.
  intros Hdown. unfold process_with_extraction, max_iterations.
  cbn [extraction_iterations].
  rewrite !generate_script_fault by (apply Hdown; lia).
  reflexivity.
Qed.

End ExtractionFacts.

Lemma process_with_extraction_fix_discarded_witness :
  AIAnalysisEngine.process_with_extraction Z OpenAIClient.int_str silent_exec
    (scripted_services (Ret (py "print('a')")) (Ret []))
    (py "count") (py "Complaint 001")
  = AIAnalysisEngine.process_with_extraction Z OpenAIClient.int_str silent_exec
      (scripted_services (Ret (py "print('b')")) (Ret []))
      (py "count") (py "Complaint 001").
Proof.
  apply (process_with_extraction_fix_discarded Z OpenAIClient.int_str silent_exec
           (scripted_services (Ret (py "print('a')")) (Ret []))
           (scripted_services (Ret (py "print('b')")) (Ret []))).
  - reflexivity.
  - reflexivity.
Defined.

Lemma process_with_extraction_gateway_down_witness :
  AIAnalysisEngine.process_with_extraction Z OpenAIClient.int_str silent_exec
    unreachable_services (py "count") (py "Complaint 001")
  = ([AIAnalysisEngine.EngGenerate 0; AIAnalysisEngine.EngGenerate 1;
      AIAnalysisEngine.EngGenerate 2],
     AIAnalysisEngine.completed_message).
Proof.
  apply (process_with_extraction_gateway_down Z OpenAIClient.int_str silent_exec
           unreachable_services).
  intros i Hi. reflexivity.
Defined.

(** *** The backend's retrieval path *)

Lemma mapM_list_get_some (chunks l : list str) (idxs : list nat) :
  mapM (list_get chunks) idxs = Ret l ->
  length l = length idxs /\ Forall (fun c => In c chunks) l.
Proof.
  revert l. induction idxs as [|i idxs IH]; intros l H; cbn [mapM] in H.
  - injection H as <-. split; [reflexivity|constructor].
  - unfold list_get at 1 in H.
    destruct (nth_error chunks i) as [c|] eqn:Hc; [|discriminate].
    destruct (mapM (list_get chunks) idxs) as [l'|e]; [|discriminate].
    injection H as <-. destruct (IH l' eq_refl) as [Hlen Hin].
    split; [cbn [length]; now rewrite Hlen|].
    constructor; [exact (nth_error_In _ _ Hc)|exact Hin].
Qed.

Lemma py_slice_from_last {A : Type} (l : list A) (k : Z) :
  (0 < k)%Z -> (Z.of_nat (length (py_slice_from l (- k))) <= k)%Z.
Proof.
  intros Hk. unfold py_slice_from, slice_bound. rewrite length_drop.
  destruct (Z.ltb_spec (- k) 0); lia.
Qed.

Lemma firstn_members {A : Type} (n : nat) (l : list A) :
  Forall (fun c => In c l) (firstn n l).
Proof.
  apply List.Forall_forall. intros c Hc.
  rewrite <- (firstn_skipn n l). apply in_or_app. now left.
Qed.

Lemma filter_length_le {A : Type} (p : A -> bool) (l : list A) :
  length (List.filter p l) <= length l.
Proof.
  induction l as [|a l IH]; cbn [List.filter length]; [lia|].
  destruct (p a); cbn [length]; lia.
Qed.




Section RetrievalFacts.

Import OpenAIClient AIAnalysisEngine.

Variable value : Type.
Variable py_str : value -> outcome str.
Variable py_exec : str -> str -> outcome (str * str * list (str * value)).
Variable cosine : list Q -> list Q -> Q.
Variable argsort : list Q -> list nat.
Variable s : Services.

Lemma find_similar_chunks_bound (query_embedding : list Q)
    (chunk_embeddings : list (list Q)) (chunks : list str) :
  length (find_similar_chunks cosine argsort query_embedding
            chunk_embeddings chunks 5) <= 5
  /\ Forall (fun c => In c chunks)
       (find_similar_chunks cosine argsort query_embedding chunk_embeddings
          chunks 5).
Proof.
  assert (Hfall : length (py_slice_to chunks 5) <= 5
                  /\ Forall (fun c => In c chunks) (py_slice_to chunks 5)).
  { rewrite py_slice_to_nonneg by lia. split; [|apply firstn_members].
    rewrite length_take. change (Z.to_nat 5) with 5. lia. }
  unfold find_similar_chunks.
  destruct (pairwise_cosine cosine query_embedding chunk_embeddings)
    as [similarities|e]; [|exact Hfall].
  cbn [bind].
  destruct (mapM (list_get chunks) _) as [l|e] eqn:Hl; [|exact Hfall].
  cbn [try_except].
  destruct (mapM_list_get_some _ _ _ Hl) as [Hlen Hin].
  split; [|exact Hin].
  rewrite Hlen.
  etransitivity; [apply filter_length_le|].
  rewrite length_rev.
  pose proof (py_slice_from_last (argsort similarities) 5 ltac:(lia)).
  change (- (5))%Z with (-5)%Z in *. lia.
Qed.

(** X29. Whatever the embeddings service and the ranking give, the context
    that [process_with_rag] builds for a document with at least one chunk is
    never empty, holds at most five chunks, and holds only chunks of the
    document: when the embeddings cannot be had it falls back on the first
    five chunks, and when no chunk is similar enough on the first three. *)
Theorem context_chunks_invariant (prompt : str) (chunks : list str) :
  chunks <> [] ->
  context_chunks cosine argsort s prompt chunks <> []
  /\ length (context_chunks cosine argsort s prompt chunks) <= 5
  /\ Forall (fun c => In c chunks)
       (context_chunks cosine argsort s prompt chunks).
Proof.
  intros Hne. unfold context_chunks.
  set (relevant_chunks := match bind _ _ with Ret _ => _ | Raise _ => _ end).
  assert (Hrel : length relevant_chunks <= 5
                 /\ Forall (fun c => In c chunks) relevant_chunks).
  { unfold relevant_chunks.
    destruct (bind _ _) as [[chunk_embeddings query_embedding]|e].
    - apply find_similar_chunks_bound.
    - rewrite py_slice_to_nonneg by lia. split; [|apply firstn_members].
      rewrite length_take. change (Z.to_nat 5) with 5. lia. }
  cbv zeta. destruct relevant_chunks as [|c l]; cbn [is_nil].
  - rewrite py_slice_to_nonneg by lia. change (Z.to_nat 3) with 3.
    split; [|split].
    + destruct chunks; [contradiction|discriminate].
    + rewrite length_take. lia.
    + apply firstn_members.
  - split; [discriminate|exact Hrel].
Qed.



End RetrievalFacts.

Lemma context_chunks_invariant_witness :
  AIAnalysisEngine.context_chunks dot argsort_insertion unreachable_services
    (py "compare") [py "One chunk."]
  <> [].
Proof.
  apply (context_chunks_invariant dot argsort_insertion unreachable_services
           (py "compare") [py "One chunk."]).
  discriminate.
Defined.

